(** * PowerPoint-AI-generator: a shallow embedding of [ppt.py]

    The program is a Streamlit page driving a [PPTGenerator] object: it asks
    a text-generation service for a JSON outline, lays the records out as
    slides with a document library, and fetches stock photos.  The embedding
    keeps the control flow of every method of [PPTGenerator] and of the
    button handler of [main].

    What lies outside the repository is kept abstract in a record [Env]:
    the wall clock, the text-generation endpoint, the photo service, the file
    system, [json.loads], and what Python's [str] and the document library do
    with values that are not strings.  Python strings are modelled as
    sequences of 8-bit characters; [lower] and [strip] act on the ASCII range.
    Wall-clock time is an exact rational number of seconds. *)

From Stdlib Require Import String Ascii List Bool ZArith QArith Lia Lqa DecimalString.
Import ListNotations.
#[local] Set Warnings "-register-all".
Open Scope string_scope.
Open Scope Z_scope.

(** ** Python string operations used by the program *)

Module PyStr.

Definition nl : string := String (ascii_of_nat 10) EmptyString.
Definition dquote : string := String (ascii_of_nat 34) EmptyString.

(** [s.startswith(p)] *)
Definition startswith (p s : string) : bool := String.prefix p s.

(** [needle in hay] *)
Fixpoint contains (needle hay : string) : bool :=
  startswith needle hay ||
  match hay with
  | EmptyString => false
  | String _ rest => contains needle rest
  end.

Definition lower_ascii (c : ascii) : ascii :=
  let n := nat_of_ascii c in
  if ((65 <=? n) && (n <=? 90))%nat then ascii_of_nat (n + 32) else c.

(** [s.lower()] *)
Fixpoint lower (s : string) : string :=
  match s with
  | EmptyString => EmptyString
  | String c rest => String (lower_ascii c) (lower rest)
  end.

(** The characters [str.strip()] removes: tab, LF, VT, FF, CR, the four
    separators 0x1c-0x1f and the space. *)
Definition is_space (c : ascii) : bool :=
  let n := nat_of_ascii c in
  (((9 <=? n) && (n <=? 13)) || ((28 <=? n) && (n <=? 32)))%nat.

Fixpoint lstrip (s : string) : string :=
  match s with
  | EmptyString => EmptyString
  | String c rest => if is_space c then lstrip rest else s
  end.

(** Drops trailing blanks: a character is kept when it is not a blank or
    when something is kept after it. *)
Fixpoint rstrip (s : string) : string :=
  match s with
  | EmptyString => EmptyString
  | String c rest =>
      match rstrip rest with
      | EmptyString => if is_space c then EmptyString else String c EmptyString
      | kept => String c kept
      end
  end.

(** [s.strip()] *)
Definition strip (s : string) : string := rstrip (lstrip s).

Fixpoint rev_string (acc s : string) : string :=
  match s with
  | EmptyString => acc
  | String c rest => rev_string (String c acc) rest
  end.

(** [s.split(sep)] for a non-empty separator: the scan runs left to right;
    [skip] counts the characters of a matched separator still to pass and
    [cur] holds the current piece, reversed. *)
Fixpoint split_aux (sep : string) (skip : nat) (cur s : string) : list string :=
  match s with
  | EmptyString => [rev_string EmptyString cur]
  | String c rest =>
      match skip with
      | S k => split_aux sep k cur rest
      | O =>
          if startswith sep s
          then rev_string EmptyString cur
                 :: split_aux sep (String.length sep - 1) EmptyString rest
          else split_aux sep 0 (String c cur) rest
      end
  end.

Definition split (sep s : string) : list string := split_aux sep 0 EmptyString s.

(** [sep.join(parts)] *)
Fixpoint join (sep : string) (parts : list string) : string :=
  match parts with
  | [] => EmptyString
  | [p] => p
  | p :: rest => p ++ sep ++ join sep rest
  end.

(** Truth value of a string: [if s:] *)
Definition truthy (s : string) : bool :=
  match s with EmptyString => false | _ => true end.

(** Decimal rendering of an integer, as an f-string does it. *)
Definition of_Z (z : Z) : string := NilZero.string_of_int (Z.to_int z).

End PyStr.

(** ** Values produced by [json.loads] *)

Inductive json : Type :=
| JNull
| JBool (b : bool)
| JNum (lexeme : string)
| JStr (s : string)
| JArr (items : list json)
| JObj (fields : list (string * json)).

(** [d.get(key, default)] on a dictionary given by its items. *)
Fixpoint dict_get (fields : list (string * json)) (key : string) (default : json) : json :=
  match fields with
  | [] => default
  | (k, v) :: rest => if String.eqb k key then v else dict_get rest key default
  end.

(** ** Exceptions, messages and observable events *)

(** A Python exception of class [Exception]: its class name and [str(e)]. *)
Record exn : Type := PyExn { exn_class : string; exn_str : string }.

(** The texts the page shows; the arguments are the values the f-strings
    interpolate. *)
Inductive message : Type :=
| MsgRateLimitWait (wait_time : Q)
| MsgRateLimitHit (wait_time retry max_retries : Z)
| MsgMaxRetries
| MsgServiceUnavailable (wait_time : Z)
| MsgServiceUnavailableAfter (max_retries : Z)
| MsgError (e : exn)
| MsgNotJson
| MsgErrorGenerating (e : exn)
| MsgCachedDescription (image_desc : string)
| MsgErrorDescription (e : exn)
| MsgErrorDownloading (e : exn)
| MsgErrorAddingImage (e : exn)
| MsgStarting (topic : string)
| MsgTotalSlides (num_slides : Z)
| MsgEstimatedTime (minutes : Z)
| MsgGeneratingSlide (index total : Z) (title : json)
| MsgGenerated
| MsgNoTopic
| MsgNoGeminiKey
| MsgNoPexelsKey
| MsgAnErrorOccurred (e : exn).

(** The calls of [generate_ppt] into the layout routines. *)
Inductive layout_call : Type :=
| TitleSlide (title : json) (subtitle : string)
| ContentSlide (title content : json) (include_image : bool)
| ImageSlide (title content : json) (image_query : string).

Inductive event : Type :=
| Sleep (seconds : Q)
| StInfo (m : message)
| StWarning (m : message)
| StError (m : message)
| StException (e : exn)
| StatusText (m : message)
| Progress (fraction : Q)
| PageRendered
| GenaiConfigure (api_key : string)
| GenerateContent (prompt : string)
| PexelsSearch (api_key query : string)
| ImageGet (url : string)
| Layout (c : layout_call)
| SavePresentation (output_file : string)
| DownloadButton (file_name : string)
| Balloons
| Footer.

(** ** Slides *)

Record paragraph : Type := Para {
  p_text : string;
  p_size : Z;                       (* Pt *)
  p_bold : bool;
  p_rgb : option (Z * Z * Z);
  p_centered : bool
}.

Record picture : Type := Pic {
  pic_path : string;
  pic_left : Q;                     (* Inches *)
  pic_top : Q;
  pic_width : option Q;
  pic_height : option Q
}.

Record slide : Type := Slide {
  s_layout : nat;
  s_title : option paragraph;
  s_subtitle : option paragraph;
  s_body : option paragraph;
  s_pictures : list picture
}.

Definition blank_slide (layout : nat) : slide :=
  Slide layout None None None [].

(** ** The world outside the repository *)

Inductive api_result : Type :=
| ApiText (text : string)           (* [response.text] *)
| ApiRaise (e : exn).

Inductive search_result : Type :=
| SearchRaise (e : exn)             (* transport, status, decoding or shape error *)
| SearchEmpty                       (* no ['photos'] *)
| SearchPhoto (original : string).  (* [data['photos'][0]['src']['original']] *)

Record Env : Type := {
  (** seconds that pass before the n-th reading of [time.time()] *)
  tick : nat -> Q;
  (** n-th call of [self.model.generate_content(prompt)] followed by [.text] *)
  gemini : nat -> string -> api_result;
  (** n-th photo search *)
  pexels_search : nat -> string -> search_result;
  (** n-th image download: the bytes, or the exception *)
  image_get : nat -> string -> string + exn;
  (** n-th [open(path, 'wb')]: on success the file exists, empty *)
  file_open : nat -> string -> option exn;
  (** n-th [f.write(bytes)] to a file just opened, and its closing *)
  file_write : nat -> string -> option exn;
  (** n-th [add_picture] *)
  add_picture : nat -> string -> option exn;
  (** [presentation.save] *)
  save : string -> option exn;
  (** [json.loads]: the value, or [JSONDecodeError] *)
  json_loads : string -> json + exn;
  (** [str(v)] for a value that is not a string *)
  py_repr : json -> string;
  (** what the document library's text setter makes of a non-string *)
  pptx_text : json -> string + exn
}.

(** The clock never runs backwards. *)
Definition monotone_clock (E : Env) : Prop := forall n, (0 <= tick E n)%Q.

(** ** Program state: the generator object, the clock and the counters that
       index the environment *)

Record World : Type := {
  api_key : string;
  pexel_key : string;
  clock : Q;
  clock_reads : nat;
  last_api_call : Q;
  api_call_count : Z;
  gemini_calls : nat;
  io_calls : nat;
  presentation : list slide;        (* newest slide first *)
  files : list string
}.

Definition min_delay : Q := 30.

(** ** A state-and-exception monad that also collects the events a
       computation emits, in order *)

Inductive result (A : Type) : Type :=
| Ok (a : A)
| Raised (e : exn).
Arguments Ok {A} a.
Arguments Raised {A} e.

Definition M (A : Type) : Type := World -> result A * World * list event.

Definition ret {A} (a : A) : M A := fun w => (Ok a, w, []).

Definition raise {A} (e : exn) : M A := fun w => (Raised e, w, []).

Definition bind {A B} (m : M A) (k : A -> M B) : M B :=
  fun w =>
    match m w with
    | (Ok a, w1, ev1) =>
        match k a w1 with
        | (r, w2, ev2) => (r, w2, (ev1 ++ ev2)%list)
        end
    | (Raised e, w1, ev1) => (Raised e, w1, ev1)
    end.

(** [try: m  except Exception as e: h e] *)
Definition try_except {A} (m : M A) (h : exn -> M A) : M A :=
  fun w =>
    match m w with
    | (Ok a, w1, ev1) => (Ok a, w1, ev1)
    | (Raised e, w1, ev1) =>
        match h e w1 with
        | (r, w2, ev2) => (r, w2, (ev1 ++ ev2)%list)
        end
    end.

Definition emit (e : event) : M unit := fun w => (Ok tt, w, [e]).

Definition gets {A} (f : World -> A) : M A := fun w => (Ok (f w), w, []).

Definition modify (f : World -> World) : M unit := fun w => (Ok tt, f w, []).

Declare Scope py_scope.
Delimit Scope py_scope with py.
Notation "x <- m ;; k" := (bind m (fun x => k))
  (at level 61, m at next level, right associativity) : py_scope.
Notation "m ;; k" := (bind m (fun _ => k))
  (at level 61, right associativity) : py_scope.
Open Scope py_scope.

Definition value_of {A} (x : result A * World * list event) : result A := fst (fst x).
Definition world_of {A} (x : result A * World * list event) : World := snd (fst x).
Definition events_of {A} (x : result A * World * list event) : list event := snd x.

(** ** World updates *)

Definition set_clock (t : Q) (n : nat) (w : World) : World :=
  {| api_key := api_key w; pexel_key := pexel_key w;
     clock := t; clock_reads := n; last_api_call := last_api_call w;
     api_call_count := api_call_count w; gemini_calls := gemini_calls w;
     io_calls := io_calls w; presentation := presentation w; files := files w |}.

Definition set_last_api_call (t : Q) (w : World) : World :=
  {| api_key := api_key w; pexel_key := pexel_key w;
     clock := clock w; clock_reads := clock_reads w; last_api_call := t;
     api_call_count := api_call_count w + 1; gemini_calls := gemini_calls w;
     io_calls := io_calls w; presentation := presentation w; files := files w |}.

Definition bump_gemini (w : World) : World :=
  {| api_key := api_key w; pexel_key := pexel_key w;
     clock := clock w; clock_reads := clock_reads w; last_api_call := last_api_call w;
     api_call_count := api_call_count w; gemini_calls := S (gemini_calls w);
     io_calls := io_calls w; presentation := presentation w; files := files w |}.

Definition bump_io (w : World) : World :=
  {| api_key := api_key w; pexel_key := pexel_key w;
     clock := clock w; clock_reads := clock_reads w; last_api_call := last_api_call w;
     api_call_count := api_call_count w; gemini_calls := gemini_calls w;
     io_calls := S (io_calls w); presentation := presentation w; files := files w |}.

Definition set_presentation (p : list slide) (w : World) : World :=
  {| api_key := api_key w; pexel_key := pexel_key w;
     clock := clock w; clock_reads := clock_reads w; last_api_call := last_api_call w;
     api_call_count := api_call_count w; gemini_calls := gemini_calls w;
     io_calls := io_calls w; presentation := p; files := files w |}.

Definition set_files (f : list string) (w : World) : World :=
  {| api_key := api_key w; pexel_key := pexel_key w;
     clock := clock w; clock_reads := clock_reads w; last_api_call := last_api_call w;
     api_call_count := api_call_count w; gemini_calls := gemini_calls w;
     io_calls := io_calls w; presentation := presentation w; files := f |}.

(** ** [PPTGenerator]: rate limiting and retries *)

Section Generator.

Context (E : Env).

(** [time.time()]: the clock advances by the next tick and is read. *)
Definition time_time : M Q :=
  fun w =>
    let t := (clock w + tick E (clock_reads w))%Q in
    (Ok t, set_clock t (S (clock_reads w)) w, []).

(** [time.sleep(d)] *)
Definition time_sleep (d : Q) : M unit :=
  fun w => (Ok tt, set_clock (clock w + d)%Q (clock_reads w) w, [Sleep d]).

Definition _wait_for_rate_limit : M unit :=
  current_time <- time_time ;;
  last <- gets last_api_call ;;
  let time_since_last_call := (current_time - last)%Q in
  (if Qlt_le_dec time_since_last_call min_delay
   then
     let wait_time := (min_delay - time_since_last_call)%Q in
     emit (StInfo (MsgRateLimitWait wait_time)) ;;
     time_sleep wait_time
   else ret tt) ;;
  t <- time_time ;;
  modify (set_last_api_call t).

(** The two tests on [str(e)] in the handler of [_retry_api_call]. *)
Definition is_quota_error (error_msg : string) : bool :=
  PyStr.contains "429" error_msg || PyStr.contains "quota" (PyStr.lower error_msg).

Definition is_503_error (error_msg : string) : bool :=
  PyStr.contains "503" error_msg.

(** The body of [for attempt in range(max_retries)], with [remaining]
    iterations still to run from [attempt] on. *)
Fixpoint retry_loop {A} (func : M A) (max_retries : Z) (remaining : nat) (attempt : Z)
  : M (option A) :=
  match remaining with
  | O => ret None
  | S k =>
      try_except
        (_wait_for_rate_limit ;;
         r <- func ;;
         ret (Some r))
        (fun e =>
           let error_msg := exn_str e in
           if is_quota_error error_msg then
             if attempt <? max_retries - 1 then
               let wait_time := 45 * (attempt + 1) in
               emit (StWarning (MsgRateLimitHit wait_time (attempt + 2) max_retries)) ;;
               time_sleep (inject_Z wait_time) ;;
               retry_loop func max_retries k (attempt + 1)
             else
               emit (StError MsgMaxRetries) ;;
               ret None
           else if is_503_error error_msg then
             if attempt <? max_retries - 1 then
               let wait_time := 5 * (attempt + 1) in
               emit (StWarning (MsgServiceUnavailable wait_time)) ;;
               time_sleep (inject_Z wait_time) ;;
               retry_loop func max_retries k (attempt + 1)
             else
               emit (StError (MsgServiceUnavailableAfter max_retries)) ;;
               ret None
           else
             emit (StError (MsgError e)) ;;
             ret None)
  end.

Definition _retry_api_call {A} (func : M A) (max_retries : Z) : M (option A) :=
  retry_loop func max_retries (Z.to_nat max_retries) 0.

(** The closure [_generate] of both callers: one request, then
    [response.text.strip()]. *)
Definition _generate (prompt : string) : M string :=
  n <- gets gemini_calls ;;
  modify bump_gemini ;;
  emit (GenerateContent prompt) ;;
  match gemini E n prompt with
  | ApiText text => ret (PyStr.strip text)
  | ApiRaise e => raise e
  end.

(** ** Outline generation *)

Definition outline_prompt (topic : string) (num_slides : Z) : string :=
  PyStr.join PyStr.nl
    [ EmptyString;
      "        Create a detailed outline for a PowerPoint presentation on "
        ++ PyStr.dquote ++ topic ++ PyStr.dquote ++ " with "
        ++ PyStr.of_Z num_slides ++ " slides.";
      "        Return the response as a JSON array with the following structure:";
      "        [";
      "          {";
      "            " ++ PyStr.dquote ++ "title" ++ PyStr.dquote ++ ": "
        ++ PyStr.dquote ++ "Slide Title" ++ PyStr.dquote ++ ",";
      "            " ++ PyStr.dquote ++ "content" ++ PyStr.dquote ++ ": "
        ++ PyStr.dquote ++ "Main content points as bullet points" ++ PyStr.dquote ++ ",";
      "            " ++ PyStr.dquote ++ "slide_type" ++ PyStr.dquote ++ ": "
        ++ PyStr.dquote ++ "title | content | image | conclusion" ++ PyStr.dquote;
      "          }";
      "        ]";
      "        Make sure the content is engaging, informative, and well-structured.";
      "        The response must be a valid JSON array.";
      "        " ].

Definition record (title content slide_type : string) : json :=
  JObj [("title", JStr title); ("content", JStr content); ("slide_type", JStr slide_type)].

Definition _get_fallback_content (topic : string) : json :=
  JArr
    [ record topic "Introduction and Overview" "title";
      record "Background" "Key background information" "content";
      record "Main Points" "Important details and examples" "content";
      record "Analysis" "Critical analysis and insights" "content";
      record "Future Outlook" "Trends and predictions" "content";
      record "Conclusion" "Summary and takeaways" "conclusion" ].

(** [parts[i]] *)
Definition index (parts : list string) (i : nat) : M string :=
  match nth_error parts i with
  | Some x => ret x
  | None => raise (PyExn "IndexError" "list index out of range")
  end.

Definition fence_json : string := "```json".
Definition fence : string := "```".

(** Lines 100-103: the text between the code fences, when there are any. *)
Definition strip_fences (content : string) : M string :=
  if PyStr.contains fence_json content then
    after <- index (PyStr.split fence_json content) 1 ;;
    inner <- index (PyStr.split fence after) 0 ;;
    ret (PyStr.strip inner)
  else if PyStr.contains fence content then
    inner <- index (PyStr.split fence content) 1 ;;
    ret (PyStr.strip inner)
  else ret content.

Definition generate_content_outlines (topic : string) (num_slides : Z) : M json :=
  let prompt := outline_prompt topic num_slides in
  try_except
    (content <- _retry_api_call (_generate prompt) 3 ;;
     content <- match content with
                | None => raise (PyExn "ValueError" "Failed to generate content after retries")
                | Some c => ret c
                end ;;
     content <- strip_fences content ;;
     if negb (PyStr.startswith "[" content) then
       emit (StWarning MsgNotJson) ;;
       ret (_get_fallback_content topic)
     else
       match json_loads E content with
       | inl v => ret v
       | inr e => raise e
       end)
    (fun e =>
       emit (StError (MsgErrorGenerating e)) ;;
       ret (_get_fallback_content topic)).

(** ** Image descriptions and downloads *)

Definition keyword_map : list (string * string) :=
  [ ("introduction", "professional business presentation");
    ("conclusion", "success celebration team");
    ("future", "futuristic technology innovation");
    ("challenge", "business strategy planning");
    ("benefit", "growth success chart");
    ("process", "workflow diagram business");
    ("team", "diverse team collaboration");
    ("ai", "artificial intelligence technology");
    ("movie", "film production cinema");
    ("production", "movie set film making");
    ("technology", "modern technology innovation") ].

(** The first entry of the map whose keyword occurs in the text. *)
Fixpoint find_keyword (map : list (string * string)) (content_lower : string)
  : option string :=
  match map with
  | [] => None
  | (keyword, image_desc) :: rest =>
      if PyStr.contains keyword content_lower then Some image_desc
      else find_keyword rest content_lower
  end.

Definition description_prompt (slide_content : string) : string :=
  PyStr.join PyStr.nl
    [ EmptyString;
      "        Based on this slide content, suggest a relevant image description that would enhance the presentation";
      "        " ++ slide_content;
      "        Return only a brief, descriptive phrase suitable for image search (max 7 words)";
      "        " ].

Definition default_description : string := "professional presentation visual".

Definition generative_image_description (slide_content : string) : M string :=
  let content_lower := PyStr.lower slide_content in
  match find_keyword keyword_map content_lower with
  | Some image_desc =>
      emit (StInfo (MsgCachedDescription image_desc)) ;;
      ret image_desc
  | None =>
      let prompt := description_prompt slide_content in
      try_except
        (result <- _retry_api_call (_generate prompt) 3 ;;
         match result with
         | Some r => if PyStr.truthy r then ret r else ret default_description
         | None => ret default_description
         end)
        (fun e =>
           emit (StError (MsgErrorDescription e)) ;;
           ret default_description)
  end.

(** The next answer of the environment to an input or output operation. *)
Definition next_io {A} (oracle : nat -> A) : M A :=
  n <- gets io_calls ;;
  modify bump_io ;;
  ret (oracle n).

Definition add_file (path : string) (w : World) : World :=
  set_files (path :: filter (fun f => negb (String.eqb f path)) (files w)) w.

Definition remove_file (path : string) (w : World) : World :=
  set_files (filter (fun f => negb (String.eqb f path)) (files w)) w.

(** [os.path.exists(path)] *)
Definition path_exists (path : string) : M bool :=
  gets (fun w => existsb (String.eqb path) (files w)).

Definition temp_image : string := "temp_image.jpg".

(** [download_images(query)], with the default [save_path]; [None] is the
    failure value. *)
Definition download_images (query : string) : M (option string) :=
  let save_path := temp_image in
  try_except
    (key <- gets pexel_key ;;
     emit (PexelsSearch key query) ;;
     found <- next_io (fun n => pexels_search E n query) ;;
     image_url <- match found with
                  | SearchRaise e => raise e
                  | SearchEmpty => raise (PyExn "ValueError" "No photo found")
                  | SearchPhoto original => ret original
                  end ;;
     emit (ImageGet image_url) ;;
     got <- next_io (fun n => image_get E n image_url) ;;
     _ <- match got with
          | inl bytes => ret bytes
          | inr e => raise e
          end ;;
     opened <- next_io (fun n => file_open E n save_path) ;;
     match opened with
     | Some e => raise e
     | None =>
         modify (add_file save_path) ;;
         written <- next_io (fun n => file_write E n save_path) ;;
         match written with
         | Some e => raise e
         | None => ret (Some save_path)
         end
     end)
    (fun e =>
       emit (StWarning (MsgErrorDownloading e)) ;;
       ret None).

(** ** Layout routines *)

(** [str(v)] *)
Definition py_str (v : json) : string :=
  match v with
  | JStr s => s
  | _ => py_repr E v
  end.

(** The text a slide shows for a content payload (lines 221-224 and
    259-262). *)
Definition content_text_of (content : json) : string :=
  match content with
  | JArr items => PyStr.join PyStr.nl (map py_str items)
  | _ => py_str content
  end.

(** [shape.text = v] in the document library. *)
Definition set_text (v : json) : M string :=
  match v with
  | JStr s => ret s
  | _ => match pptx_text E v with
         | inl s => ret s
         | inr e => raise e
         end
  end.

(** [self.presentation.slides.add_slide(self.presentation.slide_layouts[n])] *)
Definition add_slide (layout : nat) : M unit :=
  modify (fun w => set_presentation (blank_slide layout :: presentation w) w).

(** An update of the slide added last, which is the one the local
    variable [slide] of a layout routine refers to. *)
Definition update_slide (f : slide -> slide) : M unit :=
  modify (fun w =>
            match presentation w with
            | [] => w
            | sl :: rest => set_presentation (f sl :: rest) w
            end).

Definition current_slide : M slide :=
  gets (fun w => hd (blank_slide 0) (presentation w)).

Definition with_title (p : paragraph) (sl : slide) : slide :=
  Slide (s_layout sl) (Some p) (s_subtitle sl) (s_body sl) (s_pictures sl).
Definition with_subtitle (p : paragraph) (sl : slide) : slide :=
  Slide (s_layout sl) (s_title sl) (Some p) (s_body sl) (s_pictures sl).
Definition with_body (p : paragraph) (sl : slide) : slide :=
  Slide (s_layout sl) (s_title sl) (s_subtitle sl) (Some p) (s_pictures sl).
Definition with_picture (p : picture) (sl : slide) : slide :=
  Slide (s_layout sl) (s_title sl) (s_subtitle sl) (s_body sl) (s_pictures sl ++ [p]).

Definition black : option (Z * Z * Z) := Some (0, 0, 0).

Definition create_title_slide (title : json) (subtitle : string) : M unit :=
  emit (Layout (TitleSlide title subtitle)) ;;
  add_slide 0 ;;
  t <- set_text title ;;
  update_slide (with_title (Para t 30 true black true)) ;;
  if PyStr.truthy subtitle
  then update_slide (with_subtitle (Para subtitle 20 false black true))
  else ret tt.

(** [os.remove(path)] *)
Definition os_remove (path : string) : M unit :=
  present <- path_exists path ;;
  if present then modify (remove_file path)
  else raise (PyExn "FileNotFoundError" path).

(** [slide.shapes.add_picture(path, ...)] *)
Definition shapes_add_picture (p : picture) : M unit :=
  failed <- next_io (fun n => add_picture E n (pic_path p)) ;;
  match failed with
  | Some e => raise e
  | None => update_slide (with_picture p)
  end.

(** The guarded tail shared by lines 235-238 and 273-276. *)
Definition place_downloaded (image_path : option string) (mk : string -> picture) : M unit :=
  match image_path with
  | Some path =>
      if PyStr.truthy path then
        present <- path_exists path ;;
        if present then
          shapes_add_picture (mk path) ;;
          os_remove path
        else ret tt
      else ret tt
  | None => ret tt
  end.

Definition content_picture (path : string) : picture :=
  Pic path 6 2 None (Some 4%Q).

Definition image_picture (path : string) : picture :=
  Pic path (13 # 4) 4 (Some (7 # 2)) (Some (5 # 2)).

Definition create_content_slide (title content : json) (include_image : bool) : M slide :=
  emit (Layout (ContentSlide title content include_image)) ;;
  add_slide 1 ;;
  t <- set_text title ;;
  update_slide (with_title (Para t 30 true None false)) ;;
  let content_text := content_text_of content in
  update_slide (with_body (Para content_text 18 false black false)) ;;
  (if include_image then
     try_except
       (image_desc <- generative_image_description content_text ;;
        if PyStr.truthy image_desc then
          image_path <- download_images image_desc ;;
          place_downloaded image_path content_picture
        else ret tt)
       (fun e => emit (StWarning (MsgErrorAddingImage e)))
   else ret tt) ;;
  current_slide.

Definition create_image_slide (title content : json) (image_query : string) : M slide :=
  emit (Layout (ImageSlide title content image_query)) ;;
  add_slide 8 ;;
  t <- set_text title ;;
  update_slide (with_title (Para t 28 true black true)) ;;
  let content_text := content_text_of content in
  update_slide (with_body (Para content_text 13 false (Some (51, 51, 51)) true)) ;;
  try_except
    (image_path <- download_images image_query ;;
     place_downloaded image_path image_picture)
    (fun e => emit (StWarning (MsgErrorAddingImage e))) ;;
  current_slide.

(** ** [generate_ppt] *)

(** [slide_data.get(key, default)] *)
Definition record_get (slide_data : json) (key : string) (default : json) : M json :=
  match slide_data with
  | JObj fields => ret (dict_get fields key default)
  | _ => raise (PyExn "AttributeError" "object has no attribute 'get'")
  end.

(** [v == s] for a string literal [s] *)
Definition is_str (v : json) (s : string) : bool :=
  match v with
  | JStr x => String.eqb x s
  | _ => false
  end.

Fixpoint as_strings (items : list json) : option (list string) :=
  match items with
  | [] => Some []
  | JStr s :: rest => option_map (cons s) (as_strings rest)
  | _ :: _ => None
  end.

(** Line 306 *)
Definition content_str_of (content : json) : M string :=
  match content with
  | JArr items =>
      match as_strings items with
      | Some strs => ret (PyStr.join PyStr.nl strs)
      | None => raise (PyExn "TypeError" "sequence item: expected str instance")
      end
  | _ => ret (py_str content)
  end.

Fixpoint chars (s : string) : list json :=
  match s with
  | EmptyString => []
  | String c rest => JStr (String c EmptyString) :: chars rest
  end.

(** What [len] and [enumerate] see of the outline. *)
Definition elements (content_outlines : json) : M (list json) :=
  match content_outlines with
  | JArr items => ret items
  | JObj fields => ret (map (fun kv => JStr (fst kv)) fields)
  | JStr s => ret (chars s)
  | _ => raise (PyExn "TypeError" "object has no len()")
  end.

(** The body of the loop of lines 293-310, from index [i] on. *)
Fixpoint slide_loop (author : string) (total_slides : Z) (items : list json) (i : Z)
  : M unit :=
  match items with
  | [] => ret tt
  | slide_data :: rest =>
      title <- record_get slide_data "title" (JStr ("Slide " ++ PyStr.of_Z (i + 1))) ;;
      content <- record_get slide_data "content" (JStr EmptyString) ;;
      slide_type <- record_get slide_data "slide_type" (JStr "content") ;;
      emit (StatusText (MsgGeneratingSlide (i + 1) total_slides title)) ;;
      emit (Progress (inject_Z (i + 1) / inject_Z total_slides)) ;;
      (if (i =? 0) || is_str slide_type "title" then
         create_title_slide title ("Created by " ++ author)
       else if is_str slide_type "content" then
         create_content_slide title content true ;; ret tt
       else if is_str slide_type "image" then
         content_str <- content_str_of content ;;
         img_query <- generative_image_description content_str ;;
         create_image_slide title content img_query ;; ret tt
       else
         create_content_slide title content false ;; ret tt) ;;
      slide_loop author total_slides rest (i + 1)
  end.

(** [self.presentation.save(output_file)] *)
Definition presentation_save (output_file : string) : M unit :=
  emit (SavePresentation output_file) ;;
  match save E output_file with
  | Some e => raise e
  | None => modify (add_file output_file)
  end.

Definition generate_ppt (topic : string) (num_slides : Z) (output_file author : string)
  : M string :=
  emit (Progress 0) ;;
  emit (StatusText (MsgStarting topic)) ;;
  emit (StInfo (MsgTotalSlides num_slides)) ;;
  emit (StInfo (MsgEstimatedTime (num_slides * 30 / 60))) ;;
  content_outlines <- generate_content_outlines topic num_slides ;;
  items <- elements content_outlines ;;
  let total_slides := Z.of_nat (List.length items) in
  slide_loop author total_slides items 0 ;;
  presentation_save output_file ;;
  emit (StatusText MsgGenerated) ;;
  ret output_file.

(** ** The page *)

Record Form : Type := {
  gemini_api_key : string;
  pexel_api_key : string;
  author_name : string;
  topic : string;
  num_slides : Z;
  output_filename : string;
  include_images : bool;
  generate_clicked : bool
}.

(** [PPTGenerator(api_key, pexel_key)] *)
Definition new_generator (key pexel : string) : M unit :=
  modify (fun w =>
            {| api_key := key; pexel_key := pexel;
               clock := clock w; clock_reads := clock_reads w;
               last_api_call := last_api_call w; api_call_count := api_call_count w;
               gemini_calls := gemini_calls w; io_calls := io_calls w;
               presentation := presentation w; files := files w |}) ;;
  (if negb (PyStr.truthy key)
   then raise (PyExn "ValueError" "Gemini API key is not available")
   else ret tt) ;;
  emit (GenaiConfigure key) ;;
  modify (fun w =>
            {| api_key := api_key w; pexel_key := pexel_key w;
               clock := clock w; clock_reads := clock_reads w;
               last_api_call := 0; api_call_count := 0;
               gemini_calls := gemini_calls w; io_calls := io_calls w;
               presentation := []; files := files w |}).

(** [open(output_file, "rb")] *)
Definition open_rb (path : string) : M unit :=
  present <- path_exists path ;;
  if present then ret tt else raise (PyExn "FileNotFoundError" path).

(** One run of the page script with the given widget values. *)
Definition main (f : Form) : M unit :=
  emit PageRendered ;;
  if generate_clicked f then
    if negb (PyStr.truthy (topic f)) then emit (StError MsgNoTopic)
    else if negb (PyStr.truthy (gemini_api_key f)) then emit (StError MsgNoGeminiKey)
    else if negb (PyStr.truthy (pexel_api_key f)) then emit (StError MsgNoPexelsKey)
    else
      try_except
        (new_generator (gemini_api_key f) (pexel_api_key f) ;;
         output_file <- generate_ppt (topic f) (num_slides f) (output_filename f)
                          (author_name f) ;;
         open_rb output_file ;;
         emit (DownloadButton (output_filename f)) ;;
         emit Balloons)
        (fun e =>
           emit (StError (MsgAnErrorOccurred e)) ;;
           emit (StException e)) ;;
      emit Footer
  else emit Footer.

End Generator.

(** * Vocabulary of the statements *)

Section Vocabulary.

Context (E : Env).

(** The first clock reading of [_wait_for_rate_limit] and the time it
    finds elapsed since the previous call. *)
Definition reading (w : World) : Q := (clock w + tick E (clock_reads w))%Q.
Definition elapsed (w : World) : Q := (reading w - last_api_call w)%Q.

(** The world [_wait_for_rate_limit] leaves when it stamps the call at
    time [t]. *)
Definition stamped (t : Q) (w : World) : World :=
  {| api_key := api_key w; pexel_key := pexel_key w;
     clock := t; clock_reads := S (S (clock_reads w));
     last_api_call := t; api_call_count := api_call_count w + 1;
     gemini_calls := gemini_calls w; io_calls := io_calls w;
     presentation := presentation w; files := files w |}.

(** The body of the [try] of [_retry_api_call]. *)
Definition attempt {A} (func : M A) : M (option A) :=
  _wait_for_rate_limit E ;; r <- func ;; ret (Some r).

(** The two kinds of error the handler retries, as its tests on the
    message tell them apart. *)
Inductive backoff : Type := Quota | Unavailable.

Definition classify (error_msg : string) : option backoff :=
  if is_quota_error error_msg then Some Quota
  else if is_503_error error_msg then Some Unavailable
  else None.

Definition base_delay (b : backoff) : Z :=
  match b with Quota => 45 | Unavailable => 5 end.

Definition backoff_warning (b : backoff) (attempt max_retries : Z) : message :=
  match b with
  | Quota => MsgRateLimitHit (45 * (attempt + 1)) (attempt + 2) max_retries
  | Unavailable => MsgServiceUnavailable (5 * (attempt + 1))
  end.

Definition final_error (b : backoff) (max_retries : Z) : message :=
  match b with
  | Quota => MsgMaxRetries
  | Unavailable => MsgServiceUnavailableAfter max_retries
  end.

(** The events of one pass through the limiter: nothing, or the notice and
    the sleep. *)
Definition limiter_only (evs : list event) : Prop :=
  evs = [] \/ exists d, evs = [StInfo (MsgRateLimitWait d); Sleep d].

(** The text lines 100-103 leave in [content]. *)
Definition payload (content : string) : string :=
  if PyStr.contains fence_json content then
    PyStr.strip (nth 0 (PyStr.split fence (nth 1 (PyStr.split fence_json content) EmptyString))
                   EmptyString)
  else if PyStr.contains fence content then
    PyStr.strip (nth 1 (PyStr.split fence content) EmptyString)
  else content.

Definition no_content : exn := PyExn "ValueError" "Failed to generate content after retries".

(** What [generate_content_outlines] makes of the value the retry wrapper
    hands it: the outline it returns and the notice it shows. *)
Definition outline_of (topic : string) (fetched : option string) : json * list event :=
  match fetched with
  | None => (_get_fallback_content topic, [StError (MsgErrorGenerating no_content)])
  | Some content =>
      if PyStr.startswith "[" (payload content) then
        match json_loads E (payload content) with
        | inl v => (v, [])
        | inr e => (_get_fallback_content topic, [StError (MsgErrorGenerating e)])
        end
      else (_get_fallback_content topic, [StWarning MsgNotJson])
  end.

(** A field of a record, [JNull] when it is absent. *)
Definition field (key : string) (r : json) : json :=
  match r with
  | JObj fields => dict_get fields key JNull
  | _ => JNull
  end.

(** The form with the checkbox set to [b]. *)
Definition set_include_images (b : bool) (f : Form) : Form :=
  {| gemini_api_key := gemini_api_key f; pexel_api_key := pexel_api_key f;
     author_name := author_name f; topic := topic f; num_slides := num_slides f;
     output_filename := output_filename f; include_images := b;
     generate_clicked := generate_clicked f |}.

(** ** Layout calls *)

Fixpoint layout_calls (evs : list event) : list layout_call :=
  match evs with
  | [] => []
  | Layout c :: rest => c :: layout_calls rest
  | _ :: rest => layout_calls rest
  end.

Definition is_layout (e : event) : bool :=
  match e with Layout _ => true | _ => false end.

(** A computation that calls no layout routine, whether it returns or
    raises. *)
Definition calm {A} (m : M A) : Prop :=
  forall w, layout_calls (events_of (m w)) = [].

(** A computation that returns normally from every state. *)
Definition returns {A} (m : M A) : Prop :=
  forall w, exists a, value_of (m w) = Ok a.

Definition content_image_part (content_text : string) : M unit :=
  try_except
    (image_desc <- generative_image_description E content_text ;;
     if PyStr.truthy image_desc then
       image_path <- download_images E image_desc ;;
       place_downloaded E image_path content_picture
     else ret tt)
    (fun e => emit (StWarning (MsgErrorAddingImage e))).

Definition image_image_part (image_query : string) : M unit :=
  try_except
    (image_path <- download_images E image_query ;;
     place_downloaded E image_path image_picture)
    (fun e => emit (StWarning (MsgErrorAddingImage e))).

Inductive routine : Type :=
| TitleRoutine
| ContentRoutine (include_image : bool)
| ImageRoutine.

Definition routine_of (c : layout_call) : routine :=
  match c with
  | TitleSlide _ _ => TitleRoutine
  | ContentSlide _ _ b => ContentRoutine b
  | ImageSlide _ _ _ => ImageRoutine
  end.

Definition call_title (c : layout_call) : json :=
  match c with
  | TitleSlide t _ | ContentSlide t _ _ | ImageSlide t _ _ => t
  end.

Definition summary (c : layout_call) : routine * json := (routine_of c, call_title c).

(** The routine the loop picks for the record at index [i]. *)
Definition selected (i : Z) (slide_type : json) : routine :=
  if (i =? 0) || is_str slide_type "title" then TitleRoutine
  else if is_str slide_type "content" then ContentRoutine true
  else if is_str slide_type "image" then ImageRoutine
  else ContentRoutine false.

Definition title_at (i : Z) (fields : list (string * json)) : json :=
  dict_get fields "title" (JStr ("Slide " ++ PyStr.of_Z (i + 1))).
Definition content_in (fields : list (string * json)) : json :=
  dict_get fields "content" (JStr EmptyString).
Definition slide_type_in (fields : list (string * json)) : json :=
  dict_get fields "slide_type" (JStr "content").

Definition printable (content : json) : bool :=
  match content with
  | JArr items => match as_strings items with Some _ => true | None => false end
  | _ => true
  end.

Definition is_string (v : json) : bool :=
  match v with JStr _ => true | _ => false end.

(** A record the loop can lay out whatever the document library does with
    values that are not text: a dictionary whose title, when present, is a
    string and whose content, when it is a list, is a list of strings. *)
Definition usable_record (r : json) : bool :=
  match r with
  | JObj fields =>
      is_string (dict_get fields "title" (JStr EmptyString)) && printable (content_in fields)
  | _ => false
  end.

Fixpoint expected_calls (i : Z) (items : list json) : list (routine * json) :=
  match items with
  | [] => []
  | JObj fields :: rest =>
      (selected i (slide_type_in fields), title_at i fields) :: expected_calls (i + 1) rest
  | _ :: rest => expected_calls (i + 1) rest
  end.

(** Lines 301-310. *)
Definition lay_out (author : string) (i : Z) (title content slide_type : json) : M unit :=
  if (i =? 0) || is_str slide_type "title" then
    create_title_slide E title ("Created by " ++ author)
  else if is_str slide_type "content" then
    create_content_slide E title content true ;; ret tt
  else if is_str slide_type "image" then
    content_str <- content_str_of E content ;;
    img_query <- generative_image_description E content_str ;;
    create_image_slide E title content img_query ;; ret tt
  else
    create_content_slide E title content false ;; ret tt.

(** What [generate_ppt] shows before it asks for the outline. *)
Definition preamble (topic : string) (num_slides : Z) : list event :=
  [Progress 0; StatusText (MsgStarting topic); StInfo (MsgTotalSlides num_slides);
   StInfo (MsgEstimatedTime (num_slides * 30 / 60))].

(** How [generate_ppt] ends once the loop is through. *)
Definition closing (output_file : string) (loop : result unit) (w : World)
  : result string * World * list event :=
  match loop with
  | Raised e => (Raised e, w, [])
  | Ok _ =>
      match save E output_file with
      | Some e => (Raised e, w, [SavePresentation output_file])
      | None => (Ok output_file, add_file output_file w,
                 [SavePresentation output_file; StatusText MsgGenerated])
      end
  end.

(** A relation between the state before and after a computation that is
    closed under doing nothing and under sequencing. *)
Record Frame : Type := {
  rel : World -> World -> Prop;
  rel_refl : forall w, rel w w;
  rel_trans : forall w1 w2 w3, rel w1 w2 -> rel w2 w3 -> rel w1 w3
}.

(** A computation that keeps a frame, whether it returns or raises. *)
Definition keeps (F : Frame) {A} (m : M A) : Prop :=
  forall w, rel F w (world_of (m w)).

(** What the limiter, the requests and the retries leave alone: the
    slides, the files, the keys and the count of input and output
    operations. *)
Definition untouched_by_requests (w w' : World) : Prop :=
  presentation w' = presentation w /\ files w' = files w
  /\ io_calls w' = io_calls w
  /\ api_key w' = api_key w /\ pexel_key w' = pexel_key w.

Definition request_frame : Frame.
Proof.
  refine {| rel := untouched_by_requests |}.
  - intros w. repeat split.
  - intros w1 w2 w3 (H1 & H2 & H3 & H4 & H5) (K1 & K2 & K3 & K4 & K5).
    repeat split; congruence.
Defined.

(** Whether [download_images] gets as far as opening the file, when its
    search is the [n]-th input or output operation: the search yields a
    photo, the image is fetched and [open] succeeds.  The file exists from
    then on, whatever the write does. *)
Definition file_opened (n : nat) (query : string) : bool :=
  match pexels_search E n query with
  | SearchPhoto url =>
      match image_get E (S n) url with
      | inl _ =>
          match file_open E (S (S n)) temp_image with
          | None => true
          | Some _ => false
          end
      | inr _ => false
      end
  | _ => false
  end.

(** Whether the four steps of [download_images] succeed: the file is
    opened and the write succeeds too. *)
Definition download_ok (n : nat) (query : string) : bool :=
  file_opened n query &&
  match file_write E (S (S (S n))) temp_image with
  | None => true
  | Some _ => false
  end.

(** Whether [add_picture] accepts the file, as the operation after them. *)
Definition picture_ok (n : nat) : bool :=
  match add_picture E (S (S (S (S n)))) temp_image with
  | None => true
  | Some _ => false
  end.

Definition fetch_ok (n : nat) (query : string) : bool :=
  download_ok n query && picture_ok n.

Definition without (path : string) (fs : list string) : list string :=
  filter (fun f => negb (String.eqb f path)) fs.

(** The download and the placement that both image routines share. *)
Definition fetch_part (query : string) (mk : string -> picture) : M unit :=
  image_path <- download_images E query ;;
  place_downloaded E image_path mk.

Definition image_failed (e : exn) : M unit := emit (StWarning (MsgErrorAddingImage e)).

(** The slide [create_image_slide] builds, with or without its picture. *)
Definition image_slide (t : string) (content : json) (with_picture : bool) : slide :=
  Slide 8 (Some (Para t 28 true black true)) None
    (Some (Para (content_text_of E content) 13 false (Some (51, 51, 51)) true))
    (if with_picture then [image_picture temp_image] else []).

(** The slide [create_content_slide] builds. *)
Definition content_slide (t : string) (content : json) (with_picture : bool) : slide :=
  Slide 1 (Some (Para t 30 true None false)) None
    (Some (Para (content_text_of E content) 18 false black false))
    (if with_picture then [content_picture temp_image] else []).

(** The files left by an attempt to fetch and place a picture: the
    temporary file is removed after a placement only; it stays when the
    placement fails and when the write fails after [open]. *)
Definition files_after_fetch (n : nat) (query : string) (fs : list string) : list string :=
  if file_opened n query
  then if download_ok n query && picture_ok n
       then without temp_image fs
       else temp_image :: without temp_image fs
  else fs.

(** The slide [create_title_slide] builds. *)
Definition title_slide (t subtitle : string) : slide :=
  Slide 0 (Some (Para t 30 true black true))
    (if PyStr.truthy subtitle then Some (Para subtitle 20 false black true) else None)
    None [].

Definition layout_number (r : routine) : nat :=
  match r with
  | TitleRoutine => 0
  | ContentRoutine _ => 1
  | ImageRoutine => 8
  end.

(** The layout of a slide and the text of its title. *)
Definition slide_summary (sl : slide) : nat * option json :=
  (s_layout sl, option_map (fun p => JStr (p_text p)) (s_title sl)).

Definition expected_slide (c : routine * json) : nat * option json :=
  (layout_number (fst c), Some (snd c)).

(** The requests sent between two states. *)
Definition requests_between (w w' : World) : Z :=
  Z.of_nat (gemini_calls w') - Z.of_nat (gemini_calls w).

(** What one pass of the loop on [_generate] does to the counters and to
    the stamp. *)
Definition counted (w w' : World) : Prop :=
  0 <= requests_between w w'
  /\ api_call_count w' = api_call_count w + requests_between w w'
  /\ (monotone_clock E ->
      (last_api_call w + min_delay * inject_Z (requests_between w w')
       <= last_api_call w')%Q).

Definition is_dict (v : json) : bool :=
  match v with JObj _ => true | _ => false end.

Definition no_get : exn := PyExn "AttributeError" "object has no attribute 'get'".

(** The generator object as [__init__] leaves it. *)
Definition constructed (key pexel : string) (w : World) : World :=
  {| api_key := key; pexel_key := pexel;
     clock := clock w; clock_reads := clock_reads w;
     last_api_call := 0; api_call_count := 0;
     gemini_calls := gemini_calls w; io_calls := io_calls w;
     presentation := []; files := files w |}.



Definition is_image_request (e : event) : bool :=
  match e with ImageGet _ => true | _ => false end.

Definition found_photo (r : search_result) : bool :=
  match r with SearchPhoto _ => true | _ => false end.

Definition backtick : string := "`".



(** The content a layout routine was called with; the title routine takes
    none. *)
Definition call_content (c : layout_call) : option json :=
  match c with
  | TitleSlide _ _ => None
  | ContentSlide _ content _ | ImageSlide _ content _ => Some content
  end.

(** [key in fields] *)
Definition has_key (key : string) (fields : list (string * json)) : bool :=
  existsb (fun kv => String.eqb (fst kv) key) fields.

(** The routine lines 303-310 select for a slide type, for a record that
    is not the first one. *)
Definition by_tag (slide_type : json) : routine :=
  if is_str slide_type "title" then TitleRoutine
  else if is_str slide_type "content" then ContentRoutine true
  else if is_str slide_type "image" then ImageRoutine
  else ContentRoutine false.

(** The call the loop makes for the record at index [i]. *)
Definition laid_out (i : Z) (fields : list (string * json)) (call : layout_call) : Prop :=
  call_title call = title_at i fields
  /\ routine_of call = selected i (slide_type_in fields)
  /\ (forall c, call_content call = Some c -> c = content_in fields).

End Vocabulary.

(** * Sample environments

    Concrete worlds on which the statements below are exercised: a clock
    that advances a tenth of a second between two readings, a scripted
    text-generation service, a photo service with one fixed answer, and a
    [json.loads] given by the table of the texts it is asked to decode. *)

Definition decode_error : exn := PyExn "JSONDecodeError" "Expecting value".

Fixpoint decode (table : list (string * json)) (text : string) : json + exn :=
  match table with
  | [] => inr decode_error
  | (t, v) :: rest => if String.eqb t text then inl v else decode rest text
  end.

Definition sample_repr (v : json) : string :=
  match v with
  | JNull => "None"
  | JBool true => "True"
  | JBool false => "False"
  | JNum lexeme => lexeme
  | JStr s => s
  | JArr _ => "[...]"
  | JObj _ => "{...}"
  end.

Definition sample_env (answers : nat -> api_result) (photo : search_result)
  (table : list (string * json)) : Env :=
  {| tick := fun _ => 1 # 10;
     gemini := fun n _ => answers n;
     pexels_search := fun _ _ => photo;
     image_get := fun _ _ => inl "JFIF";
     file_open := fun _ _ => None;
     file_write := fun _ _ => None;
     add_picture := fun _ _ => None;
     save := fun _ => None;
     json_loads := decode table;
     py_repr := sample_repr;
     pptx_text := fun _ => inr (PyExn "TypeError" "expected a string") |}.

(** A generator just constructed at one thousand seconds past the epoch. *)
Definition fresh_world : World :=
  {| api_key := "gemini-key"; pexel_key := "pexels-key";
     clock := 1000; clock_reads := 0;
     last_api_call := 0; api_call_count := 0;
     gemini_calls := 0; io_calls := 0;
     presentation := []; files := [] |}.

Definition quota_exn : exn :=
  PyExn "ResourceExhausted" "429 You exceeded your current quota".

Definition unavailable_exn : exn :=
  PyExn "ServiceUnavailable" "503 The model is overloaded".

(** Two quota errors, then an answer. *)
Definition third_time_lucky (n : nat) : api_result :=
  match n with
  | O | S O => ApiRaise quota_exn
  | _ => ApiText "[]"
  end.

Definition always_quota (n : nat) : api_result := ApiRaise quota_exn.

Definition always_answers (text : string) (n : nat) : api_result := ApiText text.

Definition retry_env : Env := sample_env third_time_lucky SearchEmpty [].

Definition failing_env : Env := sample_env always_quota SearchEmpty [].

Definition answering_env (text : string) (table : list (string * json)) : Env :=
  sample_env (always_answers text) SearchEmpty table.

(** A model answer that wraps an empty outline in a code fence. *)
Definition fenced_empty : string :=
  "```json" ++ PyStr.nl ++ "[]" ++ PyStr.nl ++ "```".

Definition fenced_env : Env := answering_env fenced_empty [("[]", JArr [])].

Definition chatty_env : Env := answering_env "Sure, here is your outline." [].

Definition quoted (s : string) : string := PyStr.dquote ++ s ++ PyStr.dquote.

Definition record_text (title content slide_type : string) : string :=
  "{" ++ quoted "title" ++ ": " ++ quoted title ++ ", "
      ++ quoted "content" ++ ": " ++ quoted content ++ ", "
      ++ quoted "slide_type" ++ ": " ++ quoted slide_type ++ "}".

(** An outline of two records: a title and a content slide. *)
Definition cats_text : string :=
  "[" ++ record_text "Cats" "Introduction" "title" ++ ", "
      ++ record_text "Habits" "An introduction to their habits" "content" ++ "]".

Definition cats_outline : json :=
  JArr [ record "Cats" "Introduction" "title";
         record "Habits" "An introduction to their habits" "content" ].

Definition cats_env (photo : search_result) : Env :=
  sample_env (always_answers cats_text) photo [(cats_text, cats_outline)].

Definition cats_form (images : bool) : Form :=
  {| gemini_api_key := "gemini-key"; pexel_api_key := "pexels-key";
     author_name := "Pranab"; topic := "Cats"; num_slides := 6;
     output_filename := "presentation.pptx"; include_images := images;
     generate_clicked := true |}.

(** An outline that holds a number between two records. *)
Definition numbers_text : string :=
  "[" ++ record_text "Cats" "Introduction" "title" ++ ", 1, "
      ++ record_text "Habits" "An introduction to their habits" "content" ++ "]".

Definition numbers_env : Env :=
  answering_env numbers_text
    [(numbers_text,
      JArr [ record "Cats" "Introduction" "title"; JNum "1";
             record "Habits" "An introduction to their habits" "content" ])].

(** The environment [E] on a full disk: files open, and every write
    fails. *)
Definition full_disk (E : Env) : Env :=
  {| tick := tick E;
     gemini := gemini E;
     pexels_search := pexels_search E;
     image_get := image_get E;
     file_open := file_open E;
     file_write := fun _ _ => Some (PyExn "OSError" "No space left on device");
     add_picture := add_picture E;
     save := save E;
     json_loads := json_loads E;
     py_repr := py_repr E;
     pptx_text := pptx_text E |}.

Definition photo_env : Env := cats_env (SearchPhoto "https://images.pexels.com/1.jpg").

(** An image record whose content list holds a number. *)
Definition mixed_fields : list (string * json) :=
  [ ("title", JStr "Pets"); ("content", JArr [JStr "Cats"; JNum "2"]);
    ("slide_type", JStr "image") ].

(** An outline whose only record is a content record. *)
Definition habits_text : string :=
  "[" ++ record_text "Habits" "An introduction to their habits" "content" ++ "]".

Definition habits_env : Env :=
  answering_env habits_text
    [(habits_text, JArr [record "Habits" "An introduction to their habits" "content"])].

(** An outline of two records that hold no key at all. *)
Definition bare_env : Env :=
  answering_env "[{}, {}]" [("[{}, {}]", JArr [JObj []; JObj []])].

(** The environment [E] with a document library that rejects every
    picture. *)
Definition rejecting_pictures (E : Env) : Env :=
  {| tick := tick E;
     gemini := gemini E;
     pexels_search := pexels_search E;
     image_get := image_get E;
     file_open := file_open E;
     file_write := file_write E;
     add_picture := fun _ _ => Some (PyExn "UnidentifiedImageError" "cannot identify image file");
     save := save E;
     json_loads := json_loads E;
     py_repr := py_repr E;
     pptx_text := pptx_text E |}.

(** * Properties *)

(** ** Running computations *)

Lemma bind_ok {A B} (m : M A) (k : A -> M B) w a w1 ev1 :
  m w = (Ok a, w1, ev1) ->
  bind m k w = (value_of (k a w1), world_of (k a w1), (ev1 ++ events_of (k a w1))%list).
Proof.
  intros H. unfold bind, value_of, world_of, events_of. rewrite H.
  destruct (k a w1) as [[r w2] ev2]. reflexivity.
Qed.

Lemma bind_raised {A B} (m : M A) (k : A -> M B) w e w1 ev1 :
  m w = (Raised e, w1, ev1) -> bind m k w = (Raised e, w1, ev1).
Proof. intros H. unfold bind. rewrite H. reflexivity. Qed.

Lemma try_except_ok {A} (m : M A) (h : exn -> M A) w a w1 ev1 :
  m w = (Ok a, w1, ev1) -> try_except m h w = (Ok a, w1, ev1).
Proof. intros H. unfold try_except. rewrite H. reflexivity. Qed.

Lemma try_except_raised {A} (m : M A) (h : exn -> M A) w e w1 ev1 :
  m w = (Raised e, w1, ev1) ->
  try_except m h w = (value_of (h e w1), world_of (h e w1), (ev1 ++ events_of (h e w1))%list).
Proof.
  intros H. unfold try_except, value_of, world_of, events_of. rewrite H.
  destruct (h e w1) as [[r w2] ev2]. reflexivity.
Qed.

Lemma run_eta {A} (x : result A * World * list event) :
  x = (value_of x, world_of x, events_of x).
Proof. destruct x as [[r w] ev]. reflexivity. Qed.

(** ** The rate limiter *)

Section RateLimit.

Context (E : Env).

Lemma wait_sleeps (w : World) :
  (elapsed E w < min_delay)%Q ->
  _wait_for_rate_limit E w =
    (Ok tt,
     stamped (reading E w + (min_delay - elapsed E w) + tick E (S (clock_reads w)))%Q w,
     [StInfo (MsgRateLimitWait (min_delay - elapsed E w)); Sleep (min_delay - elapsed E w)]).
Proof.
  intros Hlt.
  unfold _wait_for_rate_limit, bind, time_time, gets, modify, emit, time_sleep, ret.
  simpl. fold (reading E w). fold (elapsed E w).
  destruct (Qlt_le_dec (elapsed E w) min_delay) as [_ | Hle]; [reflexivity | ].
  exfalso. apply (Qlt_not_le _ _ Hlt Hle).
Qed.

Lemma wait_passes (w : World) :
  (min_delay <= elapsed E w)%Q ->
  _wait_for_rate_limit E w =
    (Ok tt, stamped (reading E w + tick E (S (clock_reads w)))%Q w, []).
Proof.
  intros Hle.
  unfold _wait_for_rate_limit, bind, time_time, gets, modify, emit, time_sleep, ret.
  simpl. fold (reading E w). fold (elapsed E w).
  destruct (Qlt_le_dec (elapsed E w) min_delay) as [Hlt | _]; [ | reflexivity].
  exfalso. apply (Qlt_not_le _ _ Hlt Hle).
Qed.

(** Whatever the clock shows, the limiter returns normally, stamps the
    call with the clock and leaves everything but the clock and the two
    counters of the limiter alone. *)
Lemma wait_shape (w : World) :
  exists t,
    _wait_for_rate_limit E w = (Ok tt, stamped t w, events_of (_wait_for_rate_limit E w)).
Proof.
  destruct (Qlt_le_dec (elapsed E w) min_delay) as [Hlt | Hle].
  - rewrite (wait_sleeps w Hlt). eexists. reflexivity.
  - rewrite (wait_passes w Hle). eexists. reflexivity.
Qed.

End RateLimit.

(** ** The retry wrapper *)

Section Retry.

Context (E : Env).

Lemma generate_run prompt w :
  _generate E prompt w =
    (match gemini E (gemini_calls w) prompt with
     | ApiText text => Ok (PyStr.strip text)
     | ApiRaise e => Raised e
     end, bump_gemini w, [GenerateContent prompt]).
Proof.
  unfold _generate, bind, gets, modify, emit, ret, raise. simpl.
  destruct (gemini E (gemini_calls w) prompt); reflexivity.
Qed.

Lemma attempt_generate prompt w :
  exists t,
  attempt E (_generate E prompt) w =
    (match gemini E (gemini_calls w) prompt with
     | ApiText text => Ok (Some (PyStr.strip text))
     | ApiRaise e => Raised e
     end, bump_gemini (stamped t w),
     (events_of (_wait_for_rate_limit E w) ++ [GenerateContent prompt])%list).
Proof.
  destruct (wait_shape E w) as [t Ht]. exists t.
  unfold attempt, bind. rewrite Ht, generate_run. simpl gemini_calls.
  destruct (gemini E (gemini_calls w) prompt); simpl; rewrite ?app_nil_r; reflexivity.
Qed.


Lemma emit_then {B} (e : event) (k : M B) w :
  (emit e ;; k) w = (value_of (k w), world_of (k w), e :: events_of (k w)).
Proof.
  unfold bind, emit, value_of, world_of, events_of.
  destruct (k w) as [[r w2] ev2]. reflexivity.
Qed.

Lemma sleep_then {B} (d : Q) (k : M B) w :
  let w' := set_clock (clock w + d)%Q (clock_reads w) w in
  (time_sleep d ;; k) w = (value_of (k w'), world_of (k w'), Sleep d :: events_of (k w')).
Proof.
  intros w'. unfold bind, time_sleep, value_of, world_of, events_of. fold w'.
  destruct (k w') as [[r w2] ev2]. reflexivity.
Qed.

(** One failed attempt that is retried. *)
Lemma retry_loop_retries {A} (func : M A) max_retries k a w e w1 ev b :
  attempt E func w = (Raised e, w1, ev) ->
  classify (exn_str e) = Some b ->
  a < max_retries - 1 ->
  let w2 := set_clock (clock w1 + inject_Z (base_delay b * (a + 1)))%Q (clock_reads w1) w1 in
  let rest := retry_loop E func max_retries k (a + 1) w2 in
  retry_loop E func max_retries (S k) a w =
    (value_of rest, world_of rest,
     (ev ++ [StWarning (backoff_warning b a max_retries);
             Sleep (inject_Z (base_delay b * (a + 1)))] ++ events_of rest)%list).
Proof.
  intros Hrun Hc Hlt w2 rest.
  cbn [retry_loop]. fold (attempt E func).
  rewrite (try_except_raised _ _ _ _ _ _ Hrun).
  apply Z.ltb_lt in Hlt.
  unfold classify in Hc.
  destruct (is_quota_error (exn_str e)) eqn:Hq.
  - injection Hc as <-. rewrite Hlt.
    rewrite emit_then, sleep_then. reflexivity.
  - destruct (is_503_error (exn_str e)) eqn:H5; [ | discriminate].
    injection Hc as <-. rewrite Hlt.
    rewrite emit_then, sleep_then. reflexivity.
Qed.

Lemma retry_loop_succeeds {A} (func : M A) max_retries k a w r w1 ev :
  attempt E func w = (Ok r, w1, ev) ->
  retry_loop E func max_retries (S k) a w = (Ok r, w1, ev).
Proof.
  intros Hrun. cbn [retry_loop]. fold (attempt E func).
  apply try_except_ok. exact Hrun.
Qed.

Lemma retry_loop_gives_up {A} (func : M A) max_retries k a w e w1 ev b :
  attempt E func w = (Raised e, w1, ev) ->
  classify (exn_str e) = Some b ->
  max_retries - 1 <= a ->
  retry_loop E func max_retries (S k) a w =
    (Ok None, w1, (ev ++ [StError (final_error b max_retries)])%list).
Proof.
  intros Hrun Hc Hge.
  cbn [retry_loop]. fold (attempt E func).
  rewrite (try_except_raised _ _ _ _ _ _ Hrun).
  apply Z.ltb_ge in Hge.
  unfold classify in Hc.
  destruct (is_quota_error (exn_str e)) eqn:Hq.
  - injection Hc as <-. rewrite Hge. rewrite emit_then. reflexivity.
  - destruct (is_503_error (exn_str e)) eqn:H5; [ | discriminate].
    injection Hc as <-. rewrite Hge. rewrite emit_then. reflexivity.
Qed.

Lemma retry_loop_aborts {A} (func : M A) max_retries k a w e w1 ev :
  attempt E func w = (Raised e, w1, ev) ->
  classify (exn_str e) = None ->
  retry_loop E func max_retries (S k) a w =
    (Ok None, w1, (ev ++ [StError (MsgError e)])%list).
Proof.
  intros Hrun Hc.
  cbn [retry_loop]. fold (attempt E func).
  rewrite (try_except_raised _ _ _ _ _ _ Hrun).
  unfold classify in Hc.
  destruct (is_quota_error (exn_str e)); [discriminate | ].
  destruct (is_503_error (exn_str e)); [discriminate | ].
  rewrite emit_then. reflexivity.
Qed.

Lemma retry_loop_returns {A} (func : M A) max_retries k :
  forall a w, exists r, value_of (retry_loop E func max_retries k a w) = Ok r.
Proof.
  induction k as [ | k IH]; intros a w.
  - exists None. reflexivity.
  - destruct (attempt E func w) as [[[r | e] w1] ev] eqn:Hrun.
    + rewrite (retry_loop_succeeds _ _ _ _ _ _ _ _ Hrun). exists r. reflexivity.
    + destruct (classify (exn_str e)) as [b | ] eqn:Hc.
      * destruct (Z_lt_le_dec a (max_retries - 1)) as [Hlt | Hge].
        -- rewrite (retry_loop_retries _ _ _ _ _ _ _ _ _ Hrun Hc Hlt).
           apply IH.
        -- rewrite (retry_loop_gives_up _ _ _ _ _ _ _ _ _ Hrun Hc Hge).
           exists None. reflexivity.
      * rewrite (retry_loop_aborts _ _ _ _ _ _ _ _ Hrun Hc).
        exists None. reflexivity.
Qed.

Lemma retry_loop_exhausted {A} (func : M A) max_retries k :
  (forall w, exists e w1 ev,
      func w = (Raised e, w1, ev) /\ classify (exn_str e) <> None) ->
  forall a w, value_of (retry_loop E func max_retries k a w) = Ok None.
Proof.
  intros Hfail. induction k as [ | k IH]; intros a w.
  - reflexivity.
  - assert (Hatt : exists e w1 ev,
               attempt E func w = (Raised e, w1, ev) /\ classify (exn_str e) <> None).
    { destruct (wait_shape E w) as [t Ht].
      destruct (Hfail (stamped t w)) as (e & w1 & ev & Hf & Hc).
      exists e, w1, (events_of (_wait_for_rate_limit E w) ++ ev)%list.
      split; [ | exact Hc].
      unfold attempt, bind. rewrite Ht, Hf. reflexivity. }
    destruct Hatt as (e & w1 & ev & Hrun & Hc).
    destruct (classify (exn_str e)) as [b | ] eqn:Hb; [ | congruence].
    destruct (Z_lt_le_dec a (max_retries - 1)) as [Hlt | Hge].
    + rewrite (retry_loop_retries _ _ _ _ _ _ _ _ _ Hrun Hb Hlt). apply IH.
    + rewrite (retry_loop_gives_up _ _ _ _ _ _ _ _ _ Hrun Hb Hge). reflexivity.
Qed.
End Retry.

(** ** Claims about the limiter and the retry wrapper *)

Section RetryClaims.

Context (E : Env).

Lemma wait_events_limiter_only (w : World) :
  limiter_only (events_of (_wait_for_rate_limit E w)).
Proof.
  destruct (Qlt_le_dec (elapsed E w) min_delay) as [Hlt | Hle].
  - rewrite (wait_sleeps E w Hlt). right. eexists. reflexivity.
  - rewrite (wait_passes E w Hle). left. reflexivity.
Qed.

(** After a quota backoff the limiter has nothing left to wait for. *)
Lemma wait_after_quota_backoff (t : Q) (a : Z) (w : World) :
  monotone_clock E ->
  0 <= a ->
  let w1 := bump_gemini (stamped t w) in
  let w2 := set_clock (clock w1 + inject_Z (base_delay Quota * (a + 1)))%Q
              (clock_reads w1) w1 in
  events_of (_wait_for_rate_limit E w2) = [].
Proof.
  intros Hmono Ha w1 w2.
  rewrite wait_passes; [reflexivity | ].
  subst w2 w1.
  unfold elapsed, reading, min_delay, set_clock, bump_gemini, stamped, base_delay.
  cbn [clock clock_reads last_api_call].
  specialize (Hmono (S (S (clock_reads w)))).
  assert (H45 : (45 <= inject_Z (45 * (a + 1)))%Q).
  { change 45%Q with (inject_Z 45). rewrite <- Zle_Qle. lia. }
  lra.
Qed.

End RetryClaims.

Section RetryTheorems.

Context (E : Env).

(** The loop run on the closure [_generate] when every remaining request
    fails with an error that is retried: [attempt] and [remaining] move in
    step, so the last iteration is the one that gives up. *)
Lemma retry_generate_exhausted (prompt : string) (max_retries : Z) (k : nat) :
  forall (a : Z) (w : World),
    a = max_retries - Z.of_nat k ->
    (forall i, (i < k)%nat ->
       exists e, gemini E (gemini_calls w + i) prompt = ApiRaise e
                 /\ classify (exn_str e) <> None) ->
    let r := retry_loop E (_generate E prompt) max_retries k a w in
    value_of r = Ok None /\ gemini_calls (world_of r) = (gemini_calls w + k)%nat.
Proof.
  induction k as [ | k IH]; intros a w Ha Hfail r.
  - subst r. cbn. split; [reflexivity | lia].
  - destruct (Hfail 0%nat ltac:(lia)) as (e & He & Hc).
    rewrite Nat.add_0_r in He.
    destruct (attempt_generate E prompt w) as [t Hrun]. rewrite He in Hrun.
    destruct (classify (exn_str e)) as [b | ] eqn:Hb; [clear Hc | congruence].
    destruct (Z_lt_le_dec a (max_retries - 1)) as [Hlt | Hge].
    + subst r. rewrite (retry_loop_retries E _ _ _ _ _ _ _ _ _ Hrun Hb Hlt).
      unfold value_of, world_of. cbn [fst snd].
      set (w2 := set_clock _ _ _).
      destruct (IH (a + 1) w2) as [Hv Hg].
      * lia.
      * intros i Hi. destruct (Hfail (S i) ltac:(lia)) as (e' & He' & Hc').
        exists e'. split; [ | exact Hc'].
        rewrite <- He'. f_equal. subst w2. cbn. lia.
      * split; [exact Hv | ]. unfold world_of in Hg. rewrite Hg. subst w2. cbn. lia.
    + subst r. rewrite (retry_loop_gives_up E _ _ _ _ _ _ _ _ _ Hrun Hb Hge).
      unfold value_of, world_of. cbn. split; [reflexivity | lia].
Qed.

(** C3.  When the first two requests of a wrapped call fail with an error
    the handler retries and the third one answers, [_retry_api_call]
    returns the answer.  After the first failure it sleeps [base_delay]
    times one and after the second [base_delay] times two: 45 s then 90 s
    for quota errors, 5 s then 10 s for 503 errors.  Between the attempts
    only the limiter may add a wait, and after a quota backoff it adds
    none. *)
Theorem retry_succeeds_on_third_attempt
  (prompt : string) (w : World) (e1 e2 : exn) (b1 b2 : backoff) (text : string) :
  monotone_clock E ->
  gemini E (gemini_calls w) prompt = ApiRaise e1 ->
  classify (exn_str e1) = Some b1 ->
  gemini E (S (gemini_calls w)) prompt = ApiRaise e2 ->
  classify (exn_str e2) = Some b2 ->
  gemini E (S (S (gemini_calls w))) prompt = ApiText text ->
  let r := _retry_api_call E (_generate E prompt) 3 w in
  exists ws2 ws3 : list event,
    value_of r = Ok (Some (PyStr.strip text)) /\
    events_of r =
      (events_of (_wait_for_rate_limit E w)
       ++ [GenerateContent prompt;
           StWarning (backoff_warning b1 0 3); Sleep (inject_Z (base_delay b1 * 1))]
       ++ ws2
       ++ [GenerateContent prompt;
           StWarning (backoff_warning b2 1 3); Sleep (inject_Z (base_delay b2 * 2))]
       ++ ws3
       ++ [GenerateContent prompt])%list /\
    limiter_only ws2 /\ limiter_only ws3 /\
    (b1 = Quota -> ws2 = []) /\ (b2 = Quota -> ws3 = []).
Proof.
  intros Hmono H1 Hc1 H2 Hc2 H3 r.
  destruct (attempt_generate E prompt w) as [t1 Ha1]. rewrite H1 in Ha1.
  pose (w1 := bump_gemini (stamped t1 w)).
  pose (w1' := set_clock (clock w1 + inject_Z (base_delay b1 * (0 + 1)))%Q (clock_reads w1) w1).
  destruct (attempt_generate E prompt w1') as [t2 Ha2].
  change (gemini_calls w1') with (S (gemini_calls w)) in Ha2. rewrite H2 in Ha2.
  pose (w2 := bump_gemini (stamped t2 w1')).
  pose (w2' := set_clock (clock w2 + inject_Z (base_delay b2 * (1 + 1)))%Q (clock_reads w2) w2).
  destruct (attempt_generate E prompt w2') as [t3 Ha3].
  change (gemini_calls w2') with (S (S (gemini_calls w))) in Ha3. rewrite H3 in Ha3.
  assert (Hrun : r = (Ok (Some (PyStr.strip text)), bump_gemini (stamped t3 w2'),
     ((events_of (_wait_for_rate_limit E w) ++ [GenerateContent prompt])
      ++ [StWarning (backoff_warning b1 0 3); Sleep (inject_Z (base_delay b1 * (0 + 1)))]
      ++ (events_of (_wait_for_rate_limit E w1') ++ [GenerateContent prompt])
      ++ [StWarning (backoff_warning b2 1 3); Sleep (inject_Z (base_delay b2 * (1 + 1)))]
      ++ (events_of (_wait_for_rate_limit E w2') ++ [GenerateContent prompt]))%list)).
  { subst r. unfold _retry_api_call. change (Z.to_nat 3) with 3%nat.
    rewrite (retry_loop_retries E _ 3 _ 0 _ _ _ _ _ Ha1 Hc1 ltac:(lia)).
    fold w1 w1'.
    rewrite (retry_loop_retries E _ 3 _ (0 + 1) _ _ _ _ _ Ha2 Hc2 ltac:(lia)).
    fold w2 w2'.
    rewrite (retry_loop_succeeds E _ 3 _ (0 + 1 + 1) _ _ _ _ Ha3).
    reflexivity. }
  exists (events_of (_wait_for_rate_limit E w1')), (events_of (_wait_for_rate_limit E w2')).
  rewrite Hrun. unfold value_of, events_of at 1. cbn [fst snd].
  split; [reflexivity | ].
  split.
  { rewrite <- !app_assoc. reflexivity. }
  split; [apply wait_events_limiter_only | ].
  split; [apply wait_events_limiter_only | ].
  split.
  - intros ->. apply (wait_after_quota_backoff E t1 0 w Hmono). lia.
  - intros ->. apply (wait_after_quota_backoff E t2 1 w1' Hmono). lia.
Qed.

(** C4.  [_retry_api_call] never hands an exception to its caller.  When
    every one of the [max_retries] requests fails with a quota or 503 error
    it returns [None] after exactly that many requests, and an exception of
    any other kind ends the call at once with [None]: the state and the
    events are those of the failed attempt, followed by the error notice. *)
Theorem retry_api_call_never_raises :
  (forall (A : Type) (func : M A) (max_retries : Z) (w : World),
      exists r, value_of (_retry_api_call E func max_retries w) = Ok r) /\
  (forall (prompt : string) (max_retries : Z) (w : World),
      (forall i, (i < Z.to_nat max_retries)%nat ->
         exists e, gemini E (gemini_calls w + i) prompt = ApiRaise e
                   /\ classify (exn_str e) <> None) ->
      let r := _retry_api_call E (_generate E prompt) max_retries w in
      value_of r = Ok None
      /\ gemini_calls (world_of r) = (gemini_calls w + Z.to_nat max_retries)%nat) /\
  (forall (A : Type) (func : M A) (max_retries : Z) (w w1 : World) (e : exn) (ev : list event),
      0 < max_retries ->
      attempt E func w = (Raised e, w1, ev) ->
      classify (exn_str e) = None ->
      _retry_api_call E func max_retries w
      = (Ok None, w1, (ev ++ [StError (MsgError e)])%list)).
Proof.
  split; [ | split].
  - intros A func max_retries w. apply retry_loop_returns.
  - intros prompt max_retries w Hfail r. subst r. unfold _retry_api_call.
    destruct (Z_lt_le_dec max_retries 0) as [Hneg | Hpos].
    + destruct max_retries as [ | p | p]; try lia. cbn. split; [reflexivity | lia].
    + apply retry_generate_exhausted; [lia | exact Hfail].
  - intros A func max_retries w w1 e ev Hpos Hrun Hc. unfold _retry_api_call.
    destruct (Z.to_nat max_retries) as [ | k] eqn:Hk; [lia | ].
    apply retry_loop_aborts; assumption.
Qed.

(** C7 (amended).  Before a request the limiter sleeps for what is missing
    to thirty seconds since the previous request was stamped, and not at all
    when thirty seconds have already passed; either way the new stamp lies
    at least thirty seconds after the previous one. *)
Theorem wait_for_rate_limit_spacing (w : World) :
  monotone_clock E ->
  let r := _wait_for_rate_limit E w in
  value_of r = Ok tt /\
  ((min_delay <= elapsed E w)%Q /\ events_of r = []
   \/ (elapsed E w < min_delay)%Q /\
      events_of r = [StInfo (MsgRateLimitWait (min_delay - elapsed E w));
                     Sleep (min_delay - elapsed E w)]) /\
  (last_api_call w + min_delay <= last_api_call (world_of r))%Q.
Proof.
  intros Hmono r. subst r.
  pose proof (Hmono (S (clock_reads w))) as Htick.
  destruct (Qlt_le_dec (elapsed E w) min_delay) as [Hlt | Hle].
  - rewrite (wait_sleeps E w Hlt). unfold value_of, events_of, world_of. cbn [fst snd].
    split; [reflexivity | ]. split; [right; split; [exact Hlt | reflexivity] | ].
    cbn [last_api_call stamped]. unfold elapsed, reading in *. lra.
  - rewrite (wait_passes E w Hle). unfold value_of, events_of, world_of. cbn [fst snd].
    split; [reflexivity | ]. split; [left; split; [exact Hle | reflexivity] | ].
    cbn [last_api_call stamped]. unfold elapsed, reading in *. lra.
Qed.

End RetryTheorems.

Lemma sample_clock_monotone answers photo table :
  monotone_clock (sample_env answers photo table).
Proof. intros n. cbn. unfold Qle. cbn. lia. Qed.

Lemma retry_succeeds_on_third_attempt_witness :
  let r := _retry_api_call retry_env (_generate retry_env "outline") 3 fresh_world in
  exists ws2 ws3 : list event,
    value_of r = Ok (Some (PyStr.strip "[]")) /\
    events_of r =
      (events_of (_wait_for_rate_limit retry_env fresh_world)
       ++ [GenerateContent "outline";
           StWarning (backoff_warning Quota 0 3); Sleep (inject_Z (base_delay Quota * 1))]
       ++ ws2
       ++ [GenerateContent "outline";
           StWarning (backoff_warning Quota 1 3); Sleep (inject_Z (base_delay Quota * 2))]
       ++ ws3
       ++ [GenerateContent "outline"])%list /\
    limiter_only ws2 /\ limiter_only ws3 /\
    (Quota = Quota -> ws2 = []) /\ (Quota = Quota -> ws3 = []).
Proof.
  apply (retry_succeeds_on_third_attempt retry_env "outline" fresh_world
           quota_exn quota_exn Quota Quota "[]").
  - apply sample_clock_monotone.
  - reflexivity.
  - reflexivity.
  - reflexivity.
  - reflexivity.
  - reflexivity.
Defined.

(** The same run, evaluated: no wait before the first request of a fresh
    generator, then 45 and 90 seconds of backoff. *)
Example third_attempt_run :
  events_of (_retry_api_call retry_env (_generate retry_env "outline") 3 fresh_world)
  = [GenerateContent "outline";
     StWarning (MsgRateLimitHit 45 2 3); Sleep 45;
     GenerateContent "outline";
     StWarning (MsgRateLimitHit 90 3 3); Sleep 90;
     GenerateContent "outline"].
Proof. vm_compute. reflexivity. Qed.

Lemma retry_api_call_never_raises_witness :
  let r := _retry_api_call failing_env (_generate failing_env "outline") 3 fresh_world in
  value_of r = Ok None /\ gemini_calls (world_of r) = (gemini_calls fresh_world + 3)%nat.
Proof.
  destruct (retry_api_call_never_raises failing_env) as (_ & Hexhausted & _).
  apply (Hexhausted "outline" 3 fresh_world).
  intros i _. exists quota_exn. split; [reflexivity | discriminate].
Defined.

Lemma wait_for_rate_limit_spacing_witness :
  let w := world_of (_wait_for_rate_limit retry_env fresh_world) in
  let r := _wait_for_rate_limit retry_env w in
  value_of r = Ok tt /\
  ((min_delay <= elapsed retry_env w)%Q /\ events_of r = []
   \/ (elapsed retry_env w < min_delay)%Q /\
      events_of r = [StInfo (MsgRateLimitWait (min_delay - elapsed retry_env w));
                     Sleep (min_delay - elapsed retry_env w)]) /\
  (last_api_call w + min_delay <= last_api_call (world_of r))%Q.
Proof.
  apply (wait_for_rate_limit_spacing retry_env).
  apply sample_clock_monotone.
Defined.

(** C7, as stated, fails on the first request of a generator: the stamp of
    the previous call is zero, the clock is far past it, and the request goes
    out with no sleep before it. *)
Lemma first_request_is_not_delayed :
  let E := answering_env "[]" [] in
  events_of (_retry_api_call E (_generate E "outline") 3 fresh_world)
  = [GenerateContent "outline"]
  /\ events_of (_wait_for_rate_limit E fresh_world) = [].
Proof. vm_compute. split; reflexivity. Qed.

(** ** Outline generation *)

Lemma split_aux_first (sep : string) (s : string) :
  forall skip cur, exists p ps, PyStr.split_aux sep skip cur s = p :: ps.
Proof.
  induction s as [ | c rest IH]; intros skip cur.
  - cbn. eauto.
  - cbn [PyStr.split_aux]. destruct skip as [ | k].
    + destruct (PyStr.startswith sep (String c rest)); [eauto | apply IH].
    + apply IH.
Qed.

Lemma split_aux_second (sep : string) (s : string) :
  sep <> EmptyString ->
  PyStr.contains sep s = true ->
  forall cur, exists p q ps, PyStr.split_aux sep 0 cur s = p :: q :: ps.
Proof.
  intros Hsep. induction s as [ | c rest IH]; intros Hin cur.
  - cbn in Hin. destruct sep; [congruence | discriminate].
  - cbn [PyStr.split_aux]. cbn [PyStr.contains] in Hin.
    destruct (PyStr.startswith sep (String c rest)).
    + destruct (split_aux_first sep rest (String.length sep - 1) EmptyString) as (q & ps & Hq).
      rewrite Hq. eauto.
    + apply IH. exact Hin.
Qed.

Lemma index_first (parts : list string) p ps w :
  parts = p :: ps -> index parts 0 w = (Ok (nth 0 parts EmptyString), w, []).
Proof. intros ->. reflexivity. Qed.

Lemma index_second (parts : list string) p q ps w :
  parts = p :: q :: ps -> index parts 1 w = (Ok (nth 1 parts EmptyString), w, []).
Proof. intros ->. reflexivity. Qed.

Lemma strip_fences_run (content : string) (w : World) :
  strip_fences content w = (Ok (payload content), w, []).
Proof.
  unfold strip_fences, payload.
  destruct (PyStr.contains fence_json content) eqn:Hj.
  - destruct (split_aux_second fence_json content ltac:(discriminate) Hj EmptyString)
      as (p & q & ps & Hs).
    fold (PyStr.split fence_json content) in Hs.
    unfold bind. rewrite (index_second _ _ _ _ w Hs).
    destruct (split_aux_first fence (nth 1 (PyStr.split fence_json content) EmptyString)
                0 EmptyString) as (p' & ps' & Hs').
    fold (PyStr.split fence (nth 1 (PyStr.split fence_json content) EmptyString)) in Hs'.
    rewrite (index_first _ _ _ w Hs'). reflexivity.
  - destruct (PyStr.contains fence content) eqn:Hf; [ | reflexivity].
    destruct (split_aux_second fence content ltac:(discriminate) Hf EmptyString)
      as (p & q & ps & Hs).
    fold (PyStr.split fence content) in Hs.
    unfold bind. rewrite (index_second _ _ _ _ w Hs). reflexivity.
Qed.

Section Outline.

Context (E : Env).

Lemma retry_api_call_run {A} (func : M A) (max_retries : Z) (w : World) :
  exists r w1 ev, _retry_api_call E func max_retries w = (Ok r, w1, ev).
Proof.
  destruct (retry_loop_returns E func max_retries (Z.to_nat max_retries) 0 w) as [r Hr].
  exists r, (world_of (_retry_api_call E func max_retries w)),
    (events_of (_retry_api_call E func max_retries w)).
  rewrite (run_eta (_retry_api_call E func max_retries w)) at 1.
  unfold _retry_api_call at 1. rewrite Hr. reflexivity.
Qed.

Lemma generate_content_outlines_run (topic : string) (num_slides : Z) (w : World) :
  let fetched := _retry_api_call E (_generate E (outline_prompt topic num_slides)) 3 w in
  forall content, value_of fetched = Ok content ->
  generate_content_outlines E topic num_slides w
  = (Ok (fst (outline_of E topic content)), world_of fetched,
     (events_of fetched ++ snd (outline_of E topic content))%list).
Proof.
  intros fetched content Hv.
  assert (Hf : _retry_api_call E (_generate E (outline_prompt topic num_slides)) 3 w
               = (Ok content, world_of fetched, events_of fetched)).
  { rewrite (run_eta (_retry_api_call _ _ _ _)). fold fetched. rewrite Hv. reflexivity. }
  clearbody fetched.
  unfold generate_content_outlines, try_except, bind. rewrite Hf.
  destruct content as [c | ].
  - unfold ret at 1. rewrite strip_fences_run. cbn [outline_of].
    destruct (PyStr.startswith "[" (payload c)); cbn [negb].
    + destruct (json_loads E (payload c)) as [v | e]; cbn.
      * rewrite ?app_nil_r. reflexivity.
      * rewrite ?app_nil_r. reflexivity.
    + cbn. rewrite ?app_nil_r. reflexivity.
  - cbn. rewrite ?app_nil_r. reflexivity.
Qed.

(** C2 (amended).  When the outline request yields nothing after the
    retries, or when the answer, once a surrounding code fence is removed
    (lines 100-103), does not begin with a bracket or is rejected by
    [json.loads], [generate_content_outlines] returns the fallback
    outline: six records, a title record that carries the topic, four
    content records and a conclusion.  When that text does begin with a
    bracket and [json.loads] accepts it, the parsed value is returned. *)
Theorem fallback_on_unusable_answer (topic : string) (num_slides : Z) (w : World) :
  let fetched := _retry_api_call E (_generate E (outline_prompt topic num_slides)) 3 w in
  let outline := value_of (generate_content_outlines E topic num_slides w) in
  ((value_of fetched = Ok None
    \/ exists content,
         value_of fetched = Ok (Some content)
         /\ (PyStr.startswith "[" (payload content) = false
             \/ exists e, json_loads E (payload content) = inr e)) ->
   outline = Ok (_get_fallback_content topic)
   /\ exists items,
        _get_fallback_content topic = JArr items
        /\ List.length items = 6%nat
        /\ map (field "title") items
           = [JStr topic; JStr "Background"; JStr "Main Points"; JStr "Analysis";
              JStr "Future Outlook"; JStr "Conclusion"]
        /\ map (field "slide_type") items
           = [JStr "title"; JStr "content"; JStr "content"; JStr "content";
              JStr "content"; JStr "conclusion"])
  /\ (forall content v,
        value_of fetched = Ok (Some content) ->
        PyStr.startswith "[" (payload content) = true ->
        json_loads E (payload content) = inl v ->
        outline = Ok v).
Proof.
  intros fetched outline. subst outline. split.
  - intros Hbad. split.
    + destruct Hbad as [Hnone | (content & Hsome & Hbad)].
      * rewrite (generate_content_outlines_run topic num_slides w None Hnone).
        reflexivity.
      * rewrite (generate_content_outlines_run topic num_slides w (Some content) Hsome).
        unfold value_of. cbn [fst outline_of].
        destruct Hbad as [Hstart | (e & Hload)].
        -- rewrite Hstart. reflexivity.
        -- rewrite Hload. destruct (PyStr.startswith "[" (payload content)); reflexivity.
    + eexists. split; [reflexivity | ]. repeat split.
  - intros content v Hsome Hstart Hload.
    rewrite (generate_content_outlines_run topic num_slides w (Some content) Hsome).
    unfold value_of. cbn [fst outline_of]. rewrite Hstart, Hload. reflexivity.
Qed.

End Outline.

Lemma fallback_on_unusable_answer_witness :
  (value_of (generate_content_outlines chatty_env "Cats" 6 fresh_world)
   = Ok (_get_fallback_content "Cats")
   /\ exists items,
        _get_fallback_content "Cats" = JArr items
        /\ List.length items = 6%nat
        /\ map (field "title") items
           = [JStr "Cats"; JStr "Background"; JStr "Main Points"; JStr "Analysis";
              JStr "Future Outlook"; JStr "Conclusion"]
        /\ map (field "slide_type") items
           = [JStr "title"; JStr "content"; JStr "content"; JStr "content";
              JStr "content"; JStr "conclusion"])
  /\ value_of (generate_content_outlines fenced_env "Cats" 6 fresh_world) = Ok (JArr []).
Proof.
  destruct (fallback_on_unusable_answer chatty_env "Cats" 6 fresh_world) as [Hfallback _].
  destruct (fallback_on_unusable_answer fenced_env "Cats" 6 fresh_world) as [_ Hparsed].
  split.
  - apply Hfallback.
    right. exists "Sure, here is your outline.". split.
    + vm_compute. reflexivity.
    + left. vm_compute. reflexivity.
  - apply (Hparsed (PyStr.strip fenced_empty) (JArr [])).
    + vm_compute. reflexivity.
    + vm_compute. reflexivity.
    + vm_compute. reflexivity.
Defined.

(** C2, as stated, fails on an answer that is not JSON as it stands but
    holds an outline inside a code fence: [json.loads] rejects the answer,
    and yet the outline inside the fence is returned, not the fallback. *)
Lemma fenced_answer_is_parsed :
  json_loads fenced_env (PyStr.strip fenced_empty) = inr decode_error
  /\ value_of (generate_content_outlines fenced_env "Cats" 6 fresh_world) = Ok (JArr [])
  /\ JArr [] <> _get_fallback_content "Cats".
Proof.
  split; [vm_compute; reflexivity | ].
  split; [vm_compute; reflexivity | discriminate].
Qed.

(** ** The page *)

(** C6.  A submission with an empty topic or with either key missing shows
    one of the three validation messages and does nothing else: no
    generator is built, no request leaves, the state is untouched. *)
Theorem validation_blocks_generation (E : Env) (f : Form) (w : World) :
  generate_clicked f = true ->
  topic f = EmptyString \/ gemini_api_key f = EmptyString \/ pexel_api_key f = EmptyString ->
  exists m,
    In m [MsgNoTopic; MsgNoGeminiKey; MsgNoPexelsKey]
    /\ main E f w = (Ok tt, w, [PageRendered; StError m]).
Proof.
  intros Hclick Hmissing. unfold main. rewrite Hclick.
  destruct (topic f) as [ | c t] eqn:Ht.
  - exists MsgNoTopic. split; [left; reflexivity | reflexivity].
  - destruct (gemini_api_key f) as [ | c1 k1] eqn:Hg.
    + exists MsgNoGeminiKey. split; [right; left; reflexivity | reflexivity].
    + destruct (pexel_api_key f) as [ | c2 k2] eqn:Hp.
      * exists MsgNoPexelsKey. split; [right; right; left; reflexivity | reflexivity].
      * destruct Hmissing as [H | [H | H]]; discriminate.
Qed.

Lemma validation_blocks_generation_witness :
  exists m,
    In m [MsgNoTopic; MsgNoGeminiKey; MsgNoPexelsKey]
    /\ main (cats_env SearchEmpty)
         {| gemini_api_key := "gemini-key"; pexel_api_key := EmptyString;
            author_name := "Pranab"; topic := "Cats"; num_slides := 6;
            output_filename := "presentation.pptx"; include_images := true;
            generate_clicked := true |} fresh_world
       = (Ok tt, fresh_world, [PageRendered; StError m]).
Proof.
  apply (validation_blocks_generation (cats_env SearchEmpty)).
  - reflexivity.
  - right. right. reflexivity.
Defined.

(** C8.  The run of the page does not depend on the checkbox: [main] never
    reads [include_images]. *)
Theorem include_images_is_ignored (E : Env) (f : Form) (b : bool) (w : World) :
  main E (set_include_images b f) w = main E f w.
Proof. reflexivity. Qed.

(** ** Layout calls of the generator *)

Lemma layout_calls_app (xs ys : list event) :
  layout_calls (xs ++ ys) = (layout_calls xs ++ layout_calls ys)%list.
Proof.
  induction xs as [ | [ ] xs IH]; cbn; try assumption.
  - reflexivity.
  - rewrite IH. reflexivity.
Qed.

Lemma calm_ret {A} (a : A) : calm (ret a).
Proof. intros w. reflexivity. Qed.

Lemma calm_raise {A} (e : exn) : calm (@raise A e).
Proof. intros w. reflexivity. Qed.

Lemma calm_gets {A} (f : World -> A) : calm (gets f).
Proof. intros w. reflexivity. Qed.

Lemma calm_modify (f : World -> World) : calm (modify f).
Proof. intros w. reflexivity. Qed.

Lemma calm_emit (e : event) : is_layout e = false -> calm (emit e).
Proof. intros He w. destruct e; try discriminate; reflexivity. Qed.

Lemma calm_bind {A B} (m : M A) (k : A -> M B) :
  calm m -> (forall a, calm (k a)) -> calm (bind m k).
Proof.
  intros Hm Hk w. specialize (Hm w). unfold bind.
  destruct (m w) as [[[a | e] w1] ev1]; unfold events_of in Hm; cbn [snd] in Hm.
  - specialize (Hk a w1). unfold events_of in Hk.
    destruct (k a w1) as [[r w2] ev2]. cbn [snd] in Hk.
    unfold events_of. cbn [snd]. rewrite layout_calls_app, Hm, Hk. reflexivity.
  - exact Hm.
Qed.

Lemma calm_try_except {A} (m : M A) (h : exn -> M A) :
  calm m -> (forall e, calm (h e)) -> calm (try_except m h).
Proof.
  intros Hm Hh w. specialize (Hm w). unfold try_except.
  destruct (m w) as [[[a | e] w1] ev1]; unfold events_of in Hm; cbn [snd] in Hm.
  - exact Hm.
  - specialize (Hh e w1). unfold events_of in Hh.
    destruct (h e w1) as [[r w2] ev2]. cbn [snd] in Hh.
    unfold events_of. cbn [snd]. rewrite layout_calls_app, Hm, Hh. reflexivity.
Qed.

Lemma returns_ret {A} (a : A) : returns (ret a).
Proof. intros w. exists a. reflexivity. Qed.

Lemma returns_gets {A} (f : World -> A) : returns (gets f).
Proof. intros w. eexists. reflexivity. Qed.

Lemma returns_modify (f : World -> World) : returns (modify f).
Proof. intros w. eexists. reflexivity. Qed.

Lemma returns_emit (e : event) : returns (emit e).
Proof. intros w. exists tt. reflexivity. Qed.

Lemma returns_bind {A B} (m : M A) (k : A -> M B) :
  returns m -> (forall a, returns (k a)) -> returns (bind m k).
Proof.
  intros Hm Hk w. destruct (Hm w) as [a Ha]. unfold bind, value_of in *.
  destruct (m w) as [[r w1] ev1]. cbn [fst] in Ha. subst r.
  destruct (Hk a w1) as [b Hb]. destruct (k a w1) as [[r w2] ev2]. cbn [fst] in *.
  exists b. exact Hb.
Qed.

Lemma returns_try_except {A} (m : M A) (h : exn -> M A) :
  (forall e, returns (h e)) -> returns (try_except m h).
Proof.
  intros Hh w. unfold try_except, value_of.
  destruct (m w) as [[[a | e] w1] ev1].
  - exists a. reflexivity.
  - destruct (Hh e w1) as [b Hb]. unfold value_of in Hb.
    destruct (h e w1) as [[r w2] ev2]. exists b. exact Hb.
Qed.

Create HintDb calm.
#[local] Hint Resolve calm_ret calm_raise calm_gets calm_modify : calm.
#[local] Hint Resolve returns_ret returns_gets returns_modify returns_emit : calm.

Ltac calm_step :=
  lazymatch goal with
  | |- calm (bind _ _) => apply calm_bind; [ | intros ? ]
  | |- calm (try_except _ _) => apply calm_try_except; [ | intros ? ]
  | |- calm (emit _) => apply calm_emit; reflexivity
  | |- calm (if ?b then _ else _) => destruct b
  | |- calm (match ?x with _ => _ end) => destruct x
  | |- returns (bind _ _) => apply returns_bind; [ | intros ? ]
  | |- returns (try_except _ _) => apply returns_try_except; intros ?
  | |- returns (if ?b then _ else _) => destruct b
  | |- returns (match ?x with _ => _ end) => destruct x
  | |- _ => solve [auto with calm]
  end.

Section Layout.

Context (E : Env).

Lemma calm_time_time : calm (time_time E).
Proof. intros w. reflexivity. Qed.

Lemma calm_time_sleep (d : Q) : calm (time_sleep d).
Proof. intros w. reflexivity. Qed.

Lemma calm_wait : calm (_wait_for_rate_limit E).
Proof.
  intros w. destruct (wait_events_limiter_only E w) as [-> | [d ->]]; reflexivity.
Qed.

Lemma calm_generate (prompt : string) : calm (_generate E prompt).
Proof. intros w. rewrite generate_run. reflexivity. Qed.

Lemma calm_retry_loop {A} (func : M A) (max_retries : Z) (k : nat) :
  calm func -> forall a, calm (retry_loop E func max_retries k a).
Proof.
  intros Hf. induction k as [ | k IH]; intros a.
  - apply calm_ret.
  - cbn [retry_loop]. apply calm_try_except.
    + repeat calm_step. apply calm_wait.
    + intros e. repeat calm_step; try apply calm_time_sleep; apply IH.
Qed.

Lemma calm_generative_image_description (slide_content : string) :
  calm (generative_image_description E slide_content).
Proof.
  unfold generative_image_description.
  destruct (find_keyword keyword_map (PyStr.lower slide_content)).
  - repeat calm_step.
  - repeat calm_step. apply calm_retry_loop. apply calm_generate.
Qed.

Lemma returns_generative_image_description (slide_content : string) :
  returns (generative_image_description E slide_content).
Proof.
  unfold generative_image_description.
  destruct (find_keyword keyword_map (PyStr.lower slide_content)).
  - repeat calm_step.
  - apply returns_try_except. intros e. repeat calm_step.
Qed.

Lemma calm_next_io {A} (oracle : nat -> A) : calm (next_io oracle).
Proof. intros w. reflexivity. Qed.

Lemma calm_download_images (query : string) : calm (download_images E query).
Proof.
  unfold download_images. repeat calm_step; apply calm_next_io.
Qed.

Lemma returns_download_images (query : string) : returns (download_images E query).
Proof.
  unfold download_images. apply returns_try_except. intros e. repeat calm_step.
Qed.

Lemma calm_set_text (v : json) : calm (set_text E v).
Proof. unfold set_text. repeat calm_step. Qed.

Lemma calm_add_slide (n : nat) : calm (add_slide n).
Proof. apply calm_modify. Qed.

Lemma calm_update_slide (f : slide -> slide) : calm (update_slide f).
Proof. apply calm_modify. Qed.

Lemma calm_path_exists (path : string) : calm (path_exists path).
Proof. apply calm_gets. Qed.

Lemma calm_place_downloaded (image_path : option string) (mk : string -> picture) :
  calm (place_downloaded E image_path mk).
Proof.
  unfold place_downloaded, shapes_add_picture, os_remove.
  repeat calm_step;
    try apply calm_next_io; try apply calm_path_exists; try apply calm_update_slide.
Qed.

(** The part of [create_content_slide] that deals with the image. *)

Lemma calm_content_image_part (content_text : string) : calm (content_image_part E content_text).
Proof.
  unfold content_image_part. repeat calm_step.
  - apply calm_generative_image_description.
  - apply calm_download_images.
  - apply calm_place_downloaded.
Qed.

Lemma returns_content_image_part (content_text : string) :
  returns (content_image_part E content_text).
Proof. unfold content_image_part. repeat calm_step. Qed.

Lemma calm_image_image_part (q : string) : calm (image_image_part E q).
Proof.
  unfold image_image_part. repeat calm_step.
  - apply calm_download_images.
  - apply calm_place_downloaded.
Qed.

Lemma returns_image_image_part (q : string) : returns (image_image_part E q).
Proof. unfold image_image_part. repeat calm_step. Qed.

Lemma first_call {A} (c : layout_call) (m : M A) (w : World) :
  calm m ->
  layout_calls (events_of ((emit (Layout c) ;; m) w)) = [c].
Proof.
  intros Hm. rewrite emit_then. unfold events_of at 1. cbn [snd layout_calls].
  rewrite (Hm w). reflexivity.
Qed.

Lemma after_emit {A} (e : event) (m : M A) (w : World) :
  value_of ((emit e ;; m) w) = value_of (m w).
Proof. rewrite emit_then. reflexivity. Qed.

Lemma create_title_slide_calls (t subtitle : string) (w : World) :
  value_of (create_title_slide E (JStr t) subtitle w) = Ok tt
  /\ layout_calls (events_of (create_title_slide E (JStr t) subtitle w))
     = [TitleSlide (JStr t) subtitle].
Proof.
  unfold create_title_slide. split.
  - rewrite after_emit.
    assert (H : returns
      (add_slide 0 ;; t0 <- set_text E (JStr t) ;;
       update_slide (with_title (Para t0 30 true black true)) ;;
       (if PyStr.truthy subtitle
        then update_slide (with_subtitle (Para subtitle 20 false black true))
        else ret tt))).
    { repeat calm_step; try apply returns_modify.
      all: try (unfold set_text; apply returns_ret). }
    destruct (H w) as [[] Hv]. exact Hv.
  - apply first_call. repeat calm_step;
      try apply calm_add_slide; try apply calm_set_text; apply calm_update_slide.
Qed.

Lemma create_content_slide_calls (t : string) (content : json) (b : bool) (w : World) :
  (exists sl, value_of (create_content_slide E (JStr t) content b w) = Ok sl)
  /\ layout_calls (events_of (create_content_slide E (JStr t) content b w))
     = [ContentSlide (JStr t) content b].
Proof.
  unfold create_content_slide. fold (content_image_part E (content_text_of E content)). split.
  - rewrite after_emit.
    assert (H : returns
      (add_slide 1 ;; t0 <- set_text E (JStr t) ;;
       update_slide (with_title (Para t0 30 true None false)) ;;
       update_slide (with_body (Para (content_text_of E content) 18 false black false)) ;;
       (if b then content_image_part E (content_text_of E content) else ret tt) ;;
       current_slide)).
    { repeat calm_step; try apply returns_modify; try apply returns_gets;
        try apply returns_content_image_part.
      all: try (unfold set_text; apply returns_ret). }
    apply H.
  - apply first_call. repeat calm_step;
      try apply calm_add_slide; try apply calm_set_text; try apply calm_update_slide;
      try apply calm_content_image_part. apply calm_gets.
Qed.

Lemma create_image_slide_calls (t : string) (content : json) (q : string) (w : World) :
  (exists sl, value_of (create_image_slide E (JStr t) content q w) = Ok sl)
  /\ layout_calls (events_of (create_image_slide E (JStr t) content q w))
     = [ImageSlide (JStr t) content q].
Proof.
  unfold create_image_slide. fold (image_image_part E q). split.
  - rewrite after_emit.
    assert (H : returns
      (add_slide 8 ;; t0 <- set_text E (JStr t) ;;
       update_slide (with_title (Para t0 28 true black true)) ;;
       update_slide (with_body (Para (content_text_of E content) 13 false
                                  (Some (51, 51, 51)) true)) ;;
       image_image_part E q ;;
       current_slide)).
    { repeat calm_step; try apply returns_modify; try apply returns_gets;
        try apply returns_image_image_part.
      all: try (unfold set_text; apply returns_ret). }
    apply H.
  - apply first_call. repeat calm_step;
      try apply calm_add_slide; try apply calm_set_text; try apply calm_update_slide;
      try apply calm_image_image_part. apply calm_gets.
Qed.

Lemma ret_bind {A B} (a : A) (k : A -> M B) (w : World) : bind (ret a) k w = k a w.
Proof. unfold bind, ret. destruct (k a w) as [[r w2] ev2]. reflexivity. Qed.

Lemma then_ret_tt {A} (m : M A) (w : World) (a : A) :
  value_of (m w) = Ok a ->
  (m ;; ret tt) w = (Ok tt, world_of (m w), events_of (m w)).
Proof.
  unfold bind, ret, value_of, world_of, events_of.
  destruct (m w) as [[r w1] ev1]. cbn. intros ->. rewrite app_nil_r. reflexivity.
Qed.

Lemma content_str_of_printable (content : json) (w : World) :
  printable content = true ->
  exists s, content_str_of E content w = (Ok s, w, []).
Proof.
  unfold printable, content_str_of. intros H.
  destruct content; try (eexists; reflexivity).
  destruct (as_strings items); [eexists; reflexivity | discriminate].
Qed.

Lemma run_of {A} (m : M A) (w : World) (a : A) (calls : list layout_call) :
  value_of (m w) = Ok a ->
  layout_calls (events_of (m w)) = calls ->
  exists w' evs, m w = (Ok a, w', evs) /\ layout_calls evs = calls.
Proof.
  unfold value_of, events_of. destruct (m w) as [[r w'] evs]. cbn [fst snd].
  intros -> H. exists w', evs. split; [reflexivity | exact H].
Qed.

Lemma lay_out_calls (author : string) (i : Z) (t : string) (content slide_type : json)
  (w : World) :
  printable content = true ->
  exists w' evs,
    lay_out E author i (JStr t) content slide_type w = (Ok tt, w', evs)
    /\ map summary (layout_calls evs) = [(selected i slide_type, JStr t)].
Proof.
  intros Hp. unfold lay_out, selected.
  destruct ((i =? 0) || is_str slide_type "title").
  - destruct (create_title_slide_calls t ("Created by " ++ author) w) as [Hv Hc].
    destruct (run_of _ _ _ _ Hv Hc) as (w' & evs & -> & Hl).
    exists w', evs. rewrite Hl. split; reflexivity.
  - destruct (is_str slide_type "content").
    + destruct (create_content_slide_calls t content true w) as [[sl Hv] Hc].
      rewrite (then_ret_tt _ w sl Hv). do 2 eexists. split; [reflexivity | ].
      rewrite Hc. reflexivity.
    + destruct (is_str slide_type "image").
      * destruct (content_str_of_printable content w Hp) as [s Hs].
        destruct (returns_generative_image_description s w) as [q Hq].
        destruct (run_of _ _ _ _ Hq (calm_generative_image_description s w))
          as (w1 & ev1 & Hrun & Hcalm).
        destruct (create_image_slide_calls t content q w1) as [[sl Hv] Hc].
        unfold bind at 1. rewrite Hs. unfold bind at 1. rewrite Hrun.
        rewrite (then_ret_tt _ w1 sl Hv). do 2 eexists. split; [reflexivity | ].
        cbn [app]. rewrite layout_calls_app, Hcalm, Hc. reflexivity.
      * destruct (create_content_slide_calls t content false w) as [[sl Hv] Hc].
        rewrite (then_ret_tt _ w sl Hv). do 2 eexists. split; [reflexivity | ].
        rewrite Hc. reflexivity.
Qed.

Lemma dict_get_string (fields : list (string * json)) (key d1 d2 : string) :
  is_string (dict_get fields key (JStr d1)) = true ->
  is_string (dict_get fields key (JStr d2)) = true.
Proof.
  induction fields as [ | [k v] rest IH]; cbn; [reflexivity | ].
  destruct (String.eqb k key); [trivial | exact IH].
Qed.

Lemma slide_loop_step (author : string) (total : Z) (fields : list (string * json))
  (rest : list json) (i : Z) (w : World) :
  slide_loop E author total (JObj fields :: rest) i w
  = (emit (StatusText (MsgGeneratingSlide (i + 1) total (title_at i fields))) ;;
     emit (Progress (inject_Z (i + 1) / inject_Z total)) ;;
     lay_out E author i (title_at i fields) (content_in fields) (slide_type_in fields) ;;
     slide_loop E author total rest (i + 1)) w.
Proof.
  cbn [slide_loop record_get]. rewrite !ret_bind. reflexivity.
Qed.

Lemma slide_loop_calls (author : string) (total : Z) (items : list json) :
  forall (i : Z) (w : World),
    forallb usable_record items = true ->
    exists w' evs,
      slide_loop E author total items i w = (Ok tt, w', evs)
      /\ map summary (layout_calls evs) = expected_calls i items.
Proof.
  induction items as [ | r rest IH]; intros i w Hu.
  - exists w, []. split; reflexivity.
  - cbn [forallb] in Hu. apply andb_prop in Hu. destruct Hu as [Hr Hrest].
    destruct r as [ | | | | | fields]; try discriminate.
    cbn [usable_record] in Hr. apply andb_prop in Hr. destruct Hr as [Ht Hp].
    apply (dict_get_string _ _ _ ("Slide " ++ PyStr.of_Z (i + 1))) in Ht.
    fold (title_at i fields) in Ht.
    destruct (title_at i fields) as [ | | | t | | ] eqn:Htitle; try discriminate.
    destruct (lay_out_calls author i t (content_in fields) (slide_type_in fields) w Hp)
      as (w1 & ev1 & Hrun & Hc).
    destruct (IH (i + 1) w1 Hrest) as (w2 & ev2 & Hrun' & Hc').
    rewrite slide_loop_step, Htitle. rewrite !emit_then.
    unfold bind. rewrite Hrun, Hrun'. unfold value_of, world_of, events_of. cbn [fst snd].
    do 2 eexists. split; [reflexivity | ].
    cbn [layout_calls]. rewrite layout_calls_app, map_app, Hc, Hc'.
    cbn [expected_calls app]. rewrite Htitle. reflexivity.
Qed.

End Layout.

(** ** Runs of [generate_ppt] *)

Section PptRuns.
Context (E : Env).

Lemma calm_retry_api_call {A} (func : M A) (max_retries : Z) :
  calm func -> calm (_retry_api_call E func max_retries).
Proof. intros Hf. unfold _retry_api_call. apply calm_retry_loop. exact Hf. Qed.

Lemma calm_strip_fences (content : string) : calm (strip_fences content).
Proof. intros w. rewrite strip_fences_run. reflexivity. Qed.

Lemma calm_generate_content_outlines (topic : string) (num_slides : Z) :
  calm (generate_content_outlines E topic num_slides).
Proof.
  unfold generate_content_outlines. repeat calm_step.
  - apply calm_retry_api_call. apply calm_generate.
  - apply calm_strip_fences.
Qed.

Lemma generate_ppt_run (topic : string) (num_slides : Z) (output_file author : string)
  (w w1 w2 : World) (items : list json) (evg evl : list event) (loop : result unit) :
  generate_content_outlines E topic num_slides w = (Ok (JArr items), w1, evg) ->
  slide_loop E author (Z.of_nat (List.length items)) items 0 w1 = (loop, w2, evl) ->
  generate_ppt E topic num_slides output_file author w
  = (value_of (closing E output_file loop w2), world_of (closing E output_file loop w2),
     (preamble topic num_slides ++ evg ++ evl
      ++ events_of (closing E output_file loop w2))%list).
Proof.
  intros Hg Hl.
  unfold generate_ppt, preamble, closing, presentation_save, bind, emit.
  rewrite Hg. unfold elements, ret. rewrite Hl.
  unfold value_of, world_of, events_of, modify.
  destruct loop as [[] | e]; [destruct (save E output_file) as [e | ] | ];
    cbn [fst snd app]; rewrite ?app_nil_r; reflexivity.
Qed.
End PptRuns.

(** ** What a computation leaves alone, and the slides it builds *)

Section Frames.

Context (F : Frame).

Lemma keeps_ret {A} (a : A) : keeps F (ret a).
Proof. intros w. apply rel_refl. Qed.

Lemma keeps_raise {A} (e : exn) : keeps F (@raise A e).
Proof. intros w. apply rel_refl. Qed.

Lemma keeps_emit (e : event) : keeps F (emit e).
Proof. intros w. apply rel_refl. Qed.

Lemma keeps_gets {A} (f : World -> A) : keeps F (gets f).
Proof. intros w. apply rel_refl. Qed.

Lemma keeps_modify (f : World -> World) :
  (forall w, rel F w (f w)) -> keeps F (modify f).
Proof. intros H w. apply H. Qed.

Lemma keeps_bind {A B} (m : M A) (k : A -> M B) :
  keeps F m -> (forall a, keeps F (k a)) -> keeps F (bind m k).
Proof.
  intros Hm Hk w. specialize (Hm w). unfold bind, world_of in *.
  destruct (m w) as [[[a | e] w1] ev1]; cbn [fst snd] in *.
  - specialize (Hk a w1). unfold world_of in Hk.
    destruct (k a w1) as [[r w2] ev2]. cbn [fst snd] in *.
    exact (rel_trans F _ _ _ Hm Hk).
  - exact Hm.
Qed.

Lemma keeps_try_except {A} (m : M A) (h : exn -> M A) :
  keeps F m -> (forall e, keeps F (h e)) -> keeps F (try_except m h).
Proof.
  intros Hm Hh w. specialize (Hm w). unfold try_except, world_of in *.
  destruct (m w) as [[[a | e] w1] ev1]; cbn [fst snd] in *.
  - exact Hm.
  - specialize (Hh e w1). unfold world_of in Hh.
    destruct (h e w1) as [[r w2] ev2]. cbn [fst snd] in *.
    exact (rel_trans F _ _ _ Hm Hh).
Qed.

End Frames.

Ltac keeps_step :=
  lazymatch goal with
  | |- keeps _ (bind _ _) => apply keeps_bind; [ | intros ? ]
  | |- keeps _ (try_except _ _) => apply keeps_try_except; [ | intros ? ]
  | |- keeps _ (ret _) => apply keeps_ret
  | |- keeps _ (raise _) => apply keeps_raise
  | |- keeps _ (emit _) => apply keeps_emit
  | |- keeps _ (gets _) => apply keeps_gets
  | |- keeps _ (if ?b then _ else _) => destruct b
  | |- keeps _ (match ?x with _ => _ end) => destruct x
  end.

Section Slides.
Context (E : Env).

Lemma keeps_requests_wait : keeps request_frame (_wait_for_rate_limit E).
Proof.
  intros w. destruct (wait_shape E w) as [t Ht]. rewrite Ht. repeat split.
Qed.

Lemma keeps_requests_generate (prompt : string) :
  keeps request_frame (_generate E prompt).
Proof. intros w. rewrite generate_run. repeat split. Qed.

Lemma keeps_requests_sleep (d : Q) : keeps request_frame (time_sleep d).
Proof. intros w. repeat split. Qed.

Lemma keeps_requests_retry_loop {A} (func : M A) (max_retries : Z) (k : nat) :
  keeps request_frame func ->
  forall a, keeps request_frame (retry_loop E func max_retries k a).
Proof.
  intros Hf. induction k as [ | k IH]; intros a.
  - apply keeps_ret.
  - cbn [retry_loop]. repeat keeps_step;
      try apply keeps_requests_wait; try apply keeps_requests_sleep;
      try exact Hf; apply IH.
Qed.

Lemma keeps_requests_description (slide_content : string) :
  keeps request_frame (generative_image_description E slide_content).
Proof.
  unfold generative_image_description, _retry_api_call. repeat keeps_step.
  apply keeps_requests_retry_loop. apply keeps_requests_generate.
Qed.

Lemma keyword_phrase_truthy (content_lower d : string) :
  find_keyword keyword_map content_lower = Some d -> PyStr.truthy d = true.
Proof.
  unfold keyword_map. cbn [find_keyword].
  repeat match goal with
         | |- context [if ?b then _ else _] => destruct b
         end;
    intros [= <-]; reflexivity.
Qed.

Lemma description_truthy (slide_content : string) (w : World) (d : string) :
  value_of (generative_image_description E slide_content w) = Ok d ->
  PyStr.truthy d = true.
Proof.
  unfold generative_image_description.
  destruct (find_keyword keyword_map (PyStr.lower slide_content)) as [p | ] eqn:Hk.
  - rewrite emit_then. unfold value_of, ret. cbn [fst]. intros [= <-].
    exact (keyword_phrase_truthy _ _ Hk).
  - unfold try_except, bind, value_of.
    destruct (_retry_api_call E _ 3 w) as [[[[r | ] | e] w1] ev1]; cbn.
    + destruct (PyStr.truthy r) eqn:Hr; cbn; intros [= <-]; [exact Hr | reflexivity].
    + intros [= <-]. reflexivity.
    + intros [= <-]. reflexivity.
Qed.

Lemma download_images_run (query : string) (w : World) :
  exists w' evs,
    download_images E query w
    = (Ok (if download_ok E (io_calls w) query then Some temp_image else None), w', evs)
    /\ presentation w' = presentation w
    /\ files w' = (if file_opened E (io_calls w) query
                   then temp_image :: without temp_image (files w)
                   else files w)
    /\ (download_ok E (io_calls w) query = true
        -> io_calls w' = S (S (S (S (io_calls w)))))
    /\ existsb is_image_request evs = found_photo (pexels_search E (io_calls w) query).
Proof.
  unfold download_images, download_ok, file_opened, try_except, bind, gets, emit, next_io,
    modify, ret, raise.
  destruct (pexels_search E (io_calls w) query) as [e | | url] eqn:Hs; cbn; rewrite ?Hs; cbn.
  - do 2 eexists. split; [reflexivity | ]. repeat split; intros; discriminate.
  - do 2 eexists. split; [reflexivity | ]. repeat split; intros; discriminate.
  - destruct (image_get E (S (io_calls w)) url) as [bytes | e] eqn:Hg; cbn; rewrite ?Hg; cbn.
    + destruct (file_open E (S (S (io_calls w))) temp_image) as [e | ] eqn:Ho;
        cbn; rewrite ?Ho; cbn.
      * do 2 eexists. split; [reflexivity | ]. repeat split; intros; discriminate.
      * destruct (file_write E (S (S (S (io_calls w)))) temp_image) as [e | ] eqn:Hw;
          cbn; rewrite ?Hw; cbn.
        -- do 2 eexists. split; [reflexivity | ]. repeat split; intros; discriminate.
        -- do 2 eexists. split; [reflexivity | ]. repeat split.
    + do 2 eexists. split; [reflexivity | ]. repeat split; intros; discriminate.
Qed.

Lemma without_without (path : string) (fs : list string) :
  without path (without path fs) = without path fs.
Proof.
  unfold without. induction fs as [ | f fs IH]; cbn; [reflexivity | ].
  destruct (negb (String.eqb f path)) eqn:Hf; cbn; rewrite ?Hf, IH; reflexivity.
Qed.

Lemma place_downloaded_some (mk : string -> picture) (w : World) (sl : slide)
  (rest : list slide) :
  (forall p, pic_path (mk p) = p) ->
  presentation w = sl :: rest ->
  existsb (String.eqb temp_image) (files w) = true ->
  place_downloaded E (Some temp_image) mk w
  = match add_picture E (io_calls w) temp_image with
    | Some e => (Raised e, bump_io w, [])
    | None =>
        (Ok tt,
         remove_file temp_image
           (set_presentation (with_picture (mk temp_image) sl :: rest) (bump_io w)),
         [])
    end.
Proof.
  intros Hmk Hp Hf.
  unfold place_downloaded, shapes_add_picture, os_remove, path_exists, next_io, update_slide.
  cbn [PyStr.truthy temp_image].
  unfold bind, gets, modify, ret, raise. rewrite Hf, Hmk.
  destruct (add_picture E (io_calls w) temp_image) as [e | ]; cbn [fst snd app].
  - reflexivity.
  - cbn [presentation bump_io]. rewrite Hp. cbn [files set_presentation bump_io].
    rewrite Hf. reflexivity.
Qed.

Lemma fetch_part_run (query : string) (mk : string -> picture) (w : World) (sl : slide)
  (rest : list slide) :
  (forall p, pic_path (mk p) = p) ->
  presentation w = sl :: rest ->
  exists r w' evs,
    fetch_part E query mk w = (r, w', evs)
    /\ presentation w'
       = (if fetch_ok E (io_calls w) query then with_picture (mk temp_image) sl else sl)
           :: rest
    /\ files w' = files_after_fetch E (io_calls w) query (files w)
    /\ (r = Ok tt \/ exists e, r = Raised e).
Proof.
  intros Hmk Hp.
  destruct (download_images_run query w) as (w1 & ev1 & Hrun & Hp1 & Hf1 & Hio & _).
  unfold fetch_part, bind, fetch_ok, files_after_fetch, picture_ok. rewrite Hrun.
  destruct (download_ok E (io_calls w) query) eqn:Hok.
  - assert (Hopen : file_opened E (io_calls w) query = true).
    { unfold download_ok in Hok. apply andb_prop in Hok. apply Hok. }
    rewrite Hopen in *.
    rewrite (place_downloaded_some mk w1 sl rest Hmk).
    + rewrite (Hio eq_refl).
      destruct (add_picture E (S (S (S (S (io_calls w))))) temp_image) as [e | ].
      * do 3 eexists. split; [reflexivity | ]. cbn. rewrite Hp1, Hf1.
        repeat split; eauto.
      * do 3 eexists. split; [reflexivity | ]. cbn [andb].
        split; [reflexivity | ]. split; [ | left; reflexivity].
        cbn [files remove_file set_files set_presentation bump_io]. rewrite Hf1.
        fold (without temp_image (temp_image :: without temp_image (files w))).
        cbn. apply without_without.
    + rewrite Hp1. exact Hp.
    + rewrite Hf1. reflexivity.
  - cbn. do 3 eexists. split; [reflexivity | ]. rewrite Hp1, Hf1.
    split; [exact Hp | ]. split; [ | left; reflexivity].
    destruct (file_opened E (io_calls w) query); reflexivity.
Qed.

Lemma modify_then {B} (f : World -> World) (k : M B) (w : World) :
  (modify f ;; k) w = k (f w).
Proof. unfold bind, modify. destruct (k (f w)) as [[r w2] ev2]. reflexivity. Qed.

Lemma guarded_fetch_run (query : string) (mk : string -> picture) (w : World) (sl : slide)
  (rest : list slide) :
  (forall p, pic_path (mk p) = p) ->
  presentation w = sl :: rest ->
  exists w' evs,
    try_except (fetch_part E query mk) image_failed w = (Ok tt, w', evs)
    /\ presentation w'
       = (if fetch_ok E (io_calls w) query then with_picture (mk temp_image) sl else sl)
           :: rest
    /\ files w' = files_after_fetch E (io_calls w) query (files w).
Proof.
  intros Hmk Hp.
  destruct (fetch_part_run query mk w sl rest Hmk Hp) as (r & w1 & ev1 & Hrun & Hs & Hf & Hr).
  unfold try_except. rewrite Hrun. destruct Hr as [-> | [e ->]].
  - exists w1, ev1. repeat split; assumption.
  - unfold image_failed, emit. do 2 eexists. split; [reflexivity | ]. split; assumption.
Qed.

Lemma create_image_slide_run (t : string) (content : json) (query : string) (w : World) :
  exists w' evs,
    create_image_slide E (JStr t) content query w
    = (Ok (image_slide E t content (fetch_ok E (io_calls w) query)), w', evs)
    /\ presentation w'
       = image_slide E t content (fetch_ok E (io_calls w) query) :: presentation w
    /\ files w' = files_after_fetch E (io_calls w) query (files w).
Proof.
  pose (w0 := set_presentation (image_slide E t content false :: presentation w) w).
  destruct (guarded_fetch_run query image_picture w0 (image_slide E t content false)
              (presentation w) ltac:(reflexivity) eq_refl) as (w1 & ev1 & Hrun & Hs & Hf).
  change (io_calls w0) with (io_calls w) in Hs, Hf. change (files w0) with (files w) in Hf.
  assert (Hinner : (try_except (fetch_part E query image_picture) image_failed ;;
                    current_slide) w0
                   = (Ok (hd (blank_slide 0) (presentation w1)), w1, ev1)).
  { unfold bind. rewrite Hrun. unfold current_slide, gets. rewrite app_nil_r. reflexivity. }
  unfold create_image_slide. rewrite emit_then.
  unfold add_slide, set_text, update_slide. rewrite modify_then, ret_bind.
  rewrite !modify_then. cbn [presentation set_presentation with_title with_body blank_slide
    s_layout s_title s_subtitle s_body s_pictures].
  fold (image_slide E t content false).
  change (set_presentation _ (set_presentation _ (set_presentation _ w))) with w0.
  change (try_except _ _) with (try_except (fetch_part E query image_picture) image_failed).
  rewrite Hinner. unfold value_of, world_of, events_of. cbn [fst snd].
  exists w1, (Layout (ImageSlide (JStr t) content query) :: ev1).
  rewrite Hs. cbn [hd]. split; [ | split].
  - destruct (fetch_ok E (io_calls w) query); reflexivity.
  - destruct (fetch_ok E (io_calls w) query); reflexivity.
  - exact Hf.
Qed.

Lemma description_run (slide_content : string) (w : World) :
  exists d w1 ev1,
    generative_image_description E slide_content w = (Ok d, w1, ev1)
    /\ PyStr.truthy d = true
    /\ untouched_by_requests w w1.
Proof.
  destruct (returns_generative_image_description E slide_content w) as [d Hd].
  pose proof (description_truthy slide_content w d Hd) as Ht.
  pose proof (keeps_requests_description slide_content w) as Hk.
  unfold value_of in Hd. unfold world_of in Hk.
  destruct (generative_image_description E slide_content w) as [[r w1] ev1].
  cbn [fst snd] in *. subst r. exists d, w1, ev1. repeat split; try assumption; apply Hk.
Qed.

Lemma content_image_part_run (content_text : string) (w : World) (sl : slide)
  (rest : list slide) :
  presentation w = sl :: rest ->
  exists d w' evs,
    value_of (generative_image_description E content_text w) = Ok d
    /\ content_image_part E content_text w = (Ok tt, w', evs)
    /\ presentation w'
       = (if fetch_ok E (io_calls w) d then with_picture (content_picture temp_image) sl
          else sl) :: rest
    /\ files w' = files_after_fetch E (io_calls w) d (files w).
Proof.
  intros Hp.
  destruct (description_run content_text w) as (d & w1 & ev1 & Hd & Ht & Hp1 & Hf1 & Hio & _).
  rewrite <- Hp1 in Hp.
  destruct (fetch_part_run d content_picture w1 sl rest ltac:(reflexivity) Hp)
    as (r & w2 & ev2 & Hrun & Hs & Hf & Hr).
  rewrite Hio in Hs, Hf. rewrite Hf1 in Hf.
  exists d. unfold content_image_part, try_except, bind.
  rewrite Hd. unfold value_of. cbn [fst]. rewrite Ht.
  change (image_path <- download_images E d ;; place_downloaded E image_path content_picture)
    with (fetch_part E d content_picture).
  unfold bind in Hrun |- *. unfold fetch_part in Hrun. unfold bind in Hrun. rewrite Hrun.
  destruct Hr as [-> | [e ->]].
  - do 2 eexists. repeat split; try reflexivity; assumption.
  - unfold emit. do 2 eexists. repeat split; try reflexivity; assumption.
Qed.

Lemma create_content_slide_plain (t : string) (content : json) (w : World) :
  create_content_slide E (JStr t) content false w
  = (Ok (content_slide E t content false),
     set_presentation (content_slide E t content false :: presentation w) w,
     [Layout (ContentSlide (JStr t) content false)]).
Proof.
  unfold create_content_slide. rewrite emit_then.
  unfold add_slide, set_text, update_slide. rewrite modify_then, ret_bind.
  rewrite !modify_then, ret_bind. reflexivity.
Qed.

Lemma create_content_slide_with_image (t : string) (content : json) (w : World) :
  let w0 := set_presentation (content_slide E t content false :: presentation w) w in
  exists d w' evs,
    value_of (generative_image_description E (content_text_of E content) w0) = Ok d
    /\ create_content_slide E (JStr t) content true w
       = (Ok (content_slide E t content (fetch_ok E (io_calls w) d)), w', evs)
    /\ presentation w' = content_slide E t content (fetch_ok E (io_calls w) d) :: presentation w
    /\ files w' = files_after_fetch E (io_calls w) d (files w).
Proof.
  intros w0.
  destruct (content_image_part_run (content_text_of E content) w0
              (content_slide E t content false) (presentation w) eq_refl)
    as (d & w1 & ev1 & Hd & Hrun & Hs & Hf).
  change (io_calls w0) with (io_calls w) in Hs, Hf. change (files w0) with (files w) in Hf.
  assert (Hinner : (content_image_part E (content_text_of E content) ;; current_slide) w0
                   = (Ok (hd (blank_slide 0) (presentation w1)), w1, ev1)).
  { unfold bind. rewrite Hrun. unfold current_slide, gets. rewrite app_nil_r. reflexivity. }
  exists d, w1, (Layout (ContentSlide (JStr t) content true) :: ev1).
  split; [exact Hd | ].
  unfold create_content_slide. rewrite emit_then.
  unfold add_slide, set_text, update_slide. rewrite modify_then, ret_bind.
  rewrite !modify_then. cbn [presentation set_presentation with_title with_body blank_slide
    s_layout s_title s_subtitle s_body s_pictures].
  fold (content_slide E t content false).
  change (set_presentation _ (set_presentation _ (set_presentation _ w))) with w0.
  change (try_except _ _) with (content_image_part E (content_text_of E content)).
  rewrite Hinner. unfold value_of, world_of, events_of. cbn [fst snd].
  rewrite Hs. cbn [hd]. split; [ | split].
  - destruct (fetch_ok E (io_calls w) d); reflexivity.
  - destruct (fetch_ok E (io_calls w) d); reflexivity.
  - exact Hf.
Qed.

Lemma create_title_slide_run (t subtitle : string) (w : World) :
  create_title_slide E (JStr t) subtitle w
  = (Ok tt, set_presentation (title_slide t subtitle :: presentation w) w,
     [Layout (TitleSlide (JStr t) subtitle)]).
Proof.
  unfold create_title_slide. rewrite emit_then.
  unfold add_slide, set_text, update_slide. rewrite modify_then, ret_bind, modify_then.
  unfold title_slide. destruct (PyStr.truthy subtitle); reflexivity.
Qed.

Lemma world_after_emit {A} (e : event) (m : M A) (w : World) :
  world_of ((emit e ;; m) w) = world_of (m w).
Proof. rewrite emit_then. reflexivity. Qed.

Lemma world_of_bind {A B} (m : M A) (k : A -> M B) (w w1 : World) (a : A)
  (ev1 : list event) :
  m w = (Ok a, w1, ev1) -> world_of (bind m k w) = world_of (k a w1).
Proof.
  intros H. unfold bind, world_of. rewrite H.
  destruct (k a w1) as [[r w2] ev2]. reflexivity.
Qed.

Lemma lay_out_slides (author : string) (i : Z) (t : string) (content slide_type : json)
  (w : World) :
  printable content = true ->
  exists sl,
    presentation (world_of (lay_out E author i (JStr t) content slide_type w))
    = sl :: presentation w
    /\ slide_summary sl = expected_slide (selected i slide_type, JStr t).
Proof.
  intros Hp. unfold lay_out, selected.
  destruct ((i =? 0) || is_str slide_type "title").
  - rewrite create_title_slide_run. eexists. split; reflexivity.
  - destruct (is_str slide_type "content").
    + destruct (create_content_slide_with_image t content w)
        as (d & w' & evs & _ & Hrun & Hs & _).
      rewrite (then_ret_tt _ w _ ltac:(rewrite Hrun; reflexivity)).
      rewrite Hrun. unfold world_of. cbn [fst snd]. rewrite Hs.
      eexists. split; [reflexivity | ]. destruct (fetch_ok E (io_calls w) d); reflexivity.
    + destruct (is_str slide_type "image").
      * destruct (content_str_of_printable E content w Hp) as [s Hs].
        destruct (description_run s w) as (q & w1 & ev1 & Hq & _ & Hp1 & _).
        destruct (create_image_slide_run t content q w1) as (w' & evs & Hrun & Hsl & _).
        unfold bind at 1. rewrite Hs. unfold bind at 1. rewrite Hq.
        rewrite (then_ret_tt _ w1 _ ltac:(rewrite Hrun; reflexivity)).
        rewrite Hrun. unfold world_of. cbn [fst snd]. rewrite Hsl, Hp1.
        eexists. split; [reflexivity | ]. destruct (fetch_ok E (io_calls w1) q); reflexivity.
      * rewrite (then_ret_tt _ w _ ltac:(rewrite create_content_slide_plain; reflexivity)).
        rewrite create_content_slide_plain. eexists. split; reflexivity.
Qed.

Lemma slide_loop_slides (author : string) (total : Z) (items : list json) :
  forall (i : Z) (w : World),
    forallb usable_record items = true ->
    exists slides,
      presentation (world_of (slide_loop E author total items i w))
      = (rev slides ++ presentation w)%list
      /\ map slide_summary slides = map expected_slide (expected_calls i items).
Proof.
  induction items as [ | r rest IH]; intros i w Hu.
  - exists []. split; reflexivity.
  - cbn [forallb] in Hu. apply andb_prop in Hu. destruct Hu as [Hr Hrest].
    destruct r as [ | | | | | fields]; try discriminate.
    cbn [usable_record] in Hr. apply andb_prop in Hr. destruct Hr as [Ht Hp].
    apply (dict_get_string _ _ _ ("Slide " ++ PyStr.of_Z (i + 1))) in Ht.
    fold (title_at i fields) in Ht.
    destruct (title_at i fields) as [ | | | t | | ] eqn:Htitle; try discriminate.
    destruct (lay_out_calls E author i t (content_in fields) (slide_type_in fields) w Hp)
      as (w1 & ev1 & Hrun & _).
    destruct (lay_out_slides author i t (content_in fields) (slide_type_in fields) w Hp)
      as (sl & Hsl & Hsum).
    rewrite Hrun in Hsl. unfold world_of in Hsl. cbn [fst snd] in Hsl.
    destruct (IH (i + 1) w1 Hrest) as (slides & Hslides & Hsums).
    exists (sl :: slides).
    rewrite slide_loop_step, Htitle. rewrite !world_after_emit.
    rewrite (world_of_bind _ _ _ _ _ _ Hrun).
    rewrite Hslides, Hsl. split.
    + cbn [rev]. rewrite <- app_assoc. reflexivity.
    + cbn [map expected_calls]. rewrite Htitle, Hsum, Hsums. reflexivity.
Qed.
End Slides.

(** ** Counting the requests *)

Section Requests.
Context (E : Env).

Lemma wait_stamp_spacing (w : World) :
  monotone_clock E ->
  (last_api_call w + min_delay <= last_api_call (world_of (_wait_for_rate_limit E w)))%Q.
Proof.
  intros Hmono. pose proof (Hmono (S (clock_reads w))) as Htick.
  destruct (Qlt_le_dec (elapsed E w) min_delay) as [Hlt | Hle].
  - rewrite (wait_sleeps E w Hlt). unfold world_of. cbn [fst snd last_api_call stamped].
    unfold elapsed, reading in *. lra.
  - rewrite (wait_passes E w Hle). unfold world_of. cbn [fst snd last_api_call stamped].
    unfold elapsed, reading in *. lra.
Qed.

Lemma wait_counts (w : World) :
  let w' := world_of (_wait_for_rate_limit E w) in
  gemini_calls w' = gemini_calls w /\ api_call_count w' = api_call_count w + 1.
Proof.
  destruct (wait_shape E w) as [t Ht]. rewrite Ht. split; reflexivity.
Qed.

Lemma attempt_generate_world (prompt : string) (w : World) :
  world_of (attempt E (_generate E prompt) w)
  = bump_gemini (world_of (_wait_for_rate_limit E w)).
Proof.
  destruct (wait_shape E w) as [t Ht].
  unfold attempt, bind. rewrite Ht, generate_run. unfold world_of. cbn [fst snd].
  destruct (gemini E (gemini_calls (stamped t w)) prompt); reflexivity.
Qed.

Lemma counted_attempt (prompt : string) (w : World) :
  let w1 := world_of (attempt E (_generate E prompt) w) in
  requests_between w w1 = 1
  /\ api_call_count w1 = api_call_count w + 1
  /\ (monotone_clock E -> (last_api_call w + min_delay <= last_api_call w1)%Q).
Proof.
  intros w1. subst w1. rewrite attempt_generate_world.
  destruct (wait_counts w) as [Hg Hc]. unfold requests_between.
  cbn [gemini_calls api_call_count last_api_call bump_gemini]. rewrite Hg, Hc.
  split; [lia | ]. split; [reflexivity | ]. apply wait_stamp_spacing.
Qed.

Lemma retry_generate_counted (prompt : string) (max_retries : Z) (k : nat) :
  forall (a : Z) (w : World),
    let w' := world_of (retry_loop E (_generate E prompt) max_retries k a w) in
    counted E w w' /\ requests_between w w' <= Z.of_nat k
    /\ (k <> 0%nat -> 1 <= requests_between w w').
Proof.
  induction k as [ | k IH]; intros a w w'.
  - subst w'. cbn. unfold counted, requests_between.
    replace (Z.of_nat (gemini_calls w) - Z.of_nat (gemini_calls w)) with 0 by lia.
    repeat split; try lia. intros _. unfold min_delay. change (inject_Z 0) with 0%Q. lra.
  - destruct (counted_attempt prompt w) as (Hreq & Hcount & Hstamp).
    destruct (attempt E (_generate E prompt) w) as [[[r | e] w1] ev] eqn:Hrun;
      unfold world_of in Hreq, Hcount, Hstamp; cbn [fst snd] in Hreq, Hcount, Hstamp.
    + subst w'. rewrite (retry_loop_succeeds E _ _ _ _ _ _ _ _ Hrun).
      unfold world_of. cbn [fst snd]. unfold counted. rewrite Hreq.
      repeat split; try lia.
      intros Hm. specialize (Hstamp Hm). unfold min_delay in *.
      change (inject_Z 1) with 1%Q. lra.
    + assert (Hstop : counted E w w1 /\ requests_between w w1 <= Z.of_nat (S k)
                      /\ (S k <> 0%nat -> 1 <= requests_between w w1)).
      { unfold counted. rewrite Hreq. repeat split; try lia.
        intros Hm. specialize (Hstamp Hm). unfold min_delay in *.
        change (inject_Z 1) with 1%Q. lra. }
      destruct (classify (exn_str e)) as [b | ] eqn:Hb.
      * destruct (Z_lt_le_dec a (max_retries - 1)) as [Hlt | Hge].
        -- subst w'. rewrite (retry_loop_retries E _ _ _ _ _ _ _ _ _ Hrun Hb Hlt).
           unfold world_of. cbn [fst snd].
           set (w2 := set_clock _ _ w1).
           destruct (IH (a + 1) w2) as ((Hpos & Hc2 & Hs2) & Hle & _).
           unfold world_of in Hpos, Hc2, Hs2, Hle.
           destruct (retry_loop E (_generate E prompt) max_retries k (a + 1) w2)
             as [[r3 w3] ev3]. cbn [fst snd] in *.
           assert (Hsum : requests_between w w3 = 1 + requests_between w2 w3).
           { unfold requests_between in *. subst w2. cbn [gemini_calls set_clock] in *. lia. }
           unfold counted. rewrite Hsum. repeat split; try lia.
           ++ rewrite Hc2. subst w2. cbn [api_call_count set_clock]. lia.
           ++ intros Hm. specialize (Hstamp Hm). specialize (Hs2 Hm).
              subst w2. cbn [last_api_call set_clock] in Hs2.
              rewrite inject_Z_plus. unfold min_delay in *.
              change (inject_Z 1) with 1%Q. lra.
        -- subst w'. rewrite (retry_loop_gives_up E _ _ _ _ _ _ _ _ _ Hrun Hb Hge).
           exact Hstop.
      * subst w'. rewrite (retry_loop_aborts E _ _ _ _ _ _ _ _ Hrun Hb). exact Hstop.
Qed.
End Requests.

(** ** The deck *)

Section Deck.
Context (E : Env).

Lemma keeps_requests_retry_api_call {A} (func : M A) (max_retries : Z) :
  keeps request_frame func -> keeps request_frame (_retry_api_call E func max_retries).
Proof. intros Hf. unfold _retry_api_call. apply keeps_requests_retry_loop. exact Hf. Qed.

Lemma keeps_requests_strip_fences (content : string) :
  keeps request_frame (strip_fences content).
Proof. intros w. rewrite strip_fences_run. apply (rel_refl request_frame). Qed.

Lemma keeps_requests_outlines (topic : string) (num_slides : Z) :
  keeps request_frame (generate_content_outlines E topic num_slides).
Proof.
  unfold generate_content_outlines. repeat keeps_step.
  - apply keeps_requests_retry_api_call. apply keeps_requests_generate.
  - apply keeps_requests_strip_fences.
Qed.

Lemma expected_calls_length (items : list json) :
  forall i, forallb usable_record items = true ->
            List.length (expected_calls i items) = List.length items.
Proof.
  induction items as [ | r rest IH]; intros i Hu; [reflexivity | ].
  cbn [forallb] in Hu. apply andb_prop in Hu. destruct Hu as [Hr Hrest].
  destruct r; try discriminate. cbn. rewrite (IH _ Hrest). reflexivity.
Qed.

Lemma slide_loop_stops (author : string) (total : Z) (bad : json) (after : list json)
  (before : list json) :
  is_dict bad = false ->
  forall (i : Z) (w : World),
    forallb usable_record before = true ->
    exists w' evs,
      slide_loop E author total (before ++ bad :: after) i w = (Raised no_get, w', evs)
      /\ map summary (layout_calls evs) = expected_calls i before.
Proof.
  intros Hbad. induction before as [ | r rest IH]; intros i w Hu.
  - exists w, []. split; [ | reflexivity].
    destruct bad; try discriminate; reflexivity.
  - cbn [forallb] in Hu. apply andb_prop in Hu. destruct Hu as [Hr Hrest].
    destruct r as [ | | | | | fields]; try discriminate.
    cbn [usable_record] in Hr. apply andb_prop in Hr. destruct Hr as [Ht Hp].
    apply (dict_get_string _ _ _ ("Slide " ++ PyStr.of_Z (i + 1))) in Ht.
    fold (title_at i fields) in Ht.
    destruct (title_at i fields) as [ | | | t | | ] eqn:Htitle; try discriminate.
    destruct (lay_out_calls E author i t (content_in fields) (slide_type_in fields) w Hp)
      as (w1 & ev1 & Hrun & Hc).
    destruct (IH (i + 1) w1 Hrest) as (w2 & ev2 & Hrun' & Hc').
    cbn [app]. rewrite slide_loop_step, Htitle. rewrite !emit_then.
    unfold bind. rewrite Hrun, Hrun'. unfold value_of, world_of, events_of. cbn [fst snd].
    do 2 eexists. split; [reflexivity | ].
    cbn [layout_calls]. rewrite layout_calls_app, map_app, Hc, Hc'.
    cbn [expected_calls app]. rewrite Htitle. reflexivity.
Qed.

Lemma outlines_run (topic : string) (num_slides : Z) (w : World) (v : json) :
  value_of (generate_content_outlines E topic num_slides w) = Ok v ->
  exists w1 evg,
    generate_content_outlines E topic num_slides w = (Ok v, w1, evg)
    /\ layout_calls evg = []
    /\ untouched_by_requests w w1.
Proof.
  intros Hv.
  pose proof (calm_generate_content_outlines E topic num_slides w) as Hcalm.
  pose proof (keeps_requests_outlines topic num_slides w) as Hkeep.
  unfold value_of in Hv. unfold events_of in Hcalm. unfold world_of in Hkeep.
  destruct (generate_content_outlines E topic num_slides w) as [[r w1] evg].
  cbn [fst snd] in *. subst r. exists w1, evg. repeat split; try assumption; apply Hkeep.
Qed.

Lemma closing_calm (output_file : string) (loop : result unit) (w : World) :
  layout_calls (events_of (closing E output_file loop w)) = [].
Proof.
  unfold closing. destruct loop; [destruct (save E output_file) | ]; reflexivity.
Qed.

Lemma closing_presentation (output_file : string) (loop : result unit) (w : World) :
  presentation (world_of (closing E output_file loop w)) = presentation w.
Proof.
  unfold closing. destruct loop; [destruct (save E output_file) | ]; reflexivity.
Qed.

Lemma generate_ppt_facts (topic : string) (num_slides : Z) (output_file author : string)
  (w w1 w2 : World) (items : list json) (evg evl : list event) (loop : result unit) :
  generate_content_outlines E topic num_slides w = (Ok (JArr items), w1, evg) ->
  slide_loop E author (Z.of_nat (List.length items)) items 0 w1 = (loop, w2, evl) ->
  layout_calls evg = [] ->
  let r := generate_ppt E topic num_slides output_file author w in
  value_of r = value_of (closing E output_file loop w2)
  /\ layout_calls (events_of r) = layout_calls evl
  /\ presentation (world_of r) = presentation w2.
Proof.
  intros Hg Hl Hcalm r. subst r.
  rewrite (generate_ppt_run E _ _ _ _ _ _ _ _ _ _ _ Hg Hl).
  pose proof (closing_calm output_file loop w2) as Hcc.
  pose proof (closing_presentation output_file loop w2) as Hcp.
  unfold value_of, world_of, events_of in *. cbn [fst snd].
  split; [reflexivity | ]. split.
  - rewrite !layout_calls_app, Hcalm, Hcc. cbn [app layout_calls preamble].
    apply app_nil_r.
  - exact Hcp.
Qed.

(** X15.  When the outline is a list of usable records, [generate_ppt]
    calls one layout routine per record, in order, the one lines 301-310
    select for its index and slide type, with the record's title (or
    [Slide i+1]); it returns [output_file] when saving succeeds and raises
    the error of [save] otherwise. *)
Theorem generate_ppt_lays_out_every_record (topic : string) (num_slides : Z)
  (output_file author : string) (w : World) (items : list json) :
  value_of (generate_content_outlines E topic num_slides w) = Ok (JArr items) ->
  forallb usable_record items = true ->
  let r := generate_ppt E topic num_slides output_file author w in
  map summary (layout_calls (events_of r)) = expected_calls 0 items
  /\ List.length (layout_calls (events_of r)) = List.length items
  /\ value_of r = match save E output_file with
                  | None => Ok output_file
                  | Some e => Raised e
                  end.
Proof.
  intros Hv Hu r.
  destruct (outlines_run topic num_slides w _ Hv) as (w1 & evg & Hg & Hcalm & _).
  destruct (slide_loop_calls E author (Z.of_nat (List.length items)) items 0 w1 Hu)
    as (w2 & evl & Hl & Hc).
  destruct (generate_ppt_facts topic num_slides output_file author _ _ _ _ _ _ _
              Hg Hl Hcalm) as (Hval & Hcalls & _).
  fold r in Hval, Hcalls. rewrite Hcalls, Hval. split; [exact Hc | ]. split.
  - rewrite <- (length_map summary), Hc. apply expected_calls_length. exact Hu.
  - unfold closing, value_of. destruct (save E output_file); reflexivity.
Qed.

(** X16.  When the outline is a list of usable records, [generate_ppt]
    appends exactly one slide per record to the deck, in order, each with
    the layout of the selected routine and the record's title. *)
Theorem generate_ppt_builds_one_slide_per_record (topic : string) (num_slides : Z)
  (output_file author : string) (w : World) (items : list json) :
  value_of (generate_content_outlines E topic num_slides w) = Ok (JArr items) ->
  forallb usable_record items = true ->
  exists slides,
    presentation (world_of (generate_ppt E topic num_slides output_file author w))
    = (rev slides ++ presentation w)%list
    /\ map slide_summary slides = map expected_slide (expected_calls 0 items)
    /\ List.length slides = List.length items.
Proof.
  intros Hv Hu.
  destruct (outlines_run topic num_slides w _ Hv) as (w1 & evg & Hg & Hcalm & Hp & _).
  destruct (slide_loop_calls E author (Z.of_nat (List.length items)) items 0 w1 Hu)
    as (w2 & evl & Hl & _).
  destruct (slide_loop_slides E author (Z.of_nat (List.length items)) items 0 w1 Hu)
    as (slides & Hs & Hsum).
  rewrite Hl in Hs. unfold world_of in Hs. cbn [fst snd] in Hs.
  destruct (generate_ppt_facts topic num_slides output_file author _ _ _ _ _ _ _
              Hg Hl Hcalm) as (_ & _ & Hpres).
  exists slides. rewrite Hpres, Hs, Hp.
  split; [reflexivity | ]. split; [exact Hsum | ].
  rewrite <- (length_map slide_summary), Hsum, length_map.
  apply expected_calls_length. exact Hu.
Qed.

(** X17.  When the outline holds a value that is no dictionary, after
    usable records, [generate_ppt] lays out the records before it and then
    raises the [AttributeError] of [slide_data.get]. *)
Theorem record_that_is_no_dictionary_aborts (topic : string) (num_slides : Z)
  (output_file author : string) (w : World) (before after : list json) (bad : json) :
  value_of (generate_content_outlines E topic num_slides w)
  = Ok (JArr (before ++ bad :: after)) ->
  forallb usable_record before = true ->
  is_dict bad = false ->
  let r := generate_ppt E topic num_slides output_file author w in
  (exists msg, value_of r = Raised (PyExn "AttributeError" msg))
  /\ map summary (layout_calls (events_of r)) = expected_calls 0 before.
Proof.
  intros Hv Hu Hbad r.
  destruct (outlines_run topic num_slides w _ Hv) as (w1 & evg & Hg & Hcalm & _).
  destruct (slide_loop_stops author (Z.of_nat (List.length (before ++ bad :: after)))
              bad after before Hbad 0 w1 Hu) as (w2 & evl & Hl & Hc).
  destruct (generate_ppt_facts topic num_slides output_file author _ _ _ _ _ _ _
              Hg Hl Hcalm) as (Hval & Hcalls & _).
  fold r in Hval, Hcalls. rewrite Hval, Hcalls.
  split; [eexists; reflexivity | exact Hc].
Qed.
End Deck.

(** ** The page after a run *)

Section Page.
Context (E : Env).

(** X18.  For a record of type [image] that is not the first one and
    whose content is a list holding something else than strings, the loop
    shows the status line and the progress and then raises the [TypeError]
    of [join] (line 306): no slide is added and no request is sent. *)
Theorem image_record_with_mixed_list_aborts (author : string) (total : Z)
  (fields : list (string * json)) (rest items : list json) (i : Z) (w : World) :
  i <> 0 ->
  slide_type_in fields = JStr "image" ->
  content_in fields = JArr items ->
  as_strings items = None ->
  exists msg,
    slide_loop E author total (JObj fields :: rest) i w
    = (Raised (PyExn "TypeError" msg), w,
       [StatusText (MsgGeneratingSlide (i + 1) total (title_at i fields));
        Progress (inject_Z (i + 1) / inject_Z total)]).
Proof.
  intros Hi Htype Hcontent Hitems. eexists.
  rewrite slide_loop_step, !emit_then.
  unfold lay_out. rewrite Htype, Hcontent.
  apply Z.eqb_neq in Hi. rewrite Hi. cbn [orb is_str String.eqb Ascii.eqb Bool.eqb].
  unfold bind, content_str_of. rewrite Hitems. reflexivity.
Qed.

(** X20.  [main] never raises, whatever the form holds and whatever the
    generator does: an exception of the run is caught by the handler of
    lines 452-454. *)
Theorem main_never_raises (f : Form) (w : World) :
  value_of (main E f w) = Ok tt.
Proof.
  assert (H : returns (main E f)).
  { unfold main. repeat calm_step. }
  destruct (H w) as [[] Hv]. exact Hv.
Qed.

Lemma new_generator_run (key pexel : string) (w : World) :
  PyStr.truthy key = true ->
  new_generator key pexel w = (Ok tt, constructed key pexel w, [GenaiConfigure key]).
Proof.
  intros Hk. unfold new_generator. rewrite modify_then. rewrite Hk. cbn [negb].
  rewrite ret_bind, emit_then. reflexivity.
Qed.

Lemma existsb_head (path : string) (fs : list string) :
  existsb (String.eqb path) (path :: fs) = true.
Proof. cbn. rewrite String.eqb_refl. reflexivity. Qed.

Lemma generate_ppt_saved (topic : string) (num_slides : Z) (output_file author out : string)
  (w : World) :
  let g := generate_ppt E topic num_slides output_file author w in
  value_of g = Ok out ->
  out = output_file /\ existsb (String.eqb output_file) (files (world_of g)) = true.
Proof.
  intros g. subst g.
  unfold generate_ppt. rewrite !emit_then.
  unfold value_of at 1, world_of at 1. cbn [fst snd].
  unfold bind, value_of, world_of.
  destruct (generate_content_outlines E topic num_slides w) as [[[o | e] w1] ev1];
    [ | discriminate].
  destruct (elements o w1) as [[[items | e] w2] ev2]; [ | discriminate].
  destruct (slide_loop E author (Z.of_nat (List.length items)) items 0 w2)
    as [[[[] | e] w3] ev3]; [ | discriminate].
  unfold presentation_save, emit, modify, ret.
  destruct (save E output_file) as [e | ]; cbn [fst snd]; [discriminate | ].
  intros [= <-]. split; [reflexivity | ]. apply existsb_head.
Qed.

(** X21.  With the button pressed and the topic and both keys filled in,
    [main] builds a fresh generator, runs [generate_ppt] with the fields of
    the form and then shows the download button and the balloons when the
    run returned, the error and its traceback when it raised; the footer
    follows in both cases. *)
Theorem main_reports_the_outcome (f : Form) (w : World) :
  generate_clicked f = true ->
  PyStr.truthy (topic f) = true ->
  PyStr.truthy (gemini_api_key f) = true ->
  PyStr.truthy (pexel_api_key f) = true ->
  let g := generate_ppt E (topic f) (num_slides f) (output_filename f) (author_name f)
             (constructed (gemini_api_key f) (pexel_api_key f) w) in
  main E f w
  = (Ok tt, world_of g,
     ([PageRendered; GenaiConfigure (gemini_api_key f)] ++ events_of g
      ++ match value_of g with
         | Ok _ => [DownloadButton (output_filename f); Balloons]
         | Raised e => [StError (MsgAnErrorOccurred e); StException e]
         end
      ++ [Footer])%list).
Proof.
  intros Hclick Ht Hg Hp g.
  pose proof (generate_ppt_saved (topic f) (num_slides f) (output_filename f)
                (author_name f)) as Hsaved.
  specialize (fun out => Hsaved out (constructed (gemini_api_key f) (pexel_api_key f) w)).
  fold g in Hsaved. cbv zeta in Hsaved.
  assert (Hrun : generate_ppt E (topic f) (num_slides f) (output_filename f) (author_name f)
                   (constructed (gemini_api_key f) (pexel_api_key f) w)
                 = (value_of g, world_of g, events_of g)) by apply run_eta.
  clearbody g.
  unfold main, bind, try_except, emit. rewrite Hclick, Ht, Hg, Hp. cbn [negb].
  rewrite (new_generator_run _ _ w Hg), Hrun.
  unfold value_of, world_of, events_of in *.
  destruct g as [[[out | e] w1] evg]; cbn [fst snd] in *.
  - destruct (Hsaved out eq_refl) as [-> Hfile].
    unfold open_rb, path_exists, bind, gets, ret. rewrite Hfile.
    cbn [app]. rewrite <- !app_assoc. reflexivity.
  - cbn [app]. rewrite <- !app_assoc. reflexivity.
Qed.
End Page.

(** ** Requests and descriptions *)

Section Descriptions.
Context (E : Env).

(** X2.  The retry wrapper sends at most [max_retries] requests (none when
    [max_retries] is not positive, at least one otherwise), counts each of
    them in [api_call_count], and touches neither the slides nor the
    files. *)
Theorem retry_requests_are_bounded (prompt : string) (max_retries : Z) (w : World) :
  let w' := world_of (_retry_api_call E (_generate E prompt) max_retries w) in
  0 <= requests_between w w' <= Z.max 0 max_retries
  /\ (0 < max_retries -> 1 <= requests_between w w')
  /\ api_call_count w' = api_call_count w + requests_between w w'
  /\ untouched_by_requests w w'.
Proof.
  intros w'. subst w'. unfold _retry_api_call.
  destruct (retry_generate_counted E prompt max_retries (Z.to_nat max_retries) 0 w)
    as ((Hpos & Hcount & _) & Hle & Hone).
  split; [lia | ]. split; [intros H; apply Hone; lia | ]. split; [exact Hcount | ].
  apply (keeps_requests_retry_loop E). apply keeps_requests_generate.
Qed.

(** X1.  Under a clock that never runs backwards, every request the retry
    wrapper sends for [_generate] moves the stamp of the last call forward
    by at least [min_delay] seconds: after [n] requests the stamp is at
    least [30 * n] seconds past the stamp the wrapper found. *)
Theorem requests_are_spaced (prompt : string) (max_retries : Z) (w : World) :
  monotone_clock E ->
  let w' := world_of (_retry_api_call E (_generate E prompt) max_retries w) in
  (last_api_call w + min_delay * inject_Z (requests_between w w') <= last_api_call w')%Q.
Proof.
  intros Hmono w'. subst w'. unfold _retry_api_call.
  destruct (retry_generate_counted E prompt max_retries (Z.to_nat max_retries) 0 w)
    as ((_ & _ & Hspaced) & _). apply Hspaced. exact Hmono.
Qed.

Lemma find_keyword_hit (map : list (string * string)) (content_lower keyword phrase : string) :
  In (keyword, phrase) map ->
  PyStr.contains keyword content_lower = true ->
  exists d, find_keyword map content_lower = Some d /\ In d (List.map snd map).
Proof.
  induction map as [ | [k p] rest IH]; intros Hin Hc; [contradiction | ].
  cbn [find_keyword]. destruct (PyStr.contains k content_lower) eqn:Hk.
  - exists p. split; [reflexivity | left; reflexivity].
  - destruct Hin as [[= -> ->] | Hin]; [congruence | ].
    destruct (IH Hin Hc) as (d & Hd & Hd'). exists d. split; [exact Hd | right; exact Hd'].
Qed.

(** X8.  When a keyword of the map occurs in the lower-cased slide text,
    [generative_image_description] returns one of the phrases of the map,
    shows the cached description and nothing else, and leaves the generator
    as it was: no request is sent and no clock is read. *)
Theorem keyword_hit_sends_no_request (slide_content keyword phrase : string) (w : World) :
  In (keyword, phrase) keyword_map ->
  PyStr.contains keyword (PyStr.lower slide_content) = true ->
  exists d,
    In d (List.map snd keyword_map)
    /\ generative_image_description E slide_content w
       = (Ok d, w, [StInfo (MsgCachedDescription d)]).
Proof.
  intros Hin Hc. destruct (find_keyword_hit _ _ _ _ Hin Hc) as (d & Hd & Hd').
  exists d. split; [exact Hd' | ].
  unfold generative_image_description. rewrite Hd, emit_then. reflexivity.
Qed.

Lemma description_requests (slide_content : string) (w : World) :
  0 <= requests_between w (world_of (generative_image_description E slide_content w)) <= 3.
Proof.
  unfold generative_image_description.
  destruct (find_keyword keyword_map (PyStr.lower slide_content)).
  - rewrite emit_then. unfold world_of, ret, requests_between. cbn [fst snd]. lia.
  - pose proof (Hbound := retry_generate_counted E
        (description_prompt slide_content) 3 (Z.to_nat 3) 0 w).
    cbv zeta in Hbound.
    destruct Hbound as ((Hpos & _) & Hle & _).
    unfold try_except, bind, _retry_api_call, world_of in *.
    destruct (retry_loop E (_generate E (description_prompt slide_content)) 3
                (Z.to_nat 3) 0 w) as [[[[r | ] | e] w1] ev1]; cbn [fst snd] in *.
    + destruct (PyStr.truthy r); cbn; lia.
    + cbn. lia.
    + cbn. lia.
Qed.

(** X9.  [generative_image_description] always returns a non-empty
    description, after at most three requests, and touches neither the
    slides nor the files. *)
Theorem image_description_is_never_empty (slide_content : string) (w : World) :
  let r := generative_image_description E slide_content w in
  exists d,
    value_of r = Ok d
    /\ PyStr.truthy d = true
    /\ untouched_by_requests w (world_of r)
    /\ 0 <= requests_between w (world_of r) <= 3.
Proof.
  intros r. subst r.
  destruct (description_run E slide_content w) as (d & w1 & ev1 & Hrun & Ht & Hu).
  exists d. pose proof (description_requests slide_content w) as Hreq.
  rewrite Hrun in *. unfold value_of, world_of in *. cbn [fst snd] in *.
  split; [reflexivity | ]. split; [exact Ht | ]. split; [exact Hu | exact Hreq].
Qed.
End Descriptions.

(** ** Outcomes of the routines *)

Section Outcomes.
Context (E : Env).

(** X10.  [download_images] never raises.  It returns the path
    [temp_image.jpg] exactly when the search yields a photo, the image is
    fetched, the file is opened and the write succeeds, and [None]
    otherwise.  The file exists from the moment [open] succeeded, also
    when the write fails afterwards; the files are untouched when the
    failure comes before that.  The slides are untouched, and an image is
    requested exactly when the search yielded a photo. *)
Theorem download_images_outcome (query : string) (w : World) :
  let n := io_calls w in
  exists w' evs,
    download_images E query w
    = (Ok (if download_ok E n query then Some temp_image else None), w', evs)
    /\ presentation w' = presentation w
    /\ (file_opened E n query = true ->
        existsb (String.eqb temp_image) (files w') = true)
    /\ (file_opened E n query = false -> files w' = files w)
    /\ (download_ok E n query = true -> file_opened E n query = true)
    /\ existsb is_image_request evs = found_photo (pexels_search E n query).
Proof.
  intros n. subst n.
  destruct (download_images_run E query w) as (w' & evs & Hrun & Hp & Hf & _ & Hreq).
  exists w', evs. split; [exact Hrun | ]. split; [exact Hp | ].
  rewrite Hf. repeat split.
  - intros ->. apply existsb_head.
  - intros ->. reflexivity.
  - unfold download_ok. intros H. apply andb_prop in H. apply H.
  - exact Hreq.
Qed.

Lemma existsb_without (path : string) (fs : list string) :
  existsb (String.eqb path) (without path fs) = false.
Proof.
  unfold without. induction fs as [ | f fs IH]; [reflexivity | ].
  cbn [filter]. destruct (String.eqb f path) eqn:Hf; cbn [negb existsb]; [exact IH | ].
  rewrite String.eqb_sym, Hf. exact IH.
Qed.

(** The temporary file after an attempt to fetch and place a picture. *)
Lemma files_after_fetch_cases (n : nat) (query : string) (fs : list string) :
  let fs' := files_after_fetch E n query fs in
  (fetch_ok E n query = true -> existsb (String.eqb temp_image) fs' = false)
  /\ (file_opened E n query = true -> fetch_ok E n query = false ->
      existsb (String.eqb temp_image) fs' = true)
  /\ (file_opened E n query = false -> fs' = fs).
Proof.
  unfold files_after_fetch, fetch_ok, download_ok.
  destruct (file_opened E n query); cbn [andb].
  - destruct (match file_write E (S (S (S n))) temp_image with
              | Some _ => false
              | None => true
              end && picture_ok E n);
      repeat split; intros; try discriminate;
      try apply existsb_without; apply existsb_head.
  - repeat split; intros; try discriminate; reflexivity.
Qed.

(** X14.  [create_image_slide] with a title that is text always returns the
    slide it appended to the deck, with the picture exactly when the
    download and the placement both succeed.  The temporary file is gone
    after a placement; it stays behind whenever [open] succeeded and no
    picture was placed (the write failed, or the placement did); the
    files are untouched when the download fails before [open] succeeds. *)
Theorem create_image_slide_outcome (t : string) (content : json) (query : string)
  (w : World) :
  let n := io_calls w in
  let r := create_image_slide E (JStr t) content query w in
  value_of r = Ok (image_slide E t content (fetch_ok E n query))
  /\ presentation (world_of r) = image_slide E t content (fetch_ok E n query) :: presentation w
  /\ (fetch_ok E n query = true ->
      existsb (String.eqb temp_image) (files (world_of r)) = false)
  /\ (file_opened E n query = true -> fetch_ok E n query = false ->
      existsb (String.eqb temp_image) (files (world_of r)) = true)
  /\ (file_opened E n query = false -> files (world_of r) = files w).
Proof.
  intros n r. subst n r.
  destruct (create_image_slide_run E t content query w) as (w' & evs & Hrun & Hs & Hf).
  rewrite Hrun. unfold value_of, world_of. cbn [fst snd].
  split; [reflexivity | ]. split; [exact Hs | ].
  rewrite Hf. apply files_after_fetch_cases.
Qed.

(** X12.  [create_content_slide] with a title that is text always returns.
    Without [include_image] it appends the text slide and does nothing
    else; with it, it appends the same slide, with the picture exactly when
    the download for the generated description and the placement both
    succeed.  The temporary file is gone after a placement, stays behind
    whenever [open] succeeded and no picture was placed, and the files are
    untouched when the download fails before [open] succeeds. *)
Theorem create_content_slide_outcome (t : string) (content : json) (w : World) :
  create_content_slide E (JStr t) content false w
  = (Ok (content_slide E t content false),
     set_presentation (content_slide E t content false :: presentation w) w,
     [Layout (ContentSlide (JStr t) content false)])
  /\ exists d,
       let n := io_calls w in
       let r := create_content_slide E (JStr t) content true w in
       let placed := fetch_ok E n d in
       value_of (generative_image_description E (content_text_of E content)
                   (set_presentation (content_slide E t content false :: presentation w) w))
       = Ok d
       /\ value_of r = Ok (content_slide E t content placed)
       /\ presentation (world_of r) = content_slide E t content placed :: presentation w
       /\ (placed = true -> existsb (String.eqb temp_image) (files (world_of r)) = false)
       /\ (file_opened E n d = true -> placed = false ->
           existsb (String.eqb temp_image) (files (world_of r)) = true)
       /\ (file_opened E n d = false -> files (world_of r) = files w).
Proof.
  split; [apply create_content_slide_plain | ].
  destruct (create_content_slide_with_image E t content w)
    as (d & w' & evs & Hd & Hrun & Hs & Hf).
  exists d. cbv zeta. rewrite Hrun. unfold value_of at 2, world_of. cbn [fst snd].
  split; [exact Hd | ]. split; [reflexivity | ]. split; [exact Hs | ].
  rewrite Hf. apply files_after_fetch_cases.
Qed.

(** X13.  When no picture can be fetched and placed, a content slide asked
    for with [include_image=True] is the slide that [include_image=False]
    gives, and so is the deck. *)
Theorem failed_image_leaves_plain_slide (t : string) (content : json) (w : World) :
  (forall query, fetch_ok E (io_calls w) query = false) ->
  value_of (create_content_slide E (JStr t) content true w)
  = value_of (create_content_slide E (JStr t) content false w)
  /\ presentation (world_of (create_content_slide E (JStr t) content true w))
     = presentation (world_of (create_content_slide E (JStr t) content false w)).
Proof.
  intros Hfail.
  destruct (create_content_slide_with_image E t content w)
    as (d & w' & evs & _ & Hrun & Hs & _).
  rewrite Hrun, create_content_slide_plain. unfold value_of, world_of. cbn [fst snd].
  rewrite Hs, (Hfail d). split; reflexivity.
Qed.

(** X11.  When the title is not a string and the document library rejects
    it, each of the three layout routines raises that exception right after
    [add_slide]: a blank slide of the routine's layout (0, 1 or 8) stays
    in the deck and nothing else is done. *)
Theorem rejected_title_leaves_blank_slide (v content : json) (e : exn)
  (subtitle query : string) (b : bool) (w : World) :
  is_string v = false ->
  pptx_text E v = inr e ->
  create_title_slide E v subtitle w
  = (Raised e, set_presentation (blank_slide 0 :: presentation w) w,
     [Layout (TitleSlide v subtitle)])
  /\ create_content_slide E v content b w
     = (Raised e, set_presentation (blank_slide 1 :: presentation w) w,
        [Layout (ContentSlide v content b)])
  /\ create_image_slide E v content query w
     = (Raised e, set_presentation (blank_slide 8 :: presentation w) w,
        [Layout (ImageSlide v content query)]).
Proof.
  intros Hv He.
  assert (Hset : forall w0, set_text E v w0 = (Raised e, w0, [])).
  { intros w0. unfold set_text. destruct v; try discriminate; rewrite He; reflexivity. }
  unfold create_title_slide, create_content_slide, create_image_slide.
  rewrite !emit_then. unfold add_slide. rewrite !modify_then.
  unfold bind. rewrite !Hset. repeat split.
Qed.

Lemma startswith_fence (s : string) :
  PyStr.startswith fence_json s = true -> PyStr.startswith fence s = true.
Proof.
  unfold PyStr.startswith, fence_json, fence.
  destruct s as [ | c1 [ | c2 [ | c3 s]]]; cbn; try discriminate;
    repeat match goal with
           | |- context [if ?d then _ else _] => destruct d; try discriminate
           end; try reflexivity; destruct s; reflexivity.
Qed.

Lemma contains_fence (s : string) :
  PyStr.contains fence_json s = true -> PyStr.contains fence s = true.
Proof.
  induction s as [ | c s IH]; cbn [PyStr.contains]; intros H.
  - apply orb_prop in H. destruct H as [H | H]; [ | discriminate].
    rewrite (startswith_fence _ H). reflexivity.
  - apply orb_prop in H. destruct H as [H | H].
    + rewrite (startswith_fence _ H). reflexivity.
    + rewrite (IH H). apply orb_true_r.
Qed.

(** X4.  The two list indexings of lines 100-103 never raise
    [IndexError]: fence stripping always returns, without any effect, and
    a text that holds no code fence comes back unchanged. *)
Theorem fence_indexing_is_safe (content : string) (w : World) :
  strip_fences content w = (Ok (payload content), w, [])
  /\ (PyStr.contains fence content = false -> payload content = content).
Proof.
  split; [apply strip_fences_run | ].
  intros Hno. unfold payload. rewrite Hno.
  destruct (PyStr.contains fence_json content) eqn:Hj; [ | reflexivity].
  rewrite (contains_fence _ Hj) in Hno. discriminate.
Qed.

(** X3.  [generate_content_outlines] always returns: its value is the
    fallback outline or a value [json.loads] produced, it costs at most
    three requests, and it touches neither the slides nor the files. *)
Theorem outline_generation_never_raises (topic : string) (num_slides : Z) (w : World) :
  let r := generate_content_outlines E topic num_slides w in
  exists v,
    value_of r = Ok v
    /\ (v = _get_fallback_content topic \/ exists text, json_loads E text = inl v)
    /\ untouched_by_requests w (world_of r)
    /\ 0 <= requests_between w (world_of r) <= 3.
Proof.
  intros r. subst r.
  destruct (retry_api_call_run E (_generate E (outline_prompt topic num_slides)) 3 w)
    as (content & w1 & ev1 & Hfetched).
  pose proof (generate_content_outlines_run E topic num_slides w content) as Hrun.
  cbv zeta in Hrun. rewrite Hfetched in Hrun. specialize (Hrun eq_refl).
  unfold world_of at 1, events_of at 1 in Hrun. cbn [fst snd] in Hrun.
  pose proof (Hbound :=
                retry_generate_counted E (outline_prompt topic num_slides) 3 (Z.to_nat 3) 0 w).
  cbv zeta in Hbound.
  fold (_retry_api_call E (_generate E (outline_prompt topic num_slides)) 3 w)
    in Hbound.
  rewrite Hfetched in Hbound.
  unfold world_of in Hbound. cbn [fst snd] in *.
  destruct Hbound as ((Hpos & _) & Hle & _).
  pose proof (keeps_requests_outlines E topic num_slides w) as Hkeep.
  rewrite Hrun in *. unfold value_of, world_of in *. cbn [fst snd] in *.
  eexists. split; [reflexivity | ]. split.
  - unfold outline_of. destruct content as [c | ]; [ | left; reflexivity].
    destruct (PyStr.startswith "[" (payload c)); [ | left; reflexivity].
    destruct (json_loads E (payload c)) as [v | e] eqn:Hl; [ | left; reflexivity].
    right. exists (payload c). exact Hl.
  - split; [exact Hkeep | ]. change (Z.of_nat (Z.to_nat 3)) with 3 in Hle. lia.
Qed.
End Outcomes.

(** ** Code fences *)

Lemma append_assoc (a b c : string) : ((a ++ b) ++ c)%string = (a ++ (b ++ c))%string.
Proof. induction a as [ | x a IH]; cbn; [reflexivity | rewrite IH; reflexivity]. Qed.

Lemma append_empty (a : string) : (a ++ EmptyString)%string = a.
Proof. induction a as [ | x a IH]; cbn; [reflexivity | rewrite IH; reflexivity]. Qed.

Lemma rev_string_app (s acc : string) :
  PyStr.rev_string acc s = (PyStr.rev_string EmptyString s ++ acc)%string.
Proof.
  revert acc. induction s as [ | c s IH]; intros acc; cbn [PyStr.rev_string].
  - reflexivity.
  - rewrite IH, (IH (String c EmptyString)).
    rewrite append_assoc. reflexivity.
Qed.

Lemma prefix_append (p s : string) : String.prefix p (p ++ s) = true.
Proof.
  induction p as [ | c p IH]; cbn.
  - destruct s; reflexivity.
  - destruct (ascii_dec c c) as [_ | N]; [exact IH | contradiction].
Qed.

Lemma split_aux_skip (sep t rest cur : string) :
  PyStr.split_aux sep (String.length t) cur (t ++ rest) = PyStr.split_aux sep 0 cur rest.
Proof.
  induction t as [ | c t IH]; cbn [String.length String.append].
  - destruct rest; reflexivity.
  - cbn [PyStr.split_aux]. exact IH.
Qed.

(** A piece without a backtick is cut off at the first separator that
    begins with one. *)
Lemma split_aux_piece (sep' rest : string) (piece : string) :
  PyStr.contains backtick piece = false ->
  forall cur,
    PyStr.split_aux (String "`" sep') 0 cur (piece ++ String "`" (sep' ++ rest))
    = (PyStr.rev_string EmptyString cur ++ piece)%string
        :: PyStr.split_aux (String "`" sep') 0 EmptyString rest.
Proof.
  induction piece as [ | c piece IH]; intros Hfree cur.
  - cbn [String.append PyStr.split_aux].
    change (String "`" (sep' ++ rest)) with (String "`" sep' ++ rest)%string at 1.
    unfold PyStr.startswith. rewrite prefix_append.
    replace (String.length (String "`" sep') - 1)%nat with (String.length sep')
      by (cbn [String.length]; lia).
    rewrite split_aux_skip.
    rewrite append_empty. reflexivity.
  - cbn [PyStr.contains] in Hfree. apply orb_false_elim in Hfree. destruct Hfree as [Hc Hrest].
    cbn [String.append PyStr.split_aux].
    assert (Hno : PyStr.startswith (String "`" sep') (String c (piece ++ String "`" (sep' ++ rest)))
                  = false).
    { unfold PyStr.startswith, backtick in *. cbn [String.prefix] in *.
      destruct (ascii_dec "`" c); [ | reflexivity].
      destruct piece; discriminate. }
    rewrite Hno, (IH Hrest). f_equal.
    cbn [PyStr.rev_string]. rewrite (rev_string_app cur).
    rewrite append_assoc. reflexivity.
Qed.

Lemma prefix_same (c : ascii) (p s : string) :
  String.prefix (String c p) (String c s) = String.prefix p s.
Proof. cbn [String.prefix]. destruct (ascii_dec c c) as [_ | N]; [reflexivity | contradiction]. Qed.

Lemma prefix_other (c d : ascii) (p s : string) :
  c <> d -> String.prefix (String c p) (String d s) = false.
Proof. intros N. cbn [String.prefix]. destruct (ascii_dec c d); [contradiction | reflexivity]. Qed.

Lemma no_leading_backtick (s : string) :
  PyStr.startswith backtick s = false ->
  forall p, String.prefix (String "`" p) s = false.
Proof.
  unfold PyStr.startswith, backtick. destruct s as [ | d s]; intros H p; [reflexivity | ].
  cbn [String.prefix] in *. destruct (ascii_dec "`" d); [destruct s; discriminate | reflexivity].
Qed.

Lemma leading_backtick_head (c : ascii) (a b : string) :
  PyStr.startswith backtick (String c a) = false ->
  PyStr.startswith backtick (String c b) = false.
Proof.
  unfold PyStr.startswith, backtick. cbn [String.prefix].
  destruct (ascii_dec "`" c); [destruct a; discriminate | reflexivity].
Qed.

Lemma contains_head (needle hay : string) :
  PyStr.contains needle hay = false -> PyStr.startswith needle hay = false.
Proof. destruct hay; cbn [PyStr.contains]; intros H; apply orb_false_elim in H; apply H. Qed.

Lemma contains_append (needle pre rest : string) :
  PyStr.contains needle (pre ++ needle ++ rest) = true.
Proof.
  induction pre as [ | c pre IH]; cbn [String.append].
  - assert (H : PyStr.startswith needle (needle ++ rest) = true) by apply prefix_append.
    destruct (needle ++ rest)%string; cbn [PyStr.contains]; rewrite H; reflexivity.
  - cbn [PyStr.contains]. rewrite IH. apply orb_true_r.
Qed.

Lemma split_aux_cons (sep cur rest : string) (c : ascii) :
  PyStr.split_aux sep 0 cur (String c rest)
  = if PyStr.startswith sep (String c rest)
    then PyStr.rev_string EmptyString cur
           :: PyStr.split_aux sep (String.length sep - 1) EmptyString rest
    else PyStr.split_aux sep 0 (String c cur) rest.
Proof. reflexivity. Qed.

(** The first piece of a split begins with what was scanned before. *)
Lemma split_aux_head (sep s : string) :
  forall cur, exists x ps,
    PyStr.split_aux sep 0 cur s = (PyStr.rev_string EmptyString cur ++ x)%string :: ps.
Proof.
  induction s as [ | c s IH]; intros cur; cbn [PyStr.split_aux].
  - exists EmptyString, []. rewrite append_empty. reflexivity.
  - destruct (PyStr.startswith sep (String c s)).
    + exists EmptyString. eexists. rewrite append_empty. reflexivity.
    + destruct (IH (String c cur)) as (x & ps & H). rewrite H.
      exists (String c x), ps. cbn [PyStr.rev_string].
      rewrite (rev_string_app cur), append_assoc. reflexivity.
Qed.

(** A text without a backtick is one piece. *)
Lemma split_aux_whole (sep' piece : string) :
  PyStr.contains backtick piece = false ->
  forall cur,
    PyStr.split_aux (String "`" sep') 0 cur piece
    = [(PyStr.rev_string EmptyString cur ++ piece)%string].
Proof.
  induction piece as [ | c piece IH]; intros Hfree cur; cbn [PyStr.split_aux].
  - rewrite append_empty. reflexivity.
  - pose proof (contains_head _ _ Hfree) as Hc.
    cbn [PyStr.contains] in Hfree. apply orb_false_elim in Hfree. destruct Hfree as [_ Hrest].
    unfold PyStr.startswith. rewrite (no_leading_backtick _ Hc), (IH Hrest).
    cbn [PyStr.rev_string]. rewrite (rev_string_app cur), append_assoc. reflexivity.
Qed.

(** What follows the opening fence, up to the next opening fence: the body
    and either nothing or something that begins with the closing fence. *)
Lemma split_aux_body (body post : string) :
  PyStr.contains backtick body = false ->
  PyStr.startswith backtick post = false ->
  forall cur, exists t ps,
    PyStr.split_aux fence_json 0 cur (body ++ fence ++ post)
    = (PyStr.rev_string EmptyString cur ++ body ++ t)%string :: ps
    /\ (t = EmptyString \/ exists t', t = (fence ++ t')%string).
Proof.
  intros Hbody Hpost. induction body as [ | c body IH]; intros cur.
  - change (EmptyString ++ fence ++ post)%string
      with (String "`" (String "`" (String "`" post))).
    rewrite split_aux_cons. unfold PyStr.startswith at 1, fence_json at 1.
    rewrite !prefix_same.
    destruct (String.prefix "json" post) eqn:Hjson.
    + exists EmptyString. eexists. split; [ | left; reflexivity].
      cbn [String.append]. rewrite append_empty. reflexivity.
    + rewrite split_aux_cons. unfold PyStr.startswith at 1, fence_json at 1.
      rewrite !prefix_same, (no_leading_backtick _ Hpost).
      rewrite split_aux_cons. unfold PyStr.startswith at 1, fence_json at 1.
      rewrite !prefix_same, (no_leading_backtick _ Hpost).
      destruct (split_aux_head fence_json post (String "`" (String "`" (String "`" cur))))
        as (x & ps & H).
      rewrite H. exists (fence ++ x)%string, ps.
      split; [ | right; exists x; reflexivity].
      cbn [PyStr.rev_string]. rewrite (rev_string_app cur), append_assoc. reflexivity.
  - pose proof (contains_head _ _ Hbody) as Hc.
    cbn [PyStr.contains] in Hbody. apply orb_false_elim in Hbody. destruct Hbody as [_ Hrest].
    change (String c body ++ fence ++ post)%string with (String c (body ++ fence ++ post)).
    rewrite split_aux_cons.
    unfold PyStr.startswith at 1, fence_json at 1.
    rewrite (no_leading_backtick _ (leading_backtick_head _ _ (body ++ fence ++ post) Hc)).
    destruct (IH Hrest (String c cur)) as (t & ps & H & Ht).
    rewrite H. exists t, ps. split; [ | exact Ht].
    cbn [PyStr.rev_string]. rewrite (rev_string_app cur), append_assoc. reflexivity.
Qed.

Lemma payload_fenced_json (pre body post : string) :
  PyStr.contains backtick pre = false ->
  PyStr.contains backtick body = false ->
  PyStr.startswith backtick post = false ->
  payload (pre ++ fence_json ++ body ++ fence ++ post) = PyStr.strip body.
Proof.
  intros Hpre Hbody Hpost.
  unfold payload. rewrite contains_append. f_equal.
  unfold PyStr.split at 2.
  change (pre ++ fence_json ++ body ++ fence ++ post)%string
    with (pre ++ String "`" ("``json" ++ (body ++ fence ++ post)))%string.
  change fence_json with (String "`" "``json") at 1.
  rewrite (split_aux_piece _ _ _ Hpre). cbn [nth].
  destruct (split_aux_body body post Hbody Hpost EmptyString) as (t & ps & H & Ht).
  fold fence_json. rewrite H. cbn [nth PyStr.rev_string String.append].
  unfold PyStr.split. clear H.
  destruct Ht as [-> | (t' & ->)].
  - change fence with (String "`" "``").
    rewrite append_empty, (split_aux_whole _ _ Hbody). reflexivity.
  - change (body ++ fence ++ t')%string with (body ++ String "`" ("``" ++ t'))%string.
    change fence with (String "`" "``").
    rewrite (split_aux_piece _ _ _ Hbody). reflexivity.
Qed.

(** X5.  From a text made of a prefix, a fence with the [json] tag, a body,
    a closing fence and a rest, lines 100-101 extract the stripped body,
    provided the prefix and the body hold no backtick and the rest does not
    begin with one; the prefix and the rest are dropped. *)
Theorem fenced_json_is_extracted (pre body post : string) (w : World) :
  PyStr.contains backtick pre = false ->
  PyStr.contains backtick body = false ->
  PyStr.startswith backtick post = false ->
  strip_fences (pre ++ fence_json ++ body ++ fence ++ post) w
  = (Ok (PyStr.strip body), w, []).
Proof.
  intros Hpre Hbody Hpost.
  rewrite strip_fences_run, (payload_fenced_json _ _ _ Hpre Hbody Hpost). reflexivity.
Qed.

(** X6.  The same for a fence without the [json] tag (lines 102-103), for
    a text that holds no tagged fence at all; here the rest after the
    closing fence is arbitrary. *)
Theorem fenced_text_is_extracted (pre body post : string) (w : World) :
  PyStr.contains backtick pre = false ->
  PyStr.contains backtick body = false ->
  PyStr.contains fence_json (pre ++ fence ++ body ++ fence ++ post) = false ->
  strip_fences (pre ++ fence ++ body ++ fence ++ post) w
  = (Ok (PyStr.strip body), w, []).
Proof.
  intros Hpre Hbody Hplain. rewrite strip_fences_run. do 2 f_equal. f_equal.
  unfold payload. rewrite Hplain, contains_append. f_equal.
  unfold PyStr.split.
  change (pre ++ fence ++ body ++ fence ++ post)%string
    with (pre ++ String "`" ("``" ++ (body ++ String "`" ("``" ++ post))))%string.
  change fence with (String "`" "``").
  rewrite (split_aux_piece _ _ _ Hpre), (split_aux_piece _ _ _ Hbody). reflexivity.
Qed.

Section Fences.
Context (E : Env).

(** X7.  When the first answer of the model, once stripped, is a JSON array
    inside a tagged code fence (with backtick-free text before it and in
    it), and [json.loads] accepts the stripped body, then
    [generate_content_outlines] returns the parsed body after exactly one
    request. *)
Theorem fenced_outline_is_returned (topic : string) (num_slides : Z) (w : World)
  (text pre body post : string) (v : json) :
  gemini E (gemini_calls w) (outline_prompt topic num_slides) = ApiText text ->
  PyStr.strip text = (pre ++ fence_json ++ body ++ fence ++ post)%string ->
  PyStr.contains backtick pre = false ->
  PyStr.contains backtick body = false ->
  PyStr.startswith backtick post = false ->
  PyStr.startswith "[" (PyStr.strip body) = true ->
  json_loads E (PyStr.strip body) = inl v ->
  let r := generate_content_outlines E topic num_slides w in
  value_of r = Ok v /\ requests_between w (world_of r) = 1.
Proof.
  intros Hg Htext Hpre Hbody Hpost Hopen Hloads r. subst r.
  destruct (attempt_generate E (outline_prompt topic num_slides) w) as (t & Hatt).
  rewrite Hg in Hatt.
  pose proof (retry_loop_succeeds E _ 3 2 0 _ _ _ _ Hatt) as Hloop.
  assert (Hpay : payload (PyStr.strip text) = PyStr.strip body).
  { rewrite Htext. apply payload_fenced_json; assumption. }
  pose proof (generate_content_outlines_run E topic num_slides w (Some (PyStr.strip text)))
    as Hrun.
  cbv zeta in Hrun.
  change (_retry_api_call E (_generate E (outline_prompt topic num_slides)) 3 w)
    with (retry_loop E (_generate E (outline_prompt topic num_slides)) 3 3 0 w) in Hrun.
  rewrite Hloop in Hrun. specialize (Hrun eq_refl).
  rewrite Hrun. unfold value_of, world_of, outline_of. cbn [fst snd].
  rewrite Hpay, Hopen, Hloads. split; [reflexivity | ].
  unfold requests_between, bump_gemini, stamped. cbn [gemini_calls]. lia.
Qed.
End Fences.

(** ** The fallback deck *)

Section FallbackDeck.
Context (E : Env).

(** X19.  When outline generation gives the fallback outline,
    [generate_ppt] lays out six slides: the title slide with the topic, the
    four content slides with an image attempt, and the conclusion, which
    falls to the last branch and gets no image. *)
Theorem fallback_outline_gives_six_slides (topic : string) (num_slides : Z)
  (output_file author : string) (w : World) :
  value_of (generate_content_outlines E topic num_slides w)
  = Ok (_get_fallback_content topic) ->
  let r := generate_ppt E topic num_slides output_file author w in
  let deck := [ (TitleRoutine, JStr topic);
                (ContentRoutine true, JStr "Background");
                (ContentRoutine true, JStr "Main Points");
                (ContentRoutine true, JStr "Analysis");
                (ContentRoutine true, JStr "Future Outlook");
                (ContentRoutine false, JStr "Conclusion") ] in
  map summary (layout_calls (events_of r)) = deck
  /\ exists slides,
       presentation (world_of r) = (rev slides ++ presentation w)%list
       /\ map slide_summary slides = map expected_slide deck.
Proof.
  intros Hv r deck. unfold _get_fallback_content in Hv.
  set (items := [ record topic "Introduction and Overview" "title";
                  record "Background" "Key background information" "content";
                  record "Main Points" "Important details and examples" "content";
                  record "Analysis" "Critical analysis and insights" "content";
                  record "Future Outlook" "Trends and predictions" "content";
                  record "Conclusion" "Summary and takeaways" "conclusion" ]) in *.
  assert (Hu : forallb usable_record items = true) by reflexivity.
  assert (Hdeck : expected_calls 0 items = deck) by reflexivity.
  destruct (outlines_run E topic num_slides w _ Hv) as (w1 & evg & Hg & Hcalm & Hp & _).
  destruct (slide_loop_calls E author (Z.of_nat (List.length items)) items 0 w1 Hu)
    as (w2 & evl & Hl & Hc).
  destruct (slide_loop_slides E author (Z.of_nat (List.length items)) items 0 w1 Hu)
    as (slides & Hs & Hsum).
  rewrite Hl in Hs. unfold world_of in Hs. cbn [fst snd] in Hs.
  destruct (generate_ppt_facts E topic num_slides output_file author _ _ _ _ _ _ _
              Hg Hl Hcalm) as (_ & Hcalls & Hpres).
  fold r in Hcalls, Hpres. rewrite Hcalls, Hc, Hdeck. split; [reflexivity | ].
  exists slides. rewrite Hpres, Hs, Hp, Hsum, Hdeck. split; reflexivity.
Qed.
End FallbackDeck.

(** ** The records of the outline and their slides *)

Lemma selected_by_tag (i : Z) (slide_type : json) :
  selected i slide_type = if i =? 0 then TitleRoutine else by_tag slide_type.
Proof. unfold selected, by_tag. destruct (i =? 0); reflexivity. Qed.

Lemma dict_get_absent (fields : list (string * json)) (key : string) (default : json) :
  has_key key fields = false -> dict_get fields key default = default.
Proof.
  induction fields as [ | [k v] rest IH]; cbn; [reflexivity | ].
  destruct (String.eqb k key); [discriminate | exact IH].
Qed.

Lemma events_bind_prefix {A B} (m : M A) (k : A -> M B) (w : World) :
  exists more, events_of (bind m k w) = (events_of (m w) ++ more)%list.
Proof.
  unfold bind, events_of. destruct (m w) as [[[a | e] w1] ev1]; cbn [fst snd].
  - destruct (k a w1) as [[r w2] ev2]. exists ev2. reflexivity.
  - exists []. rewrite app_nil_r. reflexivity.
Qed.

Section DeckClaims.
Context (E : Env).

Lemma lay_out_call (author : string) (i : Z) (t : string) (content slide_type : json)
  (w : World) :
  printable content = true ->
  exists w' evs call,
    lay_out E author i (JStr t) content slide_type w = (Ok tt, w', evs)
    /\ layout_calls evs = [call]
    /\ call_title call = JStr t
    /\ routine_of call = selected i slide_type
    /\ (forall c, call_content call = Some c -> c = content).
Proof.
  intros Hp. unfold lay_out, selected.
  destruct ((i =? 0) || is_str slide_type "title").
  - destruct (create_title_slide_calls E t ("Created by " ++ author) w) as [Hv Hc].
    destruct (run_of _ _ _ _ Hv Hc) as (w' & evs & -> & Hl).
    exists w', evs, (TitleSlide (JStr t) ("Created by " ++ author)).
    repeat split; try assumption. intros c [=].
  - destruct (is_str slide_type "content").
    + destruct (create_content_slide_calls E t content true w) as [[sl Hv] Hc].
      rewrite (then_ret_tt _ w sl Hv).
      exists (world_of (create_content_slide E (JStr t) content true w)),
        (events_of (create_content_slide E (JStr t) content true w)),
        (ContentSlide (JStr t) content true).
      repeat split; try assumption. intros c [= <-]. reflexivity.
    + destruct (is_str slide_type "image").
      * destruct (content_str_of_printable E content w Hp) as [s Hs].
        destruct (returns_generative_image_description E s w) as [q Hq].
        destruct (run_of _ _ _ _ Hq (calm_generative_image_description E s w))
          as (w1 & ev1 & Hrun & Hcalm).
        destruct (create_image_slide_calls E t content q w1) as [[sl Hv] Hc].
        unfold bind at 1. rewrite Hs. unfold bind at 1. rewrite Hrun.
        rewrite (then_ret_tt _ w1 sl Hv).
        do 2 eexists. exists (ImageSlide (JStr t) content q).
        split; [reflexivity | ].
        cbn [app]. rewrite layout_calls_app, Hcalm, Hc.
        repeat split. intros c [= <-]. reflexivity.
      * destruct (create_content_slide_calls E t content false w) as [[sl Hv] Hc].
        rewrite (then_ret_tt _ w sl Hv).
        exists (world_of (create_content_slide E (JStr t) content false w)),
          (events_of (create_content_slide E (JStr t) content false w)),
          (ContentSlide (JStr t) content false).
        repeat split; try assumption. intros c [= <-]. reflexivity.
Qed.

Lemma slide_loop_calls_at (author : string) (total : Z) (items : list json) :
  forall (i : Z) (w : World),
    forallb usable_record items = true ->
    exists w' evs,
      slide_loop E author total items i w = (Ok tt, w', evs)
      /\ List.length (layout_calls evs) = List.length items
      /\ forall k fields,
           nth_error items k = Some (JObj fields) ->
           exists call,
             nth_error (layout_calls evs) k = Some call
             /\ laid_out (i + Z.of_nat k) fields call.
Proof.
  induction items as [ | r rest IH]; intros i w Hu.
  - exists w, []. split; [reflexivity | ]. split; [reflexivity | ].
    intros [ | k] fields H; discriminate.
  - cbn [forallb] in Hu. apply andb_prop in Hu. destruct Hu as [Hr Hrest].
    destruct r as [ | | | | | fields]; try discriminate.
    cbn [usable_record] in Hr. apply andb_prop in Hr. destruct Hr as [Ht Hp].
    apply (dict_get_string _ _ _ ("Slide " ++ PyStr.of_Z (i + 1))) in Ht.
    fold (title_at i fields) in Ht.
    destruct (title_at i fields) as [ | | | t | | ] eqn:Htitle; try discriminate.
    destruct (lay_out_call author i t (content_in fields) (slide_type_in fields) w Hp)
      as (w1 & ev1 & call & Hrun & Hc & Hct & Hcr & Hcc).
    destruct (IH (i + 1) w1 Hrest) as (w2 & ev2 & Hrun' & Hlen & Hat).
    rewrite slide_loop_step, Htitle. rewrite !emit_then.
    unfold bind. rewrite Hrun, Hrun'. unfold value_of, world_of, events_of. cbn [fst snd].
    do 2 eexists. split; [reflexivity | ].
    cbn [layout_calls]. rewrite layout_calls_app, Hc. cbn [app List.length].
    split; [rewrite Hlen; reflexivity | ].
    intros [ | k] fields' Hk.
    + cbn [nth_error] in Hk. injection Hk as <-.
      exists call. split; [reflexivity | ].
      rewrite Z.add_0_r. unfold laid_out. rewrite Htitle. repeat split; assumption.
    + cbn [nth_error] in Hk. destruct (Hat k fields' Hk) as (c & Hn & Hlaid).
      exists c. split; [exact Hn | ].
      replace (i + Z.of_nat (S k)) with (i + 1 + Z.of_nat k) by lia. exact Hlaid.
Qed.

Lemma generate_ppt_calls_at (topic : string) (num_slides : Z) (output_file author : string)
  (w : World) (items : list json) :
  value_of (generate_content_outlines E topic num_slides w) = Ok (JArr items) ->
  forallb usable_record items = true ->
  let r := generate_ppt E topic num_slides output_file author w in
  value_of r = match save E output_file with
               | None => Ok output_file
               | Some e => Raised e
               end
  /\ List.length (layout_calls (events_of r)) = List.length items
  /\ forall k fields,
       nth_error items k = Some (JObj fields) ->
       exists call,
         nth_error (layout_calls (events_of r)) k = Some call
         /\ laid_out (Z.of_nat k) fields call.
Proof.
  intros Hv Hu r.
  destruct (outlines_run E topic num_slides w _ Hv) as (w1 & evg & Hg & Hcalm & _).
  destruct (slide_loop_calls_at author (Z.of_nat (List.length items)) items 0 w1 Hu)
    as (w2 & evl & Hl & Hlen & Hat).
  destruct (generate_ppt_facts E topic num_slides output_file author _ _ _ _ _ _ _
              Hg Hl Hcalm) as (Hval & Hcalls & _).
  fold r in Hval, Hcalls. rewrite Hcalls, Hval. split; [ | split; [exact Hlen | exact Hat]].
  unfold closing, value_of. destruct (save E output_file); reflexivity.
Qed.

(** C1 (amended).  When the outline is a list of N usable records,
    [generate_ppt] makes exactly N layout calls, one per record and in
    their order, each with the record's title (or [Slide i+1]).  The
    record at index 0 gets the title routine whatever its slide type; every
    later record gets the routine its slide type selects: [title] the
    title routine, [content] the content routine with an image, [image]
    the image routine, anything else the content routine without one. *)
Theorem one_layout_call_per_record (topic : string) (num_slides : Z)
  (output_file author : string) (w : World) (items : list json) :
  value_of (generate_content_outlines E topic num_slides w) = Ok (JArr items) ->
  forallb usable_record items = true ->
  let calls := layout_calls (events_of (generate_ppt E topic num_slides output_file author w)) in
  List.length calls = List.length items
  /\ forall k fields,
       nth_error items k = Some (JObj fields) ->
       exists call,
         nth_error calls k = Some call
         /\ call_title call = title_at (Z.of_nat k) fields
         /\ routine_of call = match k with
                              | O => TitleRoutine
                              | S _ => by_tag (slide_type_in fields)
                              end.
Proof.
  intros Hv Hu calls. subst calls.
  destruct (generate_ppt_calls_at topic num_slides output_file author w items Hv Hu)
    as (_ & Hlen & Hat).
  split; [exact Hlen | ].
  intros k fields Hk. destruct (Hat k fields Hk) as (call & Hn & Ht & Hr & _).
  exists call. split; [exact Hn | ]. split; [exact Ht | ].
  rewrite Hr, selected_by_tag. destruct k; reflexivity.
Qed.

(** C10.  Over records that are dictionaries, a missing key never makes
    the loop fail.  When the records of the outline are usable, the loop
    runs through and [generate_ppt] ends as [save] does; the call for a
    record without [title] gets the title [Slide i+1], the call for a
    record without [content] gets the empty string as content, and a
    record without [slide_type] is laid out as a content record (the
    content routine with an image, or the title routine at index 0). *)
Theorem missing_keys_take_defaults (topic : string) (num_slides : Z)
  (output_file author : string) (w : World) (items : list json) :
  value_of (generate_content_outlines E topic num_slides w) = Ok (JArr items) ->
  forallb usable_record items = true ->
  let r := generate_ppt E topic num_slides output_file author w in
  value_of r = match save E output_file with
               | None => Ok output_file
               | Some e => Raised e
               end
  /\ forall k fields,
       nth_error items k = Some (JObj fields) ->
       exists call,
         nth_error (layout_calls (events_of r)) k = Some call
         /\ (has_key "title" fields = false ->
             call_title call = JStr ("Slide " ++ PyStr.of_Z (Z.of_nat k + 1)))
         /\ (has_key "content" fields = false ->
             forall c, call_content call = Some c -> c = JStr EmptyString)
         /\ (has_key "slide_type" fields = false ->
             routine_of call = match k with
                               | O => TitleRoutine
                               | S _ => ContentRoutine true
                               end).
Proof.
  intros Hv Hu r.
  destruct (generate_ppt_calls_at topic num_slides output_file author w items Hv Hu)
    as (Hval & _ & Hat).
  split; [exact Hval | ].
  intros k fields Hk. destruct (Hat k fields Hk) as (call & Hn & Ht & Hr & Hc).
  exists call. split; [exact Hn | ]. split; [ | split].
  - intros Hno. rewrite Ht. unfold title_at. apply dict_get_absent. exact Hno.
  - intros Hno c Hcall. rewrite (Hc c Hcall). unfold content_in.
    apply dict_get_absent. exact Hno.
  - intros Hno. rewrite Hr, selected_by_tag. unfold slide_type_in.
    rewrite (dict_get_absent _ _ _ Hno). destruct k; reflexivity.
Qed.

Lemma slide_loop_first_call (author : string) (total : Z) (fields : list (string * json))
  (rest : list json) (w : World) :
  exists later,
    layout_calls (events_of (slide_loop E author total (JObj fields :: rest) 0 w))
    = TitleSlide (title_at 0 fields) ("Created by " ++ author) :: later.
Proof.
  rewrite slide_loop_step, !emit_then. unfold events_of at 1 2. cbn [snd layout_calls].
  destruct (events_bind_prefix
              (lay_out E author 0 (title_at 0 fields) (content_in fields)
                 (slide_type_in fields))
              (fun _ => slide_loop E author total rest (0 + 1)) w) as [more Hmore].
  rewrite Hmore. unfold lay_out. cbn [Z.eqb orb]. unfold create_title_slide.
  rewrite emit_then. unfold events_of at 1. cbn [snd app layout_calls].
  eexists. reflexivity.
Qed.

(** C9.  Whatever the outline list holds after it, and whatever the slide
    type of its first record is, the first layout call of [generate_ppt]
    is the title routine, with the title of that record (or [Slide 1]) and
    the subtitle [Created by] followed by the author. *)
Theorem first_record_gets_title_slide (topic : string) (num_slides : Z)
  (output_file author : string) (w : World) (fields : list (string * json))
  (rest : list json) :
  value_of (generate_content_outlines E topic num_slides w)
  = Ok (JArr (JObj fields :: rest)) ->
  exists later,
    layout_calls (events_of (generate_ppt E topic num_slides output_file author w))
    = TitleSlide (title_at 0 fields) ("Created by " ++ author) :: later.
Proof.
  intros Hv.
  destruct (outlines_run E topic num_slides w _ Hv) as (w1 & evg & Hg & Hcalm & _).
  destruct (slide_loop_first_call author (Z.of_nat (List.length (JObj fields :: rest)))
              fields rest w1) as [later Hfirst].
  destruct (generate_ppt_facts E topic num_slides output_file author _ _ _ _ _ _ _
              Hg (run_eta _) Hcalm) as (_ & Hcalls & _).
  exists later. rewrite Hcalls. exact Hfirst.
Qed.

(** C5.  A content slide asked for with an image, whose download or whose
    placement fails, is still returned and appended to the deck, with its
    title and its content text and with no picture. *)
Theorem image_failure_keeps_slide_text (t : string) (content : json) (w : World) :
  let n := io_calls w in
  let r := create_content_slide E (JStr t) content true w in
  exists d,
    value_of (generative_image_description E (content_text_of E content)
                (set_presentation (content_slide E t content false :: presentation w) w))
    = Ok d
    /\ (download_ok E n d = false \/ picture_ok E n = false ->
        exists sl,
          value_of r = Ok sl
          /\ presentation (world_of r) = sl :: presentation w
          /\ s_title sl = Some (Para t 30 true None false)
          /\ s_body sl = Some (Para (content_text_of E content) 18 false black false)
          /\ s_pictures sl = []).
Proof.
  intros n r. subst n r.
  destruct (create_content_slide_with_image E t content w)
    as (d & w' & evs & Hd & Hrun & Hs & _).
  exists d. split; [exact Hd | ].
  intros Hfail.
  assert (Hno : fetch_ok E (io_calls w) d = false).
  { unfold fetch_ok. destruct Hfail as [-> | ->]; [reflexivity | apply andb_false_r]. }
  rewrite Hno in Hrun, Hs. rewrite Hrun. unfold value_of, world_of. cbn [fst snd].
  exists (content_slide E t content false). repeat split. exact Hs.
Qed.
End DeckClaims.

(** ** Sample runs *)

Lemma requests_are_spaced_witness :
  let w' := world_of (_retry_api_call retry_env (_generate retry_env "outline") 3 fresh_world) in
  (last_api_call fresh_world + min_delay * inject_Z (requests_between fresh_world w')
   <= last_api_call w')%Q.
Proof.
  apply (requests_are_spaced retry_env "outline" 3 fresh_world).
  apply sample_clock_monotone.
Defined.

Lemma retry_requests_are_bounded_witness :
  let w' := world_of (_retry_api_call retry_env (_generate retry_env "outline") 3 fresh_world) in
  0 <= requests_between fresh_world w' <= 3 /\ 1 <= requests_between fresh_world w'.
Proof.
  destruct (retry_requests_are_bounded retry_env "outline" 3 fresh_world) as (Hb & Hone & _).
  split; [exact Hb | apply Hone; lia].
Defined.

Lemma fence_indexing_is_safe_witness :
  strip_fences "[]" fresh_world = (Ok (payload "[]"), fresh_world, []) /\ payload "[]" = "[]".
Proof.
  destruct (fence_indexing_is_safe "[]" fresh_world) as (Hrun & Hsame).
  split; [exact Hrun | apply Hsame; reflexivity].
Defined.

Lemma fenced_json_is_extracted_witness :
  strip_fences ("Here is the outline:" ++ PyStr.nl ++ fence_json
                ++ (PyStr.nl ++ "[]" ++ PyStr.nl) ++ fence ++ (PyStr.nl ++ "Enjoy!"))
    fresh_world
  = (Ok (PyStr.strip (PyStr.nl ++ "[]" ++ PyStr.nl)), fresh_world, []).
Proof.
  apply (fenced_json_is_extracted ("Here is the outline:" ++ PyStr.nl)
           (PyStr.nl ++ "[]" ++ PyStr.nl) (PyStr.nl ++ "Enjoy!") fresh_world);
    reflexivity.
Defined.

Lemma fenced_text_is_extracted_witness :
  strip_fences ("Here is the outline:" ++ PyStr.nl ++ fence
                ++ (PyStr.nl ++ "[]" ++ PyStr.nl) ++ fence ++ (PyStr.nl ++ "Enjoy!"))
    fresh_world
  = (Ok (PyStr.strip (PyStr.nl ++ "[]" ++ PyStr.nl)), fresh_world, []).
Proof.
  apply (fenced_text_is_extracted ("Here is the outline:" ++ PyStr.nl)
           (PyStr.nl ++ "[]" ++ PyStr.nl) (PyStr.nl ++ "Enjoy!") fresh_world);
    reflexivity.
Defined.

Lemma fenced_outline_is_returned_witness :
  let r := generate_content_outlines fenced_env "Cats" 6 fresh_world in
  value_of r = Ok (JArr []) /\ requests_between fresh_world (world_of r) = 1.
Proof.
  apply (fenced_outline_is_returned fenced_env "Cats" 6 fresh_world fenced_empty
           EmptyString (PyStr.nl ++ "[]" ++ PyStr.nl) EmptyString (JArr []));
    reflexivity.
Defined.

Lemma keyword_hit_sends_no_request_witness :
  exists d,
    In d (List.map snd keyword_map)
    /\ generative_image_description retry_env "The Future of work" fresh_world
       = (Ok d, fresh_world, [StInfo (MsgCachedDescription d)]).
Proof.
  apply (keyword_hit_sends_no_request retry_env "The Future of work" "future"
           "futuristic technology innovation" fresh_world).
  - right. right. left. reflexivity.
  - reflexivity.
Defined.

Lemma download_images_outcome_witness :
  (exists w' evs,
     download_images photo_env "cats" fresh_world = (Ok (Some temp_image), w', evs)
     /\ existsb (String.eqb temp_image) (files w') = true)
  /\ (exists w' evs,
        download_images (full_disk photo_env) "cats" fresh_world = (Ok None, w', evs)
        /\ existsb (String.eqb temp_image) (files w') = true).
Proof.
  split.
  - destruct (download_images_outcome photo_env "cats" fresh_world)
      as (w' & evs & Hrun & _ & Hfile & _).
    exists w', evs. split; [exact Hrun | apply Hfile; reflexivity].
  - destruct (download_images_outcome (full_disk photo_env) "cats" fresh_world)
      as (w' & evs & Hrun & _ & Hfile & _).
    exists w', evs. split; [exact Hrun | apply Hfile; reflexivity].
Defined.

Lemma rejected_title_leaves_blank_slide_witness :
  create_title_slide (cats_env SearchEmpty) (JNum "1") "Created by Pranab" fresh_world
  = (Raised (PyExn "TypeError" "expected a string"),
     set_presentation (blank_slide 0 :: presentation fresh_world) fresh_world,
     [Layout (TitleSlide (JNum "1") "Created by Pranab")]).
Proof.
  apply (rejected_title_leaves_blank_slide (cats_env SearchEmpty) (JNum "1") JNull
           (PyExn "TypeError" "expected a string") "Created by Pranab" "cats" false
           fresh_world); reflexivity.
Defined.

Lemma failed_image_leaves_plain_slide_witness :
  value_of (create_content_slide (cats_env SearchEmpty) (JStr "Habits") (JStr "Sleep")
              true fresh_world)
  = value_of (create_content_slide (cats_env SearchEmpty) (JStr "Habits") (JStr "Sleep")
                false fresh_world).
Proof.
  apply (failed_image_leaves_plain_slide (cats_env SearchEmpty) "Habits" (JStr "Sleep")
           fresh_world).
  intros query. reflexivity.
Defined.

Lemma create_image_slide_outcome_witness :
  existsb (String.eqb temp_image)
    (files (world_of (create_image_slide photo_env (JStr "Pets") (JStr "Cats") "cats"
                        fresh_world)))
  = false
  /\ existsb (String.eqb temp_image)
       (files (world_of (create_image_slide (full_disk photo_env) (JStr "Pets") (JStr "Cats")
                           "cats" fresh_world)))
     = true.
Proof.
  split.
  - destruct (create_image_slide_outcome photo_env "Pets" (JStr "Cats") "cats" fresh_world)
      as (_ & _ & Hgone & _).
    apply Hgone. reflexivity.
  - destruct (create_image_slide_outcome (full_disk photo_env) "Pets" (JStr "Cats") "cats"
                fresh_world) as (_ & _ & _ & Hleft & _).
    apply Hleft; reflexivity.
Defined.

Lemma create_content_slide_outcome_witness :
  (let r := create_content_slide photo_env (JStr "Habits") (JStr "Sleep") true fresh_world in
   value_of r = Ok (content_slide photo_env "Habits" (JStr "Sleep") true)
   /\ existsb (String.eqb temp_image) (files (world_of r)) = false)
  /\ (let r := create_content_slide (full_disk photo_env) (JStr "Habits") (JStr "Sleep") true
                 fresh_world in
      value_of r = Ok (content_slide (full_disk photo_env) "Habits" (JStr "Sleep") false)
      /\ existsb (String.eqb temp_image) (files (world_of r)) = true).
Proof.
  split.
  - destruct (create_content_slide_outcome photo_env "Habits" (JStr "Sleep") fresh_world)
      as (_ & d & _ & Hv & _ & Hgone & _).
    split; [exact Hv | apply Hgone; reflexivity].
  - destruct (create_content_slide_outcome (full_disk photo_env) "Habits" (JStr "Sleep")
                fresh_world) as (_ & d & _ & Hv & _ & _ & Hleft & _).
    split; [exact Hv | apply Hleft; reflexivity].
Defined.

Lemma generate_ppt_lays_out_every_record_witness :
  let r := generate_ppt (cats_env SearchEmpty) "Cats" 6 "presentation.pptx" "Pranab"
             fresh_world in
  map summary (layout_calls (events_of r))
  = [(TitleRoutine, JStr "Cats"); (ContentRoutine true, JStr "Habits")]
  /\ List.length (layout_calls (events_of r)) = 2%nat
  /\ value_of r = Ok "presentation.pptx".
Proof.
  apply (generate_ppt_lays_out_every_record (cats_env SearchEmpty) "Cats" 6
           "presentation.pptx" "Pranab" fresh_world
           [ record "Cats" "Introduction" "title";
             record "Habits" "An introduction to their habits" "content" ]).
  - vm_compute. reflexivity.
  - reflexivity.
Defined.

Lemma generate_ppt_builds_one_slide_per_record_witness :
  exists slides,
    presentation (world_of (generate_ppt (cats_env SearchEmpty) "Cats" 6 "presentation.pptx"
                              "Pranab" fresh_world))
    = (rev slides ++ presentation fresh_world)%list
    /\ map slide_summary slides = [(0%nat, Some (JStr "Cats")); (1%nat, Some (JStr "Habits"))]
    /\ List.length slides = 2%nat.
Proof.
  apply (generate_ppt_builds_one_slide_per_record (cats_env SearchEmpty) "Cats" 6
           "presentation.pptx" "Pranab" fresh_world
           [ record "Cats" "Introduction" "title";
             record "Habits" "An introduction to their habits" "content" ]).
  - vm_compute. reflexivity.
  - reflexivity.
Defined.

Lemma record_that_is_no_dictionary_aborts_witness :
  let r := generate_ppt numbers_env "Cats" 6 "presentation.pptx" "Pranab" fresh_world in
  (exists msg, value_of r = Raised (PyExn "AttributeError" msg))
  /\ map summary (layout_calls (events_of r)) = [(TitleRoutine, JStr "Cats")].
Proof.
  apply (record_that_is_no_dictionary_aborts numbers_env "Cats" 6 "presentation.pptx"
           "Pranab" fresh_world
           [record "Cats" "Introduction" "title"]
           [record "Habits" "An introduction to their habits" "content"]
           (JNum "1")).
  - vm_compute. reflexivity.
  - reflexivity.
  - reflexivity.
Defined.

Lemma image_record_with_mixed_list_aborts_witness :
  exists msg,
    slide_loop (cats_env SearchEmpty) "Pranab" 2 [JObj mixed_fields] 1 fresh_world
    = (Raised (PyExn "TypeError" msg), fresh_world,
       [StatusText (MsgGeneratingSlide (1 + 1) 2 (title_at 1 mixed_fields));
        Progress (inject_Z (1 + 1) / inject_Z 2)]).
Proof.
  apply (image_record_with_mixed_list_aborts (cats_env SearchEmpty) "Pranab" 2 mixed_fields
           [] [JStr "Cats"; JNum "2"] 1 fresh_world).
  - lia.
  - reflexivity.
  - reflexivity.
  - reflexivity.
Defined.

Lemma fallback_outline_gives_six_slides_witness :
  let r := generate_ppt chatty_env "Cats" 6 "presentation.pptx" "Pranab" fresh_world in
  let deck := [ (TitleRoutine, JStr "Cats");
                (ContentRoutine true, JStr "Background");
                (ContentRoutine true, JStr "Main Points");
                (ContentRoutine true, JStr "Analysis");
                (ContentRoutine true, JStr "Future Outlook");
                (ContentRoutine false, JStr "Conclusion") ] in
  map summary (layout_calls (events_of r)) = deck
  /\ exists slides,
       presentation (world_of r) = (rev slides ++ presentation fresh_world)%list
       /\ map slide_summary slides = map expected_slide deck.
Proof.
  apply (fallback_outline_gives_six_slides chatty_env "Cats" 6 "presentation.pptx" "Pranab"
           fresh_world).
  vm_compute. reflexivity.
Defined.

Lemma main_reports_the_outcome_witness :
  let g := generate_ppt (cats_env SearchEmpty) "Cats" 6 "presentation.pptx" "Pranab"
             (constructed "gemini-key" "pexels-key" fresh_world) in
  main (cats_env SearchEmpty) (cats_form true) fresh_world
  = (Ok tt, world_of g,
     ([PageRendered; GenaiConfigure "gemini-key"] ++ events_of g
      ++ match value_of g with
         | Ok _ => [DownloadButton "presentation.pptx"; Balloons]
         | Raised e => [StError (MsgAnErrorOccurred e); StException e]
         end
      ++ [Footer])%list).
Proof.
  apply (main_reports_the_outcome (cats_env SearchEmpty) (cats_form true) fresh_world);
    reflexivity.
Defined.

(** C1, as stated, fails on an outline whose first record is a content
    record: the outline is well formed, and yet its record is laid out by
    the title routine, not by the routine its slide type selects. *)
Lemma first_record_is_not_laid_out_by_its_tag :
  value_of (generate_content_outlines habits_env "Cats" 6 fresh_world)
  = Ok (JArr [record "Habits" "An introduction to their habits" "content"])
  /\ layout_calls (events_of (generate_ppt habits_env "Cats" 6 "presentation.pptx" "Pranab"
                                fresh_world))
     = [TitleSlide (JStr "Habits") "Created by Pranab"]
  /\ by_tag (JStr "content") = ContentRoutine true.
Proof.
  split; [vm_compute; reflexivity | ].
  split; [vm_compute; reflexivity | reflexivity].
Qed.

Lemma one_layout_call_per_record_witness :
  let calls := layout_calls (events_of (generate_ppt (cats_env SearchEmpty) "Cats" 6
                                          "presentation.pptx" "Pranab" fresh_world)) in
  List.length calls = 2%nat
  /\ exists call,
       nth_error calls 1 = Some call
       /\ call_title call = JStr "Habits"
       /\ routine_of call = ContentRoutine true.
Proof.
  destruct (one_layout_call_per_record (cats_env SearchEmpty) "Cats" 6 "presentation.pptx"
              "Pranab" fresh_world
              [ record "Cats" "Introduction" "title";
                record "Habits" "An introduction to their habits" "content" ])
    as (Hlen & Hat).
  - vm_compute. reflexivity.
  - reflexivity.
  - split; [exact Hlen | ].
    exact (Hat 1%nat _ eq_refl).
Defined.

Lemma missing_keys_take_defaults_witness :
  let r := generate_ppt bare_env "Cats" 6 "presentation.pptx" "Pranab" fresh_world in
  value_of r = Ok "presentation.pptx"
  /\ exists call,
       nth_error (layout_calls (events_of r)) 1 = Some call
       /\ call_title call = JStr "Slide 2"
       /\ (forall c, call_content call = Some c -> c = JStr EmptyString)
       /\ routine_of call = ContentRoutine true.
Proof.
  destruct (missing_keys_take_defaults bare_env "Cats" 6 "presentation.pptx" "Pranab"
              fresh_world [JObj []; JObj []]) as (Hval & Hat).
  - vm_compute. reflexivity.
  - reflexivity.
  - split; [exact Hval | ].
    destruct (Hat 1%nat [] eq_refl) as (call & Hn & Ht & Hc & Hr).
    exists call. split; [exact Hn | ].
    split; [exact (Ht eq_refl) | ]. split; [exact (Hc eq_refl) | exact (Hr eq_refl)].
Defined.

Lemma first_record_gets_title_slide_witness :
  exists later,
    layout_calls (events_of (generate_ppt habits_env "Cats" 6 "presentation.pptx" "Pranab"
                               fresh_world))
    = TitleSlide (JStr "Habits") "Created by Pranab" :: later.
Proof.
  apply (first_record_gets_title_slide habits_env "Cats" 6 "presentation.pptx" "Pranab"
           fresh_world
           [ ("title", JStr "Habits"); ("content", JStr "An introduction to their habits");
             ("slide_type", JStr "content") ] []).
  vm_compute. reflexivity.
Defined.

Lemma image_failure_keeps_slide_text_witness :
  (let r := create_content_slide (cats_env SearchEmpty) (JStr "Habits") (JStr "Sleep") true
              fresh_world in
   exists sl,
     value_of r = Ok sl
     /\ presentation (world_of r) = sl :: presentation fresh_world
     /\ s_title sl = Some (Para "Habits" 30 true None false)
     /\ s_body sl = Some (Para "Sleep" 18 false black false)
     /\ s_pictures sl = [])
  /\ (let r := create_content_slide (rejecting_pictures photo_env) (JStr "Habits")
                 (JStr "Sleep") true fresh_world in
      exists sl,
        value_of r = Ok sl
        /\ presentation (world_of r) = sl :: presentation fresh_world
        /\ s_title sl = Some (Para "Habits" 30 true None false)
        /\ s_body sl = Some (Para "Sleep" 18 false black false)
        /\ s_pictures sl = []).
Proof.
  split.
  - destruct (image_failure_keeps_slide_text (cats_env SearchEmpty) "Habits" (JStr "Sleep")
                fresh_world) as (d & _ & Hkept).
    apply Hkept. left. reflexivity.
  - destruct (image_failure_keeps_slide_text (rejecting_pictures photo_env) "Habits"
                (JStr "Sleep") fresh_world) as (d & _ & Hkept).
    apply Hkept. right. reflexivity.
Defined.
